(** * Register-level model of the RA4M1 fast PWM / SPI / ADC / DAC sketch

    A shallow embedding of
    [M4_Minima_Test_Code_Fast-PWM_SPI_IRQ_ADC_DAC_SCI_1a.ino]:
    the memory-mapped registers the sketch pokes, its global variables,
    the timer interrupt handler, the placeholder handlers, the peripheral
    set-up routines, the main loop and the diagnostic routines that dump
    registers over the serial port.

    Every access to a [volatile] register is an observable event.  A read
    returns either what the peripheral hardware has put in the register
    (a hardware oracle) or, when the hardware has not touched it, the value
    stored there last. *)

From Stdlib Require Import String ZArith List Bool Lia.
Import ListNotations.
Local Open Scope Z_scope.

(** ** Fixed-width unsigned integers *)

(** Conversion to a [w]-bit unsigned C integer type. *)
Definition trunc (w x : Z) : Z := x mod 2 ^ w.

(** ** Memory-mapped registers

    A register is the address the macro expands to together with the width
    of the pointed-to type ([volatile unsigned char], [short] or [int]). *)

Record reg : Type := mkReg { addr : Z; bits : Z }.

Definition reg_eqb (r1 r2 : reg) : bool :=
  (addr r1 =? addr r2) && (bits r1 =? bits r2).

Definition U8 (a : Z) : reg := mkReg a 8.     (* volatile unsigned char  * *)
Definition U16 (a : Z) : reg := mkReg a 16.   (* volatile unsigned short * *)
Definition U32 (a : Z) : reg := mkReg a 32.   (* volatile unsigned int   * *)

(** Interrupt control unit. *)
Definition ICUBASE := 0x40000000.
Definition IELSR := 0x6300.
Definition ICU_IELSR05 := U32 (ICUBASE + IELSR + (5 * 4)).
Definition ICU_IELSR06 := U32 (ICUBASE + IELSR + (6 * 4)).
Definition ICU_IELSR07 := U32 (ICUBASE + IELSR + (7 * 4)).
Definition ICU_IELSR08 := U32 (ICUBASE + IELSR + (8 * 4)).
Definition IRQ_GPT7_OVF := 0x95.
Definition IRQ_SPI0_SPRI := 0xAD.
Definition IRQ_SPI0_SPTI := 0xAE.
Definition IRQ_SPI0_SPEI := 0xB0.
Definition IRQ_SPI1_SPRI := 0xB2.
Definition IRQ_SPI1_SPTI := 0xB3.
Definition IRQ_SPI1_SPEI := 0xB5.

(** Event link controller and module stop control. *)
Definition ELCBASE := 0x40040000.
Definition ELSR := 0x1010.
Definition ELC_ELSR12 := U16 (ELCBASE + ELSR + (12 * 4)).
Definition MSTP := 0x40040000.
Definition MSTP_MSTPCRB := U32 (MSTP + 0x7000).
Definition MSTP_MSTPCRD := U32 (MSTP + 0x7008).
Definition MSTPB18 := 18.
Definition MSTPB19 := 19.
Definition MSTPD5 := 5.
Definition MSTPD6 := 6.
Definition MSTPD16 := 16.
Definition MSTPD20 := 20.

(** 14-bit A/D converter. *)
Definition ADCBASE := 0x40050000.
Definition ADC140_ADDR00 := U16 (ADCBASE + 0xC020).
Definition ADC140_ADDR01 := U16 (ADCBASE + 0xC020 + 2).
Definition ADC140_ADCSR := U16 (ADCBASE + 0xC000).
Definition ADC140_ADANSA0 := U16 (ADCBASE + 0xC004).
Definition ADC140_ADADS0 := U16 (ADCBASE + 0xC008).
Definition ADC140_ADCER := U16 (ADCBASE + 0xC00E).
Definition ADC140_ADADC := U8 (ADCBASE + 0xC00C).
Definition ADC140_ADHVREFCNT := U8 (ADCBASE + 0xC08A).

(** 12-bit D/A converter. *)
Definition DACBASE := 0x40050000.
Definition DAC12_DADR0 := U16 (DACBASE + 0xE000).
Definition DAC12_DACR := U8 (DACBASE + 0xE004).
Definition DAC12_DADPR := U8 (DACBASE + 0xE005).
Definition DAC12_DAADSCR := U8 (DACBASE + 0xE006).
Definition DAC12_DAVREFCR := U8 (DACBASE + 0xE007).

(** Pin function select registers, word and byte access. *)
Definition PORTBASE := 0x40040000.
Definition P000PFS := 0x0800.
Definition P100PFS := 0x0840.
Definition P200PFS := 0x0880.
Definition P300PFS := 0x08C0.
Definition PFS_P000PFS := U32 (PORTBASE + P000PFS).
Definition PFS_P001PFS := U32 (PORTBASE + P000PFS + (1 * 4)).
Definition PFS_P002PFS := U32 (PORTBASE + P000PFS + (2 * 4)).
Definition PFS_P014PFS := U32 (PORTBASE + P000PFS + (14 * 4)).
Definition PFS_P100PFS := U32 (PORTBASE + P100PFS).
Definition PFS_P101PFS := U32 (PORTBASE + P100PFS + (1 * 4)).
Definition PFS_P102PFS := U32 (PORTBASE + P100PFS + (2 * 4)).
Definition PFS_P103PFS := U32 (PORTBASE + P100PFS + (3 * 4)).
Definition PFS_P104PFS := U32 (PORTBASE + P100PFS + (4 * 4)).
Definition PFS_P105PFS := U32 (PORTBASE + P100PFS + (5 * 4)).
Definition PFS_P109PFS := U32 (PORTBASE + P100PFS + (9 * 4)).
Definition PFS_P110PFS := U32 (PORTBASE + P100PFS + (10 * 4)).
Definition PFS_P111PFS := U32 (PORTBASE + P100PFS + (11 * 4)).
Definition PFS_P112PFS := U32 (PORTBASE + P100PFS + (12 * 4)).
Definition PFS_P204PFS := U32 (PORTBASE + P200PFS + (4 * 4)).
Definition PFS_P303PFS := U32 (PORTBASE + P300PFS + (3 * 4)).
Definition PFS_P304PFS := U32 (PORTBASE + P300PFS + (4 * 4)).
Definition PFS_P106PFS_BY := U8 (PORTBASE + 0x0843 + (6 * 4)).
Definition PFS_P107PFS_BY := U8 (PORTBASE + 0x0843 + (7 * 4)).

(** General PWM timers: channel [n] lives at offset [n * 0x100]. *)
Definition GPTBASE := 0x40070000.
Definition GTWP := 0x8000.
Definition GTSTR := 0x8004.
Definition GTSTP := 0x8008.
Definition GTCLR := 0x800C.
Definition GTSSR := 0x8010.
Definition GTPSR := 0x8014.
Definition GTCSR := 0x8018.
Definition GTCR := 0x802C.
Definition GTUDDTYC := 0x8030.
Definition GTIOR := 0x8034.
Definition GTBER := 0x8040.
Definition GTCNT := 0x8048.
Definition GTCCRA := 0x804C.
Definition GTCCRB := 0x8050.
Definition GTCCRC := 0x8054.
Definition GTCCRD := 0x8058.
Definition GTCCRE := 0x805C.
Definition GTCCRF := 0x8060.
Definition GTPR := 0x8064.
Definition GTPBR := 0x8068.

Definition GPT321_GTSSR := U32 (GPTBASE + GTSSR + 0x0100).
Definition GPT321_GTPSR := U32 (GPTBASE + GTPSR + 0x0100).
Definition GPT321_GTCSR := U32 (GPTBASE + GTCSR + 0x0100).
Definition GPT321_GTCR := U32 (GPTBASE + GTCR + 0x0100).
Definition GPT321_GTUDDTYC := U32 (GPTBASE + GTUDDTYC + 0x0100).
Definition GPT321_GTIOR := U32 (GPTBASE + GTIOR + 0x0100).
Definition GPT321_GTBER := U32 (GPTBASE + GTBER + 0x0100).
Definition GPT321_GTCNT := U32 (GPTBASE + GTCNT + 0x0100).
Definition GPT321_GTCCRA := U32 (GPTBASE + GTCCRA + 0x0100).
Definition GPT321_GTCCRB := U32 (GPTBASE + GTCCRB + 0x0100).
Definition GPT321_GTCCRC := U32 (GPTBASE + GTCCRC + 0x0100).
Definition GPT321_GTCCRD := U32 (GPTBASE + GTCCRD + 0x0100).
Definition GPT321_GTPR := U32 (GPTBASE + GTPR + 0x0100).
Definition GPT321_GTPBR := U32 (GPTBASE + GTPBR + 0x0100).

Definition GPT163_GTSTP := U32 (GPTBASE + GTSTP + 0x0300).

Definition GPT164_GTSTR := U32 (GPTBASE + GTSTR + 0x0400).
Definition GPT164_GTCLR := U32 (GPTBASE + GTCLR + 0x0400).
Definition GPT164_GTSSR := U32 (GPTBASE + GTSSR + 0x0400).
Definition GPT164_GTPSR := U32 (GPTBASE + GTPSR + 0x0400).
Definition GPT164_GTCSR := U32 (GPTBASE + GTCSR + 0x0400).
Definition GPT164_GTCR := U32 (GPTBASE + GTCR + 0x0400).
Definition GPT164_GTUDDTYC := U32 (GPTBASE + GTUDDTYC + 0x0400).
Definition GPT164_GTIOR := U32 (GPTBASE + GTIOR + 0x0400).
Definition GPT164_GTCNT := U32 (GPTBASE + GTCNT + 0x0400).
Definition GPT164_GTCCRB := U32 (GPTBASE + GTCCRB + 0x0400).
Definition GPT164_GTCCRD := U32 (GPTBASE + GTCCRD + 0x0400).
Definition GPT164_GTPR := U32 (GPTBASE + GTPR + 0x0400).
Definition GPT164_GTPBR := U32 (GPTBASE + GTPBR + 0x0400).

Definition GPT167_GTSSR := U32 (GPTBASE + GTSSR + 0x0700).
Definition GPT167_GTPSR := U32 (GPTBASE + GTPSR + 0x0700).
Definition GPT167_GTCSR := U32 (GPTBASE + GTCSR + 0x0700).
Definition GPT167_GTCR := U32 (GPTBASE + GTCR + 0x0700).
Definition GPT167_GTUDDTYC := U32 (GPTBASE + GTUDDTYC + 0x0700).
Definition GPT167_GTIOR := U32 (GPTBASE + GTIOR + 0x0700).
Definition GPT167_GTBER := U32 (GPTBASE + GTBER + 0x0700).
Definition GPT167_GTCNT := U32 (GPTBASE + GTCNT + 0x0700).
Definition GPT167_GTCCRA := U32 (GPTBASE + GTCCRA + 0x0700).
Definition GPT167_GTCCRB := U32 (GPTBASE + GTCCRB + 0x0700).
Definition GPT167_GTCCRC := U32 (GPTBASE + GTCCRC + 0x0700).
Definition GPT167_GTCCRD := U32 (GPTBASE + GTCCRD + 0x0700).
Definition GPT167_GTPR := U32 (GPTBASE + GTPR + 0x0700).
Definition GPT167_GTPBR := U32 (GPTBASE + GTPBR + 0x0700).

(** Asynchronous general purpose timer (the millis() tick). *)
Definition AGTBASE := 0x40084000.
Definition AGT0_AGTCR := U8 (AGTBASE + 0x008).

(** Serial peripheral interface, units 0 and 1. *)
Definition SPIBASE := 0x40070000.
Definition SPI0_SPCR := U8 (SPIBASE + 0x2000).
Definition SPI1_SPCR := U8 (SPIBASE + 0x2100).
Definition SPCR_MSTR := 3.
Definition SPCR_SPEIE := 4.
Definition SPCR_SPTIE := 5.
Definition SPCR_SPE := 6.
Definition SPCR_SPRIE := 7.
Definition SPI0_SSLP := U8 (SPIBASE + 0x2001).
Definition SPI1_SSLP := U8 (SPIBASE + 0x2101).
Definition SPI0_SPPCR := U8 (SPIBASE + 0x2002).
Definition SPI1_SPPCR := U8 (SPIBASE + 0x2102).
Definition SPI0_SPSR := U8 (SPIBASE + 0x2003).
Definition SPI1_SPSR := U8 (SPIBASE + 0x2103).
Definition SPSR_SPTEF := 5.
Definition SPSR_SPRF := 7.
Definition SPI0_SPDR := U32 (SPIBASE + 0x2004).
Definition SPI1_SPDR := U32 (SPIBASE + 0x2104).
Definition SPI0_SPDR_HA := U16 (SPIBASE + 0x2004).
Definition SPI1_SPDR_HA := U16 (SPIBASE + 0x2104).
Definition SPI0_SPBR := U8 (SPIBASE + 0x200A).
Definition SPI1_SPBR := U8 (SPIBASE + 0x210A).
Definition SPI_BR_8M0Hz := 0x02.
Definition SPI0_SPDCR := U8 (SPIBASE + 0x200B).
Definition SPI1_SPDCR := U8 (SPIBASE + 0x210B).
Definition SPDCR_SPLW := 5.
Definition SPI0_SPCKD := U8 (SPIBASE + 0x200C).
Definition SPI0_SSLND := U8 (SPIBASE + 0x200D).
Definition SPI0_SPND := U8 (SPIBASE + 0x200E).
Definition SPI0_SPCR2 := U8 (SPIBASE + 0x200F).
Definition SPI1_SPCR2 := U8 (SPIBASE + 0x210F).
Definition SPI0_SPCMD0 := U16 (SPIBASE + 0x2010).
Definition SPI1_SPCMD0 := U16 (SPIBASE + 0x2110).
Definition SPCMD0_SPB_0_3 := 8.
Definition SPI_BITS_32 := 2.   (* 0b0010 *)
Definition SPI_MASTER := true.
Definition SPI_SLAVE := false.
Definition SPI_IRQEN := true.
Definition SPI_POLL := false.

Definition LOOP_COUNT_VAL := 24000.

(** ** Program variables

    The file-scope variables and the function-local [static]s of
    [timer7interrupt], split by C type: integers (with their width) and
    [bool]s. *)

Inductive zvar : Type :=
| adc_val_A0 | adc_val_A1 | adc_val_A2 | loop_counter
| phaccu0 | tword_m0 | icount0
| spi1_received_val | spi1_transmit_val | spi0_received_val | spi0_transmit_val
| localValA1 | localValA2 | localCount | test.

Inductive bvar : Type := loopFlag | actionFlag | sineFlag | directionFlag.

Definition zvar_eqb (x y : zvar) : bool :=
  match x, y with
  | adc_val_A0, adc_val_A0 | adc_val_A1, adc_val_A1 | adc_val_A2, adc_val_A2
  | loop_counter, loop_counter | phaccu0, phaccu0 | tword_m0, tword_m0
  | icount0, icount0 | spi1_received_val, spi1_received_val
  | spi1_transmit_val, spi1_transmit_val | spi0_received_val, spi0_received_val
  | spi0_transmit_val, spi0_transmit_val | localValA1, localValA1
  | localValA2, localValA2 | localCount, localCount | test, test => true
  | _, _ => false
  end.

Definition bvar_eqb (x y : bvar) : bool :=
  match x, y with
  | loopFlag, loopFlag | actionFlag, actionFlag
  | sineFlag, sineFlag | directionFlag, directionFlag => true
  | _, _ => false
  end.

(** Width of each integer variable: [uint16_t], [unsigned long] (32 bits on
    this target), [uint32_t] (SPI_DATA_WIDE is defined) and [uint8_t]. *)
Definition width (x : zvar) : Z :=
  match x with
  | adc_val_A0 | adc_val_A1 | adc_val_A2 | loop_counter | icount0
  | localValA1 | localValA2 | localCount => 16
  | phaccu0 | tword_m0
  | spi1_received_val | spi1_transmit_val | spi0_received_val | spi0_transmit_val => 32
  | test => 8
  end.

(** ** Machine state, events and the access monad *)

(** The five interrupt handlers of the sketch. *)
Inductive handler : Type :=
| Timer7 | AdcComplete | SpiError | SpiReceive | SpiTransmit.

(** Calls into the Arduino core, which is not part of the sketch. *)
Inductive core_call : Type :=
| AttachInterrupt (pin : Z) (h : handler)
| SerialBegin (baud : Z)
| SerialWait
| DelayMicroseconds (us : Z).

Inductive event : Type :=
| EvRead (r : reg) (v : Z)
| EvWrite (r : reg) (v : Z)
| EvCore (c : core_call).

Record machine : Type := mkMachine {
  zv : zvar -> Z;       (* integer variables *)
  bv : bvar -> bool;    (* bool variables *)
  regs : reg -> Z;      (* last known content of each register *)
  loads : nat           (* number of register reads performed so far *)
}.

(** What the peripherals do: [hw r n = Some v] when, at the time of the
    [n]-th register read, the hardware has put [v] into [r]; [None] when the
    register still holds what was stored last. *)
Definition hardware : Type := reg -> nat -> option Z.

Definition M (A : Type) : Type := machine -> A * machine * list event.

Definition ret {A} (a : A) : M A := fun s => (a, s, []).

Definition bind {A B} (m : M A) (k : A -> M B) : M B :=
  fun s =>
    let '(a, s1, e1) := m s in
    let '(b, s2, e2) := k a s1 in
    (b, s2, e1 ++ e2).

Declare Scope prog_scope.
Delimit Scope prog_scope with prog.
Notation "x <- m ;; k" := (bind m (fun x => k))
  (at level 61, m at next level, right associativity) : prog_scope.
Notation "m ;; k" := (bind m (fun _ => k))
  (at level 61, right associativity) : prog_scope.
Local Open Scope prog_scope.

Definition exec {A} (m : M A) (s : machine) : machine := snd (fst (m s)).
Definition result {A} (m : M A) (s : machine) : A := fst (fst (m s)).
Definition events {A} (m : M A) (s : machine) : list event := snd (m s).

Definition upd_z (f : zvar -> Z) (x : zvar) (v : Z) (y : zvar) : Z :=
  if zvar_eqb y x then v else f y.
Definition upd_b (f : bvar -> bool) (x : bvar) (v : bool) (y : bvar) : bool :=
  if bvar_eqb y x then v else f y.
Definition upd_r (f : reg -> Z) (r : reg) (v : Z) (q : reg) : Z :=
  if reg_eqb q r then v else f q.
Arguments upd_z f x v y /.
Arguments upd_b f x v y /.

(** Variable access; an assignment converts to the variable's type. *)
Definition getz (x : zvar) : M Z := fun s => (zv s x, s, []).
Definition setz (x : zvar) (v : Z) : M unit :=
  fun s => (tt, mkMachine (upd_z (zv s) x (trunc (width x) v)) (bv s) (regs s) (loads s), []).
Definition getb (x : bvar) : M bool := fun s => (bv s x, s, []).
Definition setb (x : bvar) (v : bool) : M unit :=
  fun s => (tt, mkMachine (zv s) (upd_b (bv s) x v) (regs s) (loads s), []).
Definition core (c : core_call) : M unit := fun s => (tt, s, [EvCore c]).

Section Program.
Variable hw : hardware.

(** The value a read of [r] returns in state [s]. *)
Definition bus_value (s : machine) (r : reg) : Z :=
  trunc (bits r)
    match hw r (loads s) with
    | Some v => v
    | None => regs s r
    end.

(** [*r] as an rvalue. *)
Definition load (r : reg) : M Z :=
  fun s =>
    let v := bus_value s r in
    (v, mkMachine (zv s) (bv s) (upd_r (regs s) r v) (S (loads s)), [EvRead r v]).

(** [*r = v]. *)
Definition store (r : reg) (v : Z) : M unit :=
  fun s =>
    let w := trunc (bits r) v in
    (tt, mkMachine (zv s) (bv s) (upd_r (regs s) r w) (loads s), [EvWrite r w]).

(** [*r |= v] and [*r &= v]: a read followed by a write. *)
Definition or_assign (r : reg) (v : Z) : M unit :=
  x <- load r ;; store r (Z.lor x v).
Definition and_assign (r : reg) (v : Z) : M unit :=
  x <- load r ;; store r (Z.land x v).

(** ** The interrupt handlers *)

(** [// ==== ADC ====]: latch both conversion results, start the next one. *)
Definition adc_section : M unit :=
  a1 <- load ADC140_ADDR00 ;; setz adc_val_A1 a1 ;;
  a2 <- load ADC140_ADDR01 ;; setz adc_val_A2 a2 ;;
  or_assign ADC140_ADCSR (Z.shiftl 0x01 15).

(** [// ==== SPI ====], slave unit SPI0: clear the error flags, then poll the
    receive-full, transmit-empty and mode-fault flags in turn. *)
Definition spi0_section : M unit :=
  and_assign SPI0_SPSR 0xE2 ;;
  or_assign SPI0_SPSR (Z.shiftl 0x1 SPSR_SPTEF) ;;
  f7 <- load SPI0_SPSR ;; setz test (Z.land f7 0x80) ;; t7 <- getz test ;;
  (if t7 =? 0x80
   then d <- load SPI0_SPDR ;; setz spi0_received_val d
   else store PFS_P106PFS_BY 0x05 ;; store PFS_P106PFS_BY 0x04) ;;
  f5 <- load SPI0_SPSR ;; setz test (Z.land f5 0x20) ;; t5 <- getz test ;;
  (if t5 =? 0x20
   then a <- getz adc_val_A1 ;; store SPI0_SPDR a
   else store PFS_P106PFS_BY 0x05 ;; store PFS_P106PFS_BY 0x04) ;;
  f2 <- load SPI0_SPSR ;; setz test (Z.land f2 0x04) ;; t2 <- getz test ;;
  (if t2 =? 0x04
   then store PFS_P106PFS_BY 0x05 ;;
        and_assign SPI0_SPSR 0xFB ;;
        store PFS_P106PFS_BY 0x04
   else ret tt).

(** The receive wait of the master unit,
    [for(test = 0; test < 16; test++) { if (SPRF set) { ...; break; } }],
    entered with [test = 0]; [n] counts the iterations still allowed, so the
    loop is left with [test = 16] when the flag never shows. *)
Fixpoint spi1_wait (n : nat) : M unit :=
  match n with
  | O => ret tt
  | S n' =>
      f <- load SPI1_SPSR ;;
      if Z.land f (Z.shiftl 0x01 SPSR_SPRF) =? Z.shiftl 0x01 SPSR_SPRF
      then store PFS_P107PFS_BY 0x05 ;;
           d <- load SPI1_SPDR ;; setz spi1_received_val d ;;
           store PFS_P107PFS_BY 0x04
      else t <- getz test ;; setz test (t + 1) ;; spi1_wait n'
  end.

(** [// ==== SPI ====], master unit SPI1: clear the flags, empty the data
    register, send [localCount] and wait for the word clocked back. *)
Definition spi1_section : M unit :=
  and_assign SPI1_SPSR 0xE2 ;;
  or_assign SPI1_SPSR (Z.shiftl 0x1 SPSR_SPTEF) ;;
  and_assign ICU_IELSR07 0xFFFEFFFF ;;          (* ~0x00010000 *)
  local_val <- load SPI1_SPDR ;;
  c <- getz localCount ;; store SPI1_SPDR c ;;
  setz localCount (c + 1) ;;
  setz test 0 ;; spi1_wait 16.

(** [// ==== DAC ====]: software DDS phase accumulator, or the ADC reading. *)
Definition dac_section : M unit :=
  sf <- getb sineFlag ;;
  if sf
  then p <- getz phaccu0 ;; m <- getz tword_m0 ;; setz phaccu0 (p + m) ;;
       p' <- getz phaccu0 ;; setz icount0 (Z.shiftr p' 20) ;;
       i <- getz icount0 ;; store DAC12_DADR0 i
  else a <- getz adc_val_A1 ;; store DAC12_DADR0 (Z.shiftr a 2).

(** The clamp applied to both duty values: 0 becomes 1, anything from 0x3FF
    up becomes 0x3FE. *)
Definition clamp_duty (x : zvar) : M unit :=
  v <- getz x ;;
  if v =? 0 then setz x 1
  else if 0x3FF <=? v then setz x 0x3FE
  else ret tt.

(** [// ==== GPT PWM ====]: duty cycles of timer 1, direction outputs of
    timer 7. *)
Definition pwm_section : M unit :=
  a1 <- getz adc_val_A1 ;; setz localValA1 (Z.shiftr a1 4) ;;
  clamp_duty localValA1 ;;
  a2 <- getz adc_val_A2 ;; setz localValA2 (Z.shiftr a2 4) ;;
  clamp_duty localValA2 ;;
  i <- getz icount0 ;; store GPT321_GTCCRC (Z.shiftr i 2) ;;
  l1 <- getz localValA1 ;; store GPT321_GTCCRD l1 ;;
  d <- getb directionFlag ;;
  if d
  then store GPT167_GTCCRC 0x000 ;; store GPT167_GTCCRD 0x7FD ;;
       setb directionFlag false
  else store GPT167_GTCCRC 0x7FD ;; store GPT167_GTCCRD 0x000 ;;
       setb directionFlag true.

(** The software divider that paces the main loop. *)
Definition loop_count_section : M unit :=
  c <- getz loop_counter ;; setz loop_counter (c + 1) ;;
  c' <- getz loop_counter ;;
  if LOOP_COUNT_VAL <=? c'
  then setz loop_counter 0 ;; setb loopFlag true
  else ret tt.

(** [void timer7interrupt(void)], with the pin writes that bracket each
    section on D6 and D7. *)
Definition timer7interrupt : M unit :=
  store PFS_P107PFS_BY 0x05 ;;
  adc_section ;;
  store PFS_P107PFS_BY 0x04 ;;
  store PFS_P106PFS_BY 0x05 ;;
  spi0_section ;;
  spi1_section ;;
  store PFS_P106PFS_BY 0x04 ;;
  store PFS_P107PFS_BY 0x04 ;;
  dac_section ;;
  pwm_section ;;
  store PFS_P107PFS_BY 0x05 ;;
  loop_count_section ;;
  store PFS_P107PFS_BY 0x04.

(** The four placeholder handlers only pulse D7. *)
Definition adcCompleteInterrupt : M unit :=
  store PFS_P107PFS_BY 0x05 ;; store PFS_P107PFS_BY 0x04.

Definition spiErrorInterrupt : M unit :=
  store PFS_P107PFS_BY 0x05 ;; store PFS_P107PFS_BY 0x04.

Definition spiReceiveInterrupt : M unit :=
  store PFS_P107PFS_BY 0x05 ;; store PFS_P107PFS_BY 0x04 ;;
  store PFS_P107PFS_BY 0x05 ;; store PFS_P107PFS_BY 0x04.

Definition spiTransmitInterrupt : M unit :=
  store PFS_P107PFS_BY 0x05 ;; store PFS_P107PFS_BY 0x04.

Definition run_handler (h : handler) : M unit :=
  match h with
  | Timer7 => timer7interrupt
  | AdcComplete => adcCompleteInterrupt
  | SpiError => spiErrorInterrupt
  | SpiReceive => spiReceiveInterrupt
  | SpiTransmit => spiTransmitInterrupt
  end.

(** ** Peripheral set-up *)

(** [uint8_t setup_spi0(bool MSmode, uint8_t bitRate, uint8_t numBits, bool IRQmode)] *)
Definition setup_spi0 (MSmode : bool) (bitRate numBits : Z) (IRQmode : bool) : M Z :=
  let bitRate := trunc 8 bitRate in
  let numBits := trunc 8 numBits in
  and_assign MSTP_MSTPCRB (0xFFFFFFFF - Z.shiftl 0x01 MSTPB19) ;;
  store SPI0_SPCR 0x00 ;;
  store SPI0_SSLP 0x00 ;;
  (if MSmode
   then store SPI0_SPBR bitRate ;;
        store SPI0_SPPCR 0x30 ;;
        store SPI0_SPCR2 0x10 ;;
        store SPI0_SPCMD0 0xE001
   else store SPI0_SPBR 0x00 ;;
        store SPI0_SPCMD0 0x0001 ;;
        store SPI0_SPCKD 0x00 ;;
        store SPI0_SSLND 0x00 ;;
        store SPI0_SPND 0x00 ;;
        store SPI0_SPCR2 0x00) ;;
  (if 4 <=? numBits
   then store SPI0_SPDCR 0x00 ;;
        store SPI0_SPDR_HA 0xAAAA
   else or_assign SPI0_SPDCR (Z.shiftl 0x01 SPDCR_SPLW) ;;
        store SPI0_SPDR 0x55555555) ;;
  or_assign SPI0_SPCMD0 (Z.shiftl numBits SPCMD0_SPB_0_3) ;;
  store PFS_P103PFS (Z.shiftl 6 24) ;;          (* 0b00110 << 24 *)
  or_assign PFS_P103PFS (Z.shiftl 0x1 16) ;;
  store PFS_P102PFS (Z.shiftl 6 24) ;;
  or_assign PFS_P102PFS (Z.shiftl 0x1 16) ;;
  store PFS_P101PFS (Z.shiftl 6 24) ;;
  or_assign PFS_P101PFS (Z.shiftl 0x1 16) ;;
  store PFS_P100PFS (Z.shiftl 6 24) ;;
  or_assign PFS_P100PFS (Z.shiftl 0x1 16) ;;
  or_assign PFS_P100PFS (Z.shiftl 0x1 4) ;;
  (if IRQmode
   then store ICU_IELSR06 IRQ_SPI0_SPEI ;;
        store ICU_IELSR07 IRQ_SPI0_SPRI ;;
        store ICU_IELSR08 IRQ_SPI0_SPTI ;;
        or_assign SPI0_SPCR (Z.shiftl 0x1 SPCR_SPTIE) ;;
        or_assign SPI0_SPCR (Z.shiftl 0x1 SPCR_SPRIE) ;;
        or_assign SPI0_SPCR (Z.shiftl 0x1 SPCR_SPEIE)
   else ret tt) ;;
  (if MSmode
   then or_assign SPI0_SPCR 0x48
   else or_assign SPI0_SPCR 0x40) ;;
  v <- load SPI0_SPCR ;;
  ret (trunc 8 v).

(** [uint8_t setup_spi1(bool MSmode, uint8_t bitRate, uint8_t numBits, bool IRQmode)] *)
Definition setup_spi1 (MSmode : bool) (bitRate numBits : Z) (IRQmode : bool) : M Z :=
  let bitRate := trunc 8 bitRate in
  let numBits := trunc 8 numBits in
  and_assign MSTP_MSTPCRB (0xFFFFFFFF - Z.shiftl 0x01 MSTPB18) ;;
  store SPI1_SPCR 0x00 ;;
  store SPI1_SSLP 0x00 ;;
  (if MSmode
   then store SPI1_SPBR bitRate ;;
        store SPI1_SPPCR 0x30 ;;
        store SPI1_SPCR2 0x10 ;;
        store SPI1_SPCMD0 0xE001
   else store SPI1_SPCMD0 0x0001) ;;
  (if 4 <=? numBits
   then store SPI1_SPDCR 0x00 ;;
        store SPI1_SPDR_HA 0xAAAA
   else or_assign SPI1_SPDCR (Z.shiftl 0x01 SPDCR_SPLW) ;;
        store SPI1_SPDR 0x55555555) ;;
  or_assign SPI1_SPCMD0 (Z.shiftl numBits SPCMD0_SPB_0_3) ;;
  store PFS_P112PFS (Z.shiftl 6 24) ;;          (* 0b00110 << 24 *)
  or_assign PFS_P112PFS (Z.shiftl 0x1 16) ;;
  store PFS_P111PFS (Z.shiftl 6 24) ;;
  or_assign PFS_P111PFS (Z.shiftl 0x1 16) ;;
  store PFS_P110PFS (Z.shiftl 6 24) ;;
  or_assign PFS_P110PFS (Z.shiftl 0x1 16) ;;
  store PFS_P109PFS (Z.shiftl 6 24) ;;
  or_assign PFS_P109PFS (Z.shiftl 0x1 16) ;;
  (if IRQmode
   then store ICU_IELSR06 IRQ_SPI1_SPEI ;;
        store ICU_IELSR07 IRQ_SPI1_SPRI ;;
        store ICU_IELSR08 IRQ_SPI1_SPTI ;;
        or_assign SPI1_SPCR (Z.shiftl 0x1 SPCR_SPTIE) ;;
        or_assign SPI1_SPCR (Z.shiftl 0x1 SPCR_SPRIE) ;;
        or_assign SPI1_SPCR (Z.shiftl 0x1 SPCR_SPEIE)
   else ret tt) ;;
  (if MSmode
   then or_assign SPI1_SPCR 0x48
   else or_assign SPI1_SPCR 0x40) ;;
  v <- load SPI1_SPCR ;;
  ret (trunc 8 v).

(** [void setup_adc(void)] *)
Definition setup_adc : M unit :=
  and_assign MSTP_MSTPCRD (0xFFFFFFFF - Z.shiftl 0x01 MSTPD16) ;;
  store ADC140_ADHVREFCNT 0x01 ;;
  store ADC140_ADCER 0x06 ;;
  or_assign ADC140_ADCSR (Z.shiftl 0x01 6) ;;
  or_assign ADC140_ADANSA0 (Z.shiftl 0x01 1) ;;
  or_assign ADC140_ADANSA0 (Z.shiftl 0x01 0) ;;
  store ADC140_ADADC 0x83 ;;
  or_assign ADC140_ADADS0 (Z.shiftl 0x01 1) ;;
  or_assign ADC140_ADADS0 (Z.shiftl 0x01 0).

(** [void setup_dac(void)] *)
Definition setup_dac : M unit :=
  and_assign MSTP_MSTPCRD (0xFFFFFFFF - Z.shiftl 0x01 MSTPD20) ;;
  store DAC12_DADPR 0x00 ;;
  store ELC_ELSR12 0x0000 ;;
  store DAC12_DAADSCR 0x80 ;;
  store DAC12_DAVREFCR 0x00 ;;
  store DAC12_DADR0 0x0000 ;;
  core (DelayMicroseconds 10) ;;
  store DAC12_DAVREFCR 0x01 ;;
  store DAC12_DACR 0x5F ;;
  core (DelayMicroseconds 5) ;;
  store DAC12_DADR0 0x0800 ;;
  store PFS_P014PFS 0x00000000 ;;
  or_assign PFS_P014PFS (Z.shiftl 0x1 15).

(** [void setup_timers(void)] *)
Definition setup_timers : M unit :=
  and_assign MSTP_MSTPCRD (0xFFFFFFFF - Z.shiftl 0x01 MSTPD6) ;;
  store GPT163_GTSTP 0x10010010 ;;
  (* Timer 7 *)
  store GPT167_GTSSR 0x80000000 ;;
  store GPT167_GTPSR 0x80000000 ;;
  store GPT167_GTCSR 0x80000000 ;;
  store GPT167_GTUDDTYC 0x1 ;;
  store GPT167_GTCNT 0x07F6 ;;
  store GPT167_GTCCRA 0x0000 ;;
  store GPT167_GTCCRB 0x0000 ;;
  store GPT167_GTCCRC 0x0000 ;;
  store GPT167_GTCCRD 0x0000 ;;
  store GPT167_GTPR 0x7FD ;;
  store GPT167_GTPBR 0x7FD ;;
  store GPT167_GTBER 0x00150000 ;;
  store GPT167_GTCR 0x0 ;;
  store GPT167_GTIOR 0x00000000 ;;
  or_assign GPT167_GTIOR 9 ;;                   (* 0b01001 *)
  or_assign GPT167_GTIOR (Z.shiftl 9 16) ;;
  or_assign GPT167_GTIOR 0x01000100 ;;
  store PFS_P304PFS (Z.shiftl 3 24) ;;          (* 0b00011 << 24 *)
  or_assign PFS_P304PFS (Z.shiftl 0x1 16) ;;
  store PFS_P303PFS (Z.shiftl 3 24) ;;
  or_assign PFS_P303PFS (Z.shiftl 0x1 16) ;;
  (* Timer 1 *)
  and_assign MSTP_MSTPCRD (0xFFFFFFFF - Z.shiftl 0x01 MSTPD5) ;;
  store GPT321_GTSSR 0x80000000 ;;
  store GPT321_GTPSR 0x80000000 ;;
  store GPT321_GTCSR 0x80000000 ;;
  store GPT321_GTUDDTYC 0x0 ;;
  store GPT321_GTCNT 0x03FF ;;
  store GPT321_GTCCRA 0x0000 ;;
  store GPT321_GTCCRB 0x0000 ;;
  store GPT321_GTCCRC 0x0000 ;;
  store GPT321_GTCCRD 0x0000 ;;
  store GPT321_GTPR 0x3FF ;;
  store GPT321_GTPBR 0x3FF ;;
  store GPT321_GTBER 0x00150000 ;;
  store GPT321_GTIOR 0x00000000 ;;
  or_assign GPT321_GTIOR 27 ;;                  (* 0b11011 *)
  or_assign GPT321_GTIOR (Z.shiftl 27 16) ;;
  or_assign GPT321_GTIOR 0x01000100 ;;
  store GPT321_GTCR 0x0 ;;
  or_assign GPT321_GTCR (Z.shiftl 0x4 16) ;;
  store PFS_P104PFS (Z.shiftl 3 24) ;;
  or_assign PFS_P104PFS (Z.shiftl 0x1 16) ;;
  store PFS_P105PFS (Z.shiftl 3 24) ;;
  or_assign PFS_P105PFS (Z.shiftl 0x1 16) ;;
  (* Timer 4 *)
  store GPT164_GTSSR 0x80000000 ;;
  store GPT164_GTPSR 0x80000000 ;;
  store GPT164_GTCSR 0x80000000 ;;
  store GPT164_GTUDDTYC 0x1 ;;
  store GPT164_GTCNT 0x000 ;;
  store GPT164_GTCCRB 0x1FF ;;
  store GPT164_GTCCRD 0x1FF ;;
  store GPT164_GTPR 0x7FD ;;
  store GPT164_GTPBR 0x7FD ;;
  store GPT164_GTIOR 0x00090000 ;;
  or_assign GPT164_GTIOR 0x01000000 ;;
  store GPT164_GTCR 0x0 ;;
  store PFS_P204PFS (Z.shiftl 3 24) ;;
  or_assign PFS_P204PFS (Z.shiftl 0x1 16) ;;
  (* All timers *)
  store GPT164_GTSTR 0x10010010 ;;
  or_assign GPT167_GTCR 0x1 ;;
  or_assign GPT321_GTCR 0x1 ;;
  or_assign GPT164_GTCR 0x1 ;;
  store GPT164_GTCLR 0x10010010.

(** [void setup()].  The calls into the Arduino core ([attachInterrupt],
    [Serial.begin], the wait for the USB serial port) are recorded as events
    and otherwise left to the core. *)
Definition setup : M unit :=
  core (AttachInterrupt 13 Timer7) ;;
  store ICU_IELSR05 IRQ_GPT7_OVF ;;
  store PFS_P111PFS 0x00000000 ;;
  core (AttachInterrupt 15 SpiError) ;;
  store PFS_P000PFS 0x00000000 ;;
  store ICU_IELSR06 IRQ_SPI0_SPEI ;;
  core (AttachInterrupt 16 SpiReceive) ;;
  store PFS_P001PFS 0x00000000 ;;
  store ICU_IELSR07 IRQ_SPI0_SPRI ;;
  core (AttachInterrupt 17 SpiTransmit) ;;
  store PFS_P002PFS 0x00000000 ;;
  store ICU_IELSR08 IRQ_SPI0_SPTI ;;
  store PFS_P107PFS_BY 0x04 ;;
  core (SerialBegin 115200) ;;
  core SerialWait ;;
  retVal8 <- setup_spi1 SPI_MASTER SPI_BR_8M0Hz SPI_BITS_32 SPI_IRQEN ;;
  retVal8 <- setup_spi0 SPI_SLAVE SPI_BR_8M0Hz SPI_BITS_32 SPI_POLL ;;
  setup_adc ;;
  setup_dac ;;
  setup_timers ;;
  store AGT0_AGTCR 0.

End Program.

(** ** Observations on an event trace *)

Fixpoint reads_of (r : reg) (evs : list event) : list Z :=
  match evs with
  | [] => []
  | EvRead q v :: tl => if reg_eqb q r then v :: reads_of r tl else reads_of r tl
  | _ :: tl => reads_of r tl
  end.

Fixpoint writes_to (r : reg) (evs : list event) : list Z :=
  match evs with
  | [] => []
  | EvWrite q v :: tl => if reg_eqb q r then v :: writes_to r tl else writes_to r tl
  | _ :: tl => writes_to r tl
  end.

Definition event_reg (e : event) : option reg :=
  match e with
  | EvRead r _ | EvWrite r _ => Some r
  | EvCore _ => None
  end.

(** The four phases of the timer interrupt and the registers that belong to
    each; the pin writes on D6 and D7 are timing marks and belong to none. *)
Inductive phase : Type := PhADC | PhSPI | PhDAC | PhPWM.

Definition phase_eqb (p q : phase) : bool :=
  match p, q with
  | PhADC, PhADC | PhSPI, PhSPI | PhDAC, PhDAC | PhPWM, PhPWM => true
  | _, _ => false
  end.

Definition mem_reg (r : reg) (l : list reg) : bool := existsb (reg_eqb r) l.

Definition adc_regs : list reg := [ADC140_ADDR00; ADC140_ADDR01; ADC140_ADCSR].
Definition spi0_regs : list reg := [SPI0_SPSR; SPI0_SPDR].
Definition spi1_regs : list reg := [SPI1_SPSR; SPI1_SPDR; ICU_IELSR07].
Definition dac_regs : list reg := [DAC12_DADR0].
Definition pwm_regs : list reg :=
  [GPT321_GTCCRC; GPT321_GTCCRD; GPT167_GTCCRC; GPT167_GTCCRD].

Definition reg_phase (r : reg) : option phase :=
  if mem_reg r adc_regs then Some PhADC
  else if mem_reg r spi0_regs || mem_reg r spi1_regs then Some PhSPI
  else if mem_reg r dac_regs then Some PhDAC
  else if mem_reg r pwm_regs then Some PhPWM
  else None.

Definition event_phase (e : event) : option phase :=
  match event_reg e with
  | Some r => reg_phase r
  | None => None
  end.


(** The phase of every event that has one, in trace order. *)
Fixpoint phases (evs : list event) : list phase :=
  match evs with
  | [] => []
  | e :: tl =>
      match event_phase e with
      | Some p => p :: phases tl
      | None => phases tl
      end
  end.

(** Runs of equal neighbours collapsed to one element. *)
Fixpoint compress (l : list phase) : list phase :=
  match l with
  | [] => []
  | p :: tl =>
      match tl with
      | [] => [p]
      | q :: _ => if phase_eqb p q then compress tl else p :: compress tl
      end
  end.

Definition phase_sequence (evs : list event) : list phase := compress (phases evs).

(** [event_on l e]: [e] is an access to one of the registers in [l]. *)
Definition event_on (l : list reg) (e : event) : bool :=
  match event_reg e with
  | Some r => mem_reg r l
  | None => false
  end.



(** ** The GPT register block

    Eight channels, [GPTBASE + 0x8000 + n * 0x100] for [n] in 0..7 (the
    sketch's [get_timer_reg_values] indexes them the same way). *)
Inductive gpt_kind : Type := KControl | KCounter | KCompare | KPeriod | KIO.

Definition gpt_kind_eqb (a b : gpt_kind) : bool :=
  match a, b with
  | KControl, KControl | KCounter, KCounter | KCompare, KCompare
  | KPeriod, KPeriod | KIO, KIO => true
  | _, _ => false
  end.

Definition gpt_channel (r : reg) : option Z :=
  let off := addr r - GPTBASE - GTWP in
  if (0 <=? off) && (off <? 8 * 0x100) then Some (off / 0x100) else None.

Definition gpt_kind_of (r : reg) : option gpt_kind :=
  let o := GTWP + (addr r - GPTBASE - GTWP) mod 0x100 in
  if o =? GTCR then Some KControl
  else if o =? GTCNT then Some KCounter
  else if existsb (Z.eqb o) [GTCCRA; GTCCRB; GTCCRC; GTCCRD; GTCCRE; GTCCRF]
  then Some KCompare
  else if existsb (Z.eqb o) [GTPR; GTPBR] then Some KPeriod
  else if o =? GTIOR then Some KIO
  else None.

(** A write to a register of kind [k] of channel [ch]. *)
Definition writes_gpt (ch : Z) (k : gpt_kind) (e : event) : bool :=
  match e with
  | EvWrite r _ =>
      match gpt_channel r, gpt_kind_of r with
      | Some c, Some k' => (c =? ch) && gpt_kind_eqb k k'
      | _, _ => false
      end
  | _ => false
  end.

(** A channel is initialised by a trace that writes its control, counter,
    compare, period and I/O registers. *)
Definition gpt_initialised (evs : list event) (ch : Z) : bool :=
  forallb (fun k => existsb (writes_gpt ch k) evs)
          [KControl; KCounter; KCompare; KPeriod; KIO].

Definition gpt_channels : list Z := [0; 1; 2; 3; 4; 5; 6; 7].

Definition initialised_channels (evs : list event) : list Z :=
  filter (gpt_initialised evs) gpt_channels.

(** Channels with any register written at all. *)
Definition touched_channels (evs : list event) : list Z :=
  filter (fun ch => existsb (fun e => match e with
                                      | EvWrite r _ =>
                                          match gpt_channel r with
                                          | Some c => c =? ch
                                          | None => false
                                          end
                                      | _ => false
                                      end) evs) gpt_channels.

(** ** Hardware assumptions and the main loop *)

(** [r] is plain storage under [hw]: the hardware never changes it, so a
    read returns the value written last. *)
Definition storage (hw : hardware) (r : reg) : Prop := forall n, hw r n = None.

(** The assignments [loop()] makes, any of which an interrupt may follow:
    [tword_m0 = ...] (the result of a [double] computation, left open here),
    [loopFlag = FALSE] and [actionFlag = FALSE]. *)
Inductive main_step : machine -> machine -> Prop :=
| main_tword s w :
    bv s loopFlag = true ->
    main_step s (mkMachine (upd_z (zv s) tword_m0 (trunc 32 w)) (bv s) (regs s) (loads s))
| main_loopFlag s :
    bv s loopFlag = true ->
    main_step s (mkMachine (zv s) (upd_b (bv s) loopFlag false) (regs s) (loads s))
| main_actionFlag s :
    bv s actionFlag = true ->
    main_step s (mkMachine (zv s) (upd_b (bv s) actionFlag false) (regs s) (loads s)).

(** [runs hw n s s']: from [s] the system reaches [s'] after [n] timer
    interrupts, interleaved with main-loop assignments and the placeholder
    handlers. *)
Inductive runs (hw : hardware) : nat -> machine -> machine -> Prop :=
| runs_start s : runs hw 0 s s
| runs_main n s s1 s2 :
    runs hw n s s1 -> main_step s1 s2 -> runs hw n s s2
| runs_other n s s1 h :
    runs hw n s s1 -> h <> Timer7 -> runs hw n s (exec (run_handler hw h) s1)
| runs_timer n s s1 :
    runs hw n s s1 -> runs hw (S n) s (exec (timer7interrupt hw) s1).

(** ** Weakest preconditions *)

Definition wp {A} (m : M A) (s : machine)
    (Q : A -> machine -> list event -> Prop) : Prop :=
  Q (result m s) (exec m s) (events m s).

Definition same_bools (s s' : machine) : Prop := forall b, bv s' b = bv s b.

(** The duty value left in [localValA1] / [localValA2] for a reading [a]. *)
Definition duty (a : Z) : Z :=
  let v := trunc 16 (Z.shiftr a 4) in
  if v =? 0 then 1 else if 0x3FF <=? v then 0x3FE else v.

(** Effect of each section of the timer interrupt on the variables and on
    the trace. *)
Definition adc_post (s s' : machine) (evs : list event) : Prop :=
  exists a1 a2 x,
    evs = [EvRead ADC140_ADDR00 a1; EvRead ADC140_ADDR01 a2;
           EvRead ADC140_ADCSR x; EvWrite ADC140_ADCSR (trunc 16 (Z.lor x 0x8000))]
    /\ 0 <= a1 < 2 ^ 16 /\ 0 <= a2 < 2 ^ 16
    /\ (forall y, zv s' y = upd_z (upd_z (zv s) adc_val_A1 a1) adc_val_A2 a2 y)
    /\ same_bools s s'.

Definition spi0_post (s s' : machine) (evs : list event) : Prop :=
  exists x1 x2 f7 tl,
    evs = EvRead SPI0_SPSR x1 :: EvWrite SPI0_SPSR (trunc 8 (Z.land x1 0xE2))
          :: EvRead SPI0_SPSR x2 :: EvWrite SPI0_SPSR (trunc 8 (Z.lor x2 0x20))
          :: EvRead SPI0_SPSR f7 :: tl
    /\ forallb (event_on (PFS_P106PFS_BY :: spi0_regs)) tl = true
    /\ (if Z.testbit f7 7
        then exists d, reads_of SPI0_SPDR tl = [d] /\ zv s' spi0_received_val = d
        else reads_of SPI0_SPDR tl = []
             /\ zv s' spi0_received_val = zv s spi0_received_val)
    /\ (forall y, y <> test -> y <> spi0_received_val -> zv s' y = zv s y)
    /\ same_bools s s'.

(** Trace of the receive wait when at most [n] polls are allowed: a run of
    polls that miss, then either a poll that hits followed by the data read,
    or nothing more once [n] polls have missed. *)
Definition wait_trace (n : nat) (old new : Z) (w : list event) (misses : list Z) : Prop :=
  Forall (fun f => Z.testbit f 7 = false) misses
  /\ ((exists hit d,
         Z.testbit hit 7 = true /\ (length misses < n)%nat
         /\ w = map (EvRead SPI1_SPSR) misses
                ++ [EvRead SPI1_SPSR hit; EvWrite PFS_P107PFS_BY 5;
                    EvRead SPI1_SPDR d; EvWrite PFS_P107PFS_BY 4]
         /\ new = d)
      \/ (length misses = n /\ w = map (EvRead SPI1_SPSR) misses /\ new = old)).

Definition wait_post (n : nat) (s s' : machine) (evs : list event) : Prop :=
  exists misses,
    wait_trace n (zv s spi1_received_val) (zv s' spi1_received_val) evs misses
    /\ zv s' test = zv s test + Z.of_nat (length misses)
    /\ (forall y, y <> test -> y <> spi1_received_val -> zv s' y = zv s y)
    /\ same_bools s s'.

Definition spi1_post (s s' : machine) (evs : list event) : Prop :=
  exists x1 x2 x3 lv w misses,
    evs = [EvRead SPI1_SPSR x1; EvWrite SPI1_SPSR (trunc 8 (Z.land x1 0xE2));
           EvRead SPI1_SPSR x2; EvWrite SPI1_SPSR (trunc 8 (Z.lor x2 0x20));
           EvRead ICU_IELSR07 x3; EvWrite ICU_IELSR07 (trunc 32 (Z.land x3 0xFFFEFFFF));
           EvRead SPI1_SPDR lv; EvWrite SPI1_SPDR (trunc 32 (zv s localCount))] ++ w
    /\ wait_trace 16 (zv s spi1_received_val) (zv s' spi1_received_val) w misses
    /\ zv s' test = Z.of_nat (length misses)
    /\ zv s' localCount = trunc 16 (zv s localCount + 1)
    /\ (forall y, y <> test -> y <> spi1_received_val -> y <> localCount ->
                  zv s' y = zv s y)
    /\ same_bools s s'.

Definition dac_post (s s' : machine) (evs : list event) : Prop :=
  same_bools s s'
  /\ if bv s sineFlag
     then let p := trunc 32 (zv s phaccu0 + zv s tword_m0) in
          evs = [EvWrite DAC12_DADR0 (Z.shiftr p 20)]
          /\ forall y, zv s' y = upd_z (upd_z (zv s) phaccu0 p) icount0 (Z.shiftr p 20) y
     else evs = [EvWrite DAC12_DADR0 (trunc 16 (Z.shiftr (zv s adc_val_A1) 2))]
          /\ forall y, zv s' y = zv s y.

Definition pwm_post (s s' : machine) (evs : list event) : Prop :=
  let d := bv s directionFlag in
  evs = [EvWrite GPT321_GTCCRC (trunc 32 (Z.shiftr (zv s icount0) 2));
         EvWrite GPT321_GTCCRD (duty (zv s adc_val_A1));
         EvWrite GPT167_GTCCRC (if d then 0x000 else 0x7FD);
         EvWrite GPT167_GTCCRD (if d then 0x7FD else 0x000)]
  /\ (forall y, zv s' y = upd_z (upd_z (zv s) localValA1 (duty (zv s adc_val_A1)))
                                localValA2 (duty (zv s adc_val_A2)) y)
  /\ (forall b, bv s' b = upd_b (bv s) directionFlag (negb d) b).

Definition loop_count_post (s s' : machine) (evs : list event) : Prop :=
  let c := trunc 16 (zv s loop_counter + 1) in
  evs = []
  /\ (forall y, zv s' y = upd_z (zv s) loop_counter
                                (if LOOP_COUNT_VAL <=? c then 0 else c) y)
  /\ (forall b, bv s' b = upd_b (bv s) loopFlag
                                (if LOOP_COUNT_VAL <=? c then true else bv s loopFlag) b).

(** The value the SPI set-up leaves in SPCR: the three interrupt enables
    (bits 7, 5, 4) when asked for, SPE (bit 6) and, for a master, MSTR
    (bit 3). *)
Definition spcr_value (MSmode IRQmode : bool) : Z :=
  Z.lor (if IRQmode then 0xB0 else 0x00) (if MSmode then 0x48 else 0x40).

(** What the slave unit's section does on the bus: five or six reads of the
    status register, the transmit write when the fourth read shows SPTEF
    (bit 5), the mode-fault clear when the fifth shows MODF (bit 2), and
    pulses on D6. *)
Definition spi0_exchange (s : machine) (evs : list event) : Prop :=
  exists x1 x2 f7 f5 f2 rest,
    reads_of SPI0_SPSR evs = x1 :: x2 :: f7 :: f5 :: f2 :: rest
    /\ writes_to SPI0_SPDR evs
       = (if Z.testbit f5 5 then [trunc 32 (zv s adc_val_A1)] else [])
    /\ (if Z.testbit f2 2
        then exists m,
               rest = [m]
               /\ writes_to SPI0_SPSR evs
                  = [trunc 8 (Z.land x1 0xE2); trunc 8 (Z.lor x2 0x20);
                     trunc 8 (Z.land m 0xFB)]
        else rest = []
             /\ writes_to SPI0_SPSR evs
                = [trunc 8 (Z.land x1 0xE2); trunc 8 (Z.lor x2 0x20)])
    /\ reads_of PFS_P106PFS_BY evs = []
    /\ Forall (fun v => v = 4 \/ v = 5) (writes_to PFS_P106PFS_BY evs).

(** An event that is a register read. *)
Definition is_read (e : event) : bool :=
  match e with
  | EvRead _ _ => true
  | _ => false
  end.

(** ** Concrete scenarios *)

(** The variables as the sketch initialises them, all registers zero. *)
Definition init_zv (x : zvar) : Z :=
  match x with
  | tword_m0 => 100
  | _ => 0
  end.

Definition init_bv (b : bvar) : bool :=
  match b with
  | sineFlag => true
  | _ => false
  end.

Definition init_machine : machine := mkMachine init_zv init_bv (fun _ => 0) 0%nat.

(** Hardware that leaves every register alone. *)
Definition quiet_hw : hardware := fun _ _ => None.

(** Hardware that shows [v] in every register at every read. *)
Definition const_hw (v : Z) : hardware := fun _ _ => Some v.

(** The state one interrupt before the software divider wraps, with the
    phase accumulator about to carry into its upper twelve bits. *)
Definition eve_zv (x : zvar) : Z :=
  match x with
  | tword_m0 => 100
  | phaccu0 => 0xFFFFF
  | loop_counter => 23999
  | _ => 0
  end.

Definition eve_machine : machine := mkMachine eve_zv init_bv (fun _ => 0) 0%nat.

(** The same start with the DDS switched off. *)
Definition plain_bv (b : bvar) : bool := false.

Definition plain_machine : machine := mkMachine init_zv plain_bv (fun _ => 0) 0%nat.

(** ** Registers of the diagnostic and serial routines *)

(** The event link setting register of ICU slot [n]. *)
Definition ICU_IELSR (n : Z) : reg := U32 (ICUBASE + IELSR + (n * 4)).
Definition IRQ_NO_EVENT := 0x00.

(** System and module stop control. *)
Definition SYSTEM := 0x40010000.
Definition SYSTEM_SCKDIVCR := U32 (SYSTEM + 0xE020).
Definition SYSTEM_SBYCR := U16 (SYSTEM + 0xE00C).
Definition SYSTEM_MSTPCRA := U32 (SYSTEM + 0xE01C).
Definition MSTP_MSTPCRC := U32 (MSTP + 0x7004).
Definition MSTPB8 := 8.
Definition MSTPB29 := 29.

(** Timer status and count-source registers. *)
Definition AGT1_AGTCR := U8 (AGTBASE + 0x108).
Definition GTUPSR := 0x801C.
Definition GTDNSR := 0x8020.
Definition GTST := 0x803C.
Definition GPT320_GTST := U32 (GPTBASE + GTST).
Definition GPT321_GTST := U32 (GPTBASE + GTST + 0x0100).
Definition GPT162_GTST := U32 (GPTBASE + GTST + 0x0200).
Definition GPT163_GTST := U32 (GPTBASE + GTST + 0x0300).
Definition GPT164_GTST := U32 (GPTBASE + GTST + 0x0400).
Definition GPT165_GTST := U32 (GPTBASE + GTST + 0x0500).
Definition GPT166_GTST := U32 (GPTBASE + GTST + 0x0600).
Definition GPT167_GTST := U32 (GPTBASE + GTST + 0x0700).

(** More of the A/D converter. *)
Definition ADC140_ADANSA1 := U16 (ADCBASE + 0xC006).
Definition ADC140_ADADS1 := U16 (ADCBASE + 0xC00A).
Definition ADC140_ADSTRGR := U16 (ADCBASE + 0xC010).
Definition ADC140_ADEXICR := U16 (ADCBASE + 0xC012).
Definition ADC140_ADANSB0 := U16 (ADCBASE + 0xC014).
Definition ADC140_ADANSB1 := U16 (ADCBASE + 0xC016).
Definition ADC140_ADRD := U16 (ADCBASE + 0xC01E).
Definition ADC140_ADGSPCR := U16 (ADCBASE + 0xC080).
Definition ADC140_ADCMPCR := U16 (ADCBASE + 0xC090).

(** Serial communications interface, unit 2, and its pins. *)
Definition SCIBASE := 0x40070000.
Definition SCI2_RDR := U8 (SCIBASE + 0x0045).
Definition SCI2_TDR := U8 (SCIBASE + 0x0043).
Definition SCI2_SMR := U8 (SCIBASE + 0x0040).
Definition SCI2_SCR := U8 (SCIBASE + 0x0042).
Definition SCI2_SSR := U8 (SCIBASE + 0x0044).
Definition SCI2_SCMR := U8 (SCIBASE + 0x0046).
Definition SCI2_BRR := U8 (SCIBASE + 0x0041).
Definition SCI2_MDDR := U8 (SCIBASE + 0x0052).
Definition SCI2_SEMR := U8 (SCIBASE + 0x0047).
Definition SCI2_SNFR := U8 (SCIBASE + 0x0048).
Definition SCI2_SPTR := U8 (SCIBASE + 0x005C).
Definition PFS_P301PFS := U32 (PORTBASE + P300PFS + (1 * 4)).
Definition PFS_P302PFS := U32 (PORTBASE + P300PFS + (2 * 4)).

(** I2C bus interface, unit 1. *)
Definition IICBASE := 0x40050000.
Definition IIC1_ICCR1 := U8 (IICBASE + 0x3100).
Definition IIC1_ICCR2 := U8 (IICBASE + 0x3101).
Definition IIC1_ICMR1 := U8 (IICBASE + 0x3102).
Definition IIC1_ICMR2 := U8 (IICBASE + 0x3103).
Definition IIC1_ICMR3 := U8 (IICBASE + 0x3104).
Definition IIC1_ICFER := U8 (IICBASE + 0x3105).
Definition IIC1_ICSER := U8 (IICBASE + 0x3106).
Definition IIC1_ICIER := U8 (IICBASE + 0x3107).
Definition IIC1_ICSR1 := U8 (IICBASE + 0x3108).
Definition IIC1_ICSR2 := U8 (IICBASE + 0x3109).
Definition IIC1_ICBRL := U8 (IICBASE + 0x3110).
Definition IIC1_ICBRH := U8 (IICBASE + 0x3111).
Definition IIC1_ICDRT := U8 (IICBASE + 0x3112).
Definition IIC1_ICDRR := U8 (IICBASE + 0x3113).


(** ** Interrupt event names *)

(** The event numbers of Table 13.4, as the [#define IRQ_...] list gives them. *)
Definition irq_events : list (string * Z) :=
  ([("IRQ_NO_EVENT", 0x00); ("IRQ_PORT_IRQ0", 0x01); ("IRQ_PORT_IRQ1", 0x02);
   ("IRQ_PORT_IRQ2", 0x03); ("IRQ_PORT_IRQ3", 0x04); ("IRQ_PORT_IRQ4", 0x05);
   ("IRQ_PORT_IRQ5", 0x06); ("IRQ_PORT_IRQ6", 0x07); ("IRQ_PORT_IRQ7", 0x08);
   ("IRQ_PORT_IRQ8", 0x09); ("IRQ_PORT_IRQ9", 0x0A); ("IRQ_PORT_IRQ10", 0x0B);
   ("IRQ_PORT_IRQ11", 0x0C); ("IRQ_PORT_IRQ12", 0x0D); ("IRQ_PORT_IRQ14", 0x0F);
   ("IRQ_PORT_IRQ15", 0x10); ("IRQ_DMAC0_INT", 0x11); ("IRQ_DMAC1_INT", 0x12);
   ("IRQ_DMAC2_INT", 0x13); ("IRQ_DMAC3_INT", 0x14); ("IRQ_DTC_COMPLETE", 0x15);
   ("IRQ_ICU_SNZCANCEL", 0x17); ("IRQ_FCU_FRDYI", 0x18); ("IRQ_LVD_LVD1", 0x19);
   ("IRQ_LVD_LVD2", 0x1A); ("IRQ_VBATT_LVD", 0x1B); ("IRQ_MOSC_STOP", 0x1C);
   ("IRQ_SYSTEM_SNZREQ", 0x1D); ("IRQ_AGT0_AGTI", 0x1E); ("IRQ_AGT0_AGTCMAI", 0x1F);
   ("IRQ_AGT0_AGTCMBI", 0x20); ("IRQ_AGT1_AGTI", 0x21); ("IRQ_AGT1_AGTCMAI", 0x22);
   ("IRQ_AGT1_AGTCMBI", 0x23); ("IRQ_IWDT_NMIUNDF", 0x24); ("IRQ_WDT_NMIUNDF", 0x25);
   ("IRQ_RTC_ALM", 0x26); ("IRQ_RTC_PRD", 0x27); ("IRQ_RTC_CUP", 0x28);
   ("IRQ_ADC140_ADI", 0x29); ("IRQ_ADC140_GBADI", 0x2A); ("IRQ_ADC140_CMPAI", 0x2B);
   ("IRQ_ADC140_CMPBI", 0x2C); ("IRQ_ADC140_WCMPM", 0x2D); ("IRQ_ADC140_WCMPUM", 0x2E);
   ("IRQ_ACMP_LP0", 0x2F); ("IRQ_ACMP_LP1", 0x30); ("IRQ_USBFS_D0FIFO", 0x31);
   ("IRQ_USBFS_D1FIFO", 0x32); ("IRQ_USBFS_USBI", 0x33); ("IRQ_USBFS_USBR", 0x34);
   ("IRQ_IIC0_RXI", 0x35); ("IRQ_IIC0_TXI", 0x36); ("IRQ_IIC0_TEI", 0x37);
   ("IRQ_IIC0_EEI", 0x38); ("IRQ_IIC0_WUI", 0x39); ("IRQ_IIC1_RXI", 0x3A);
   ("IRQ_IIC1_TXI", 0x3B); ("IRQ_IIC1_TEI", 0x3C); ("IRQ_IIC1_EEI", 0x3D);
   ("IRQ_SSIE0_SSITXI", 0x3E); ("IRQ_SSIE0_SSIRXI", 0x3F); ("IRQ_SSIE0_SSIF", 0x41);
   ("IRQ_CTSU_CTSUWR", 0x42); ("IRQ_CTSU_CTSURD", 0x43); ("IRQ_CTSU_CTSUFN", 0x44);
   ("IRQ_KEY_INTKR", 0x45); ("IRQ_DOC_DOPCI", 0x46); ("IRQ_CAC_FERRI", 0x47);
   ("IRQ_CAC_MENDI", 0x48); ("IRQ_CAC_OVFI", 0x49); ("IRQ_CAN0_ERS", 0x4A);
   ("IRQ_CAN0_RXF", 0x4B); ("IRQ_CAN0_TXF", 0x4C); ("IRQ_CAN0_RXM", 0x4D);
   ("IRQ_CAN0_TXM", 0x4E); ("IRQ_IOPORT_GROUP1", 0x4F); ("IRQ_IOPORT_GROUP2", 0x50);
   ("IRQ_IOPORT_GROUP3", 0x51); ("IRQ_IOPORT_GROUP4", 0x52); ("IRQ_ELC_SWEVT0", 0x53);
   ("IRQ_ELC_SWEVT1", 0x54); ("IRQ_POEG_GROUP0", 0x55); ("IRQ_POEG_GROUP1", 0x56);
   ("IRQ_GPT0_CCMPA", 0x57); ("IRQ_GPT0_CCMPB", 0x58); ("IRQ_GPT0_CMPC", 0x59);
   ("IRQ_GPT0_CMPD", 0x5A); ("IRQ_GPT0_CMPE", 0x5B); ("IRQ_GPT0_CMPF", 0x5C);
   ("IRQ_GPT0_OVF", 0x5D); ("IRQ_GPT0_UDF", 0x5E); ("IRQ_GPT1_CCMPA", 0x5F);
   ("IRQ_GPT1_CCMPB", 0x60); ("IRQ_GPT1_CMPC", 0x61); ("IRQ_GPT1_CMPD", 0x62);
   ("IRQ_GPT1_CMPE", 0x63); ("IRQ_GPT1_CMPF", 0x64); ("IRQ_GPT1_OVF", 0x65);
   ("IRQ_GPT1_UDF", 0x66); ("IRQ_GPT2_CCMPA", 0x67); ("IRQ_GPT2_CCMPB", 0x68);
   ("IRQ_GPT2_CMPC", 0x69); ("IRQ_GPT2_CMPD", 0x6A); ("IRQ_GPT2_CMPE", 0x6B);
   ("IRQ_GPT2_CMPF", 0x6C); ("IRQ_GPT2_OVF", 0x6D); ("IRQ_GPT2_UDF", 0x6E);
   ("IRQ_GPT3_CCMPA", 0x6F); ("IRQ_GPT3_CCMPB", 0x70); ("IRQ_GPT3_CMPC", 0x71);
   ("IRQ_GPT3_CMPD", 0x72); ("IRQ_GPT3_CMPE", 0x73); ("IRQ_GPT3_CMPF", 0x74);
   ("IRQ_GPT3_OVF", 0x75); ("IRQ_GPT3_UDF", 0x76); ("IRQ_GPT4_CCMPA", 0x77);
   ("IRQ_GPT4_CCMPB", 0x78); ("IRQ_GPT4_CMPC", 0x79); ("IRQ_GPT4_CMPD", 0x7A);
   ("IRQ_GPT4_CMPE", 0x7B); ("IRQ_GPT4_CMPF", 0x7C); ("IRQ_GPT4_OVF", 0x7D);
   ("IRQ_GPT4_UDF", 0x7E); ("IRQ_GPT5_CCMPA", 0x7F); ("IRQ_GPT5_CCMPB", 0x80);
   ("IRQ_GPT5_CMPC", 0x81); ("IRQ_GPT5_CMPD", 0x82); ("IRQ_GPT5_CMPE", 0x83);
   ("IRQ_GPT5_CMPF", 0x84); ("IRQ_GPT5_OVF", 0x85); ("IRQ_GPT5_UDF", 0x86);
   ("IRQ_GPT6_CCMPA", 0x87); ("IRQ_GPT6_CCMPB", 0x88); ("IRQ_GPT6_CMPC", 0x89);
   ("IRQ_GPT6_CMPD", 0x8A); ("IRQ_GPT6_CMPE", 0x8B); ("IRQ_GPT6_CMPF", 0x8C);
   ("IRQ_GPT6_OVF", 0x8D); ("IRQ_GPT6_UDF", 0x8E); ("IRQ_GPT7_CCMPA", 0x8F);
   ("IRQ_GPT7_CCMPB", 0x90); ("IRQ_GPT7_CMPC", 0x91); ("IRQ_GPT7_CMPD", 0x92);
   ("IRQ_GPT7_CMPE", 0x93); ("IRQ_GPT7_CMPF", 0x94); ("IRQ_GPT7_OVF", 0x95);
   ("IRQ_GPT7_UDF", 0x96); ("IRQ_GPT_UVWEDGE", 0x97); ("IRQ_SCI0_RXI", 0x98);
   ("IRQ_SCI0_TXI", 0x99); ("IRQ_SCI0_TEI", 0x9A); ("IRQ_SCI0_ERI", 0x9B);
   ("IRQ_SCI0_AM", 0x9C); ("IRQ_SCI0_RXI_OR_ERI", 0x9D); ("IRQ_SCI1_RXI", 0x9E);
   ("IRQ_SCI1_TXI", 0x9F); ("IRQ_SCI1_TEI", 0xA0); ("IRQ_SCI1_ERI", 0xA1);
   ("IRQ_SCI1_AM", 0xA2); ("IRQ_SCI2_RXI", 0xA3); ("IRQ_SCI2_TXI", 0xA4);
   ("IRQ_SCI2_TEI", 0xA5); ("IRQ_SCI2_ERI", 0xA6); ("IRQ_SCI2_AM", 0xA7);
   ("IRQ_SCI9_RXI", 0xA8); ("IRQ_SCI9_TXI", 0xA9); ("IRQ_SCI9_TEI", 0xAA);
   ("IRQ_SCI9_ERI", 0xAB); ("IRQ_SCI9_AM", 0xAC); ("IRQ_SPI0_SPRI", 0xAD);
   ("IRQ_SPI0_SPTI", 0xAE); ("IRQ_SPI0_SPII", 0xAF); ("IRQ_SPI0_SPEI", 0xB0);
   ("IRQ_SPI0_SPTEND", 0xB1); ("IRQ_SPI1_SPRI", 0xB2); ("IRQ_SPI1_SPTI", 0xB3);
   ("IRQ_SPI1_SPII", 0xB4); ("IRQ_SPI1_SPEI", 0xB5); ("IRQ_SPI1_SPTEND", 0xB6)])%string.

(** [string_table]: the [PROGMEM] strings [string_00] .. [string_B7], in the
    order of the table. *)
Definition string_table : list string :=
  (["No_Event"; "PORT_IRQ0"; "PORT_IRQ1"; "PORT_IRQ2"; "PORT_IRQ3";
   "PORT_IRQ4"; "PORT_IRQ5"; "PORT_IRQ6"; "PORT_IRQ7"; "PORT_IRQ8";
   "PORT_IRQ9"; "PORT_IRQ10"; "PORT_IRQ11"; "PORT_IRQ12"; "PORT_UNUSED";
   "PORT_IRQ14"; "PORT_IRQ15"; "DMAC0_INT"; "DMAC1_INT"; "DMAC2_INT";
   "DMAC3_INT"; "DTC_COMPLETE"; "UNUSED"; "ICU_SNZCANCEL"; "FCU_FRDYI";
   "LVD_LVD1"; "LVD_LVD2"; "VBATT_LVD"; "MOSC_STOP"; "SYSTEM_SNZREQ";
   "AGT0_AGTI"; "AGT0_AGTCMAI"; "AGT0_AGTCMBI"; "AGT1_AGTI"; "AGT1_AGTCMAI";
   "AGT1_AGTCMBI"; "IWDT_NMIUNDF"; "WDT_NMIUNDF"; "RTC_ALM"; "RTC_PRD";
   "RTC_CUP"; "ADC140_ADI"; "ADC140_GBADI"; "ADC140_CMPAI"; "ADC140_CMPBI";
   "ADC140_WCMPM"; "ADC140_WCMPUM"; "ACMP_LP0"; "ACMP_LP1"; "USBFS_D0FIFO";
   "USBFS_D1FIFO"; "USBFS_USBI"; "USBFS_USBR"; "IIC0_RXI"; "IIC0_TXI";
   "IIC0_TEI"; "IIC0_EEI"; "IIC0_WUI"; "IIC1_RXI"; "IIC1_TXI";
   "IIC1_TEI"; "IIC1_EEI"; "SSIE0_SSITXI"; "SSIE0_SSIRXI"; "UNUSED";
   "SSIE0_SSIF"; "CTSU_CTSUWR"; "CTSU_CTSURD"; "CTSU_CTSUFN"; "KEY_INTKR";
   "DOC_DOPCI"; "CAC_FERRI"; "CAC_MENDI"; "CAC_OVFI"; "CAN0_ERS";
   "CAN0_RXF"; "CAN0_TXF"; "CAN0_RXM"; "CAN0_TXM"; "IOPORT_GROUP1";
   "IOPORT_GROUP2"; "IOPORT_GROUP3"; "IOPORT_GROUP4"; "ELC_SWEVT0"; "ELC_SWEVT1";
   "POEG_GROUP0"; "POEG_GROUP1"; "GPT0_CCMPA"; "GPT0_CCMPB"; "GPT0_CMPC";
   "GPT0_CMPD"; "GPT0_CMPE"; "GPT0_CMPF"; "GPT0_OVF"; "GPT0_UDF";
   "GPT1_CCMPA"; "GPT1_CCMPB"; "GPT1_CMPC"; "GPT1_CMPD"; "GPT1_CMPE";
   "GPT1_CMPF"; "GPT1_OVF"; "GPT1_UDF"; "GPT2_CCMPA"; "GPT2_CCMPB";
   "GPT2_CMPC"; "GPT2_CMPD"; "GPT2_CMPE"; "GPT2_CMPF"; "GPT2_OVF";
   "GPT2_UDF"; "GPT3_CCMPA"; "GPT3_CCMPB"; "GPT3_CMPC"; "GPT3_CMPD";
   "GPT3_CMPE"; "GPT3_CMPF"; "GPT3_OVF"; "GPT3_UDF"; "GPT4_CCMPA";
   "GPT4_CCMPB"; "GPT4_CMPC"; "GPT4_CMPD"; "GPT4_CMPE"; "GPT4_CMPF";
   "GPT4_OVF"; "GPT4_UDF"; "GPT5_CCMPA"; "GPT5_CCMPB"; "GPT5_CMPC";
   "GPT5_CMPD"; "GPT5_CMPE"; "GPT5_CMPF"; "GPT5_OVF"; "GPT5_UDF";
   "GPT6_CCMPA"; "GPT6_CCMPB"; "GPT6_CMPC"; "GPT6_CMPD"; "GPT6_CMPE";
   "GPT6_CMPF"; "GPT6_OVF"; "GPT6_UDF"; "GPT7_CCMPA"; "GPT7_CCMPB";
   "GPT7_CMPC"; "GPT7_CMPD"; "GPT7_CMPE"; "GPT7_CMPF"; "GPT7_OVF";
   "GPT7_UDF"; "GPT_UVWEDGE"; "SCI0_RXI"; "SCI0_TXI"; "SCI0_TEI";
   "SCI0_ERI"; "SCI0_AM"; "SCI0_RXI_OR_ERI"; "SCI1_RXI"; "SCI1_TXI";
   "SCI1_TEI"; "SCI1_ERI"; "SCI1_AM"; "SCI2_RXI"; "SCI2_TXI";
   "SCI2_TEI"; "SCI2_ERI"; "SCI2_AM"; "SCI9_RXI"; "SCI9_TXI";
   "SCI9_TEI"; "SCI9_ERI"; "SCI9_AM"; "SPI0_SPRI"; "SPI0_SPTI";
   "SPI0_SPII"; "SPI0_SPEI"; "SPI0_SPTEND"; "SPI1_SPRI"; "SPI1_SPTI";
   "SPI1_SPII"; "SPI1_SPEI"; "SPI1_SPTEND"; "UNUSED"])%string.

(** [char message_buffer[30]]: room for a text of at most 29 characters
    and its terminator. *)
Definition message_buffer_size : nat := 30.

(** [string_table[v]]: the entry at index [v], when there is one. *)
Definition table_entry (v : Z) : option string := nth_error string_table (Z.to_nat v).

(** ** Serial output

    What [Serial.print] and [Serial.println] send, token by token. *)
Inductive out : Type :=
| OStr (s : string)       (* Serial.print("...") *)
| ODec (v : Z)            (* Serial.print(v) *)
| OHex (v : Z)            (* Serial.print(v, HEX) *)
| ONl.                    (* the line end of Serial.println *)

(** A routine that prints: an access to the machine that also yields the
    tokens sent. *)
Definition P (A : Type) : Type := M (A * list out).

Definition pret {A} (a : A) : P A := ret (a, []).

Definition pbind {A B} (m : P A) (k : A -> P B) : P B :=
  bind m (fun ao =>
  bind (k (fst ao)) (fun bo =>
  ret (fst bo, snd ao ++ snd bo))).

Definition plift {A} (m : M A) : P A := bind m (fun a => ret (a, [])).

Definition print (o : out) : P unit := ret (tt, [o]).
Definition println (o : out) : P unit := ret (tt, [o; ONl]).

Definition output {A} (m : P A) (s : machine) : list out := snd (result m s).

Declare Scope diag_scope.
Delimit Scope diag_scope with diag.
Notation "x <- m ;; k" := (pbind m (fun x => k))
  (at level 61, m at next level, right associativity) : diag_scope.
Notation "m ;; k" := (pbind m (fun _ => k))
  (at level 61, right associativity) : diag_scope.

(** [for(i = a; i <= b; i++) body], [i] an [unsigned char]; the index the
    loop is left with is returned.  [fuel] bounds the number of iterations;
    the routines below give 256, and the properties show that their loops
    end by the test [i <= b] well before that. *)
Fixpoint for_le (fuel : nat) (i b : Z) (body : Z -> P unit) : P Z :=
  match fuel with
  | O => pret i
  | S fuel' =>
      if i <=? b
      then pbind (body i) (fun _ => for_le fuel' (trunc 8 (i + 1)) b body)
      else pret i
  end.

Section Diagnostics.
Variable hw : hardware.
Local Open Scope diag_scope.

(** [*r] as an rvalue inside a printing routine. *)
Definition peek (r : reg) : P Z := plift (load hw r).

(** [void setup_serial_sci2(void)] *)
Definition setup_serial_sci2 : M unit :=
  (and_assign hw MSTP_MSTPCRB (0xFFFFFFFF - Z.shiftl 0x01 MSTPB29) ;;
   store SCI2_SMR 0x00 ;;
   store SCI2_SCMR 0xF2 ;;
   store SCI2_BRR 0x16 ;;
   store SCI2_MDDR 0xE2 ;;
   store SCI2_SEMR 0xC4 ;;
   store SCI2_SNFR 0x00 ;;
   store SCI2_SPTR 0x06 ;;
   store SCI2_SCR 0x30 ;;
   store PFS_P301PFS (Z.shiftl 4 24) ;;          (* 0b00100 << 24 *)
   or_assign hw PFS_P301PFS (Z.shiftl 0x1 16) ;;
   store PFS_P302PFS (Z.shiftl 4 24) ;;
   or_assign hw PFS_P302PFS (Z.shiftl 0x1 16))%prog.

(** [void setup_serial_iic1(void)] *)
Definition setup_serial_iic1 : M unit :=
  (and_assign hw MSTP_MSTPCRB (0xFFFFFFFF - Z.shiftl 0x01 MSTPB8) ;;
   store IIC1_ICCR1 0x9F ;;
   store IIC1_ICCR2 0x00 ;;
   store IIC1_ICMR1 0x28 ;;
   store IIC1_ICMR2 0x05 ;;
   store IIC1_ICMR3 0x00 ;;
   store IIC1_ICFER 0x77 ;;
   store IIC1_ICSER 0x00 ;;
   store IIC1_ICIER 0x00 ;;
   store IIC1_ICBRL 0xFB ;;
   store IIC1_ICBRH 0xFA ;;
   store PFS_P100PFS (Z.shiftl 7 24) ;;          (* 0b00111 << 24 *)
   or_assign hw PFS_P100PFS (Z.shiftl 0x1 16) ;;
   store PFS_P101PFS (Z.shiftl 7 24) ;;
   or_assign hw PFS_P101PFS (Z.shiftl 0x1 16))%prog.

(** [void get_system_info(void)] *)
Definition get_system_info : P unit :=
  print (OStr "SYSTEM_SCKDIVCR ") ;;
  v <- peek SYSTEM_SCKDIVCR ;; println (OHex v) ;;
  print (OStr "SYSTEM_SBYCR    ") ;;
  v <- peek SYSTEM_SBYCR ;; println (OHex v) ;;
  print (OStr "SYSTEM_MSTPCRA ") ;;
  v <- peek SYSTEM_MSTPCRA ;; println (OHex v) ;;
  print (OStr "MSTP_MSTPCRB ") ;;
  v <- peek MSTP_MSTPCRB ;; println (OHex v) ;;
  print (OStr "MSTP_MSTPCRC ") ;;
  v <- peek MSTP_MSTPCRC ;; println (OHex v) ;;
  print (OStr "MSTP_MSTPCRD ") ;;
  v <- peek MSTP_MSTPCRD ;; println (OHex v) ;;
  println (OStr " ").

(** [void get_all_timer_status(void)] *)
Definition get_all_timer_status : P unit :=
  print (OStr "AGT0_AGTCR   ") ;;
  v <- peek AGT0_AGTCR ;; println (OHex v) ;;
  print (OStr "AGT1_AGTCR   ") ;;
  v <- peek AGT1_AGTCR ;; println (OHex v) ;;
  print (OStr "GPT320_GTST  ") ;;
  v <- peek GPT320_GTST ;; println (OHex v) ;;
  print (OStr "GPT321_GTST  ") ;;
  v <- peek GPT321_GTST ;; println (OHex v) ;;
  print (OStr "GPT162_GTST  ") ;;
  v <- peek GPT162_GTST ;; println (OHex v) ;;
  print (OStr "GPT163_GTST  ") ;;
  v <- peek GPT163_GTST ;; println (OHex v) ;;
  print (OStr "GPT164_GTST  ") ;;
  v <- peek GPT164_GTST ;; println (OHex v) ;;
  print (OStr "GPT165_GTST  ") ;;
  v <- peek GPT165_GTST ;; println (OHex v) ;;
  print (OStr "GPT166_GTST  ") ;;
  v <- peek GPT166_GTST ;; println (OHex v) ;;
  print (OStr "GPT167_GTST  ") ;;
  v <- peek GPT167_GTST ;; println (OHex v).

(** [void get_timer_reg_values(int timer_number)].  The address expression
    is computed in [int] and converted to a pointer of 32 bits: the address
    read is the expression modulo [2 ^ 32].  That is what the conversion
    gives as long as the [int] arithmetic stays within [int]; where it does
    not, C leaves the behaviour open, and the properties of the addresses
    below are stated for arguments that keep it within. *)
Definition get_timer_reg_values (timer_number : Z) : P unit :=
  print (OStr "Registers for GPT") ;;
  println (ODec timer_number) ;;
  print (OStr "GTWP   ") ;;
  local_gpt_val <- peek (U32 (trunc 32 (GPTBASE + GTWP + (timer_number * 0x100)))) ;;
  println (OHex local_gpt_val) ;;
  print (OStr "GTSSR  ") ;;
  local_gpt_val <- peek (U32 (trunc 32 (GPTBASE + GTSSR + (timer_number * 0x100)))) ;;
  println (OHex local_gpt_val) ;;
  print (OStr "GTPSR  ") ;;
  local_gpt_val <- peek (U32 (trunc 32 (GPTBASE + GTPSR + (timer_number * 0x100)))) ;;
  println (OHex local_gpt_val) ;;
  print (OStr "GTCSR  ") ;;
  local_gpt_val <- peek (U32 (trunc 32 (GPTBASE + GTCSR + (timer_number * 0x100)))) ;;
  println (OHex local_gpt_val) ;;
  print (OStr "GTIOR  ") ;;
  local_gpt_val <- peek (U32 (trunc 32 (GPTBASE + GTIOR + (timer_number * 0x100)))) ;;
  println (OHex local_gpt_val) ;;
  print (OStr "GTBER  ") ;;
  local_gpt_val <- peek (U32 (trunc 32 (GPTBASE + GTBER + (timer_number * 0x100)))) ;;
  println (OHex local_gpt_val) ;;
  print (OStr "GTUPSR ") ;;
  local_gpt_val <- peek (U32 (trunc 32 (GPTBASE + GTUPSR + (timer_number * 0x100)))) ;;
  println (OHex local_gpt_val) ;;
  print (OStr "GTDNSR ") ;;
  local_gpt_val <- peek (U32 (trunc 32 (GPTBASE + GTDNSR + (timer_number * 0x100)))) ;;
  println (OHex local_gpt_val) ;;
  print (OStr "GTCR   ") ;;
  local_gpt_val <- peek (U32 (trunc 32 (GPTBASE + GTCR + (timer_number * 0x100)))) ;;
  println (OHex local_gpt_val) ;;
  print (OStr "GTUDDTYC ") ;;
  local_gpt_val <- peek (U32 (trunc 32 (GPTBASE + GTUDDTYC + (timer_number * 0x100)))) ;;
  println (OHex local_gpt_val) ;;
  print (OStr "GTST   ") ;;
  local_gpt_val <- peek (U32 (trunc 32 (GPTBASE + GTST + (timer_number * 0x100)))) ;;
  print (OHex local_gpt_val) ;;
  println (OStr " Flags") ;;
  print (OStr "GTCCRA ") ;;
  local_gpt_val <- peek (U32 (trunc 32 (GPTBASE + GTCCRA + (timer_number * 0x100)))) ;;
  println (OHex local_gpt_val) ;;
  print (OStr "GTCCRB ") ;;
  local_gpt_val <- peek (U32 (trunc 32 (GPTBASE + GTCCRB + (timer_number * 0x100)))) ;;
  println (OHex local_gpt_val) ;;
  print (OStr "GTCCRC ") ;;
  local_gpt_val <- peek (U32 (trunc 32 (GPTBASE + GTCCRC + (timer_number * 0x100)))) ;;
  println (OHex local_gpt_val) ;;
  print (OStr "GTCCRD ") ;;
  local_gpt_val <- peek (U32 (trunc 32 (GPTBASE + GTCCRD + (timer_number * 0x100)))) ;;
  println (OHex local_gpt_val) ;;
  print (OStr "GTPR   ") ;;
  local_gpt_val <- peek (U32 (trunc 32 (GPTBASE + GTPR + (timer_number * 0x100)))) ;;
  println (OHex local_gpt_val) ;;
  print (OStr "GTPBR  ") ;;
  local_gpt_val <- peek (U32 (trunc 32 (GPTBASE + GTPBR + (timer_number * 0x100)))) ;;
  println (OHex local_gpt_val) ;;
  println (OStr " ").

(** [void print_dac_registers(void)] *)
Definition print_dac_registers : P unit :=
  print (OStr "DAC12_DADR0    ") ;;
  v <- peek DAC12_DADR0 ;; print (OHex v) ;;
  println (OStr " - D/A Data Register 0") ;;
  print (OStr "DAC12_DACR     ") ;;
  v <- peek DAC12_DACR ;; print (OHex v) ;;
  println (OStr " - D/A Control Register") ;;
  print (OStr "DAC12_DADPR    ") ;;
  v <- peek DAC12_DADPR ;; print (OHex v) ;;
  println (OStr " - D/A Format Select Register") ;;
  print (OStr "DAC12_DAADSCR  ") ;;
  v <- peek DAC12_DAADSCR ;; print (OHex v) ;;
  println (OStr " - D/A A/D Synchronous Start Control Register") ;;
  print (OStr "DAC12_DAVREFCR ") ;;
  v <- peek DAC12_DAVREFCR ;; print (OHex v) ;;
  println (OStr " - D/A VREF Control Register") ;;
  println (OStr " ").

(** [void print_adc_registers(void)] *)
Definition print_adc_registers : P unit :=
  print (OStr "ADC140_ADCSR ") ;;
  v <- peek ADC140_ADCSR ;; print (ODec v) ;;
  println (OStr " A/D Control Register") ;;
  print (OStr "ADC140_ADANSA0 ") ;;
  v <- peek ADC140_ADANSA0 ;; print (ODec v) ;;
  println (OStr " A/D Channel Select Register A0") ;;
  print (OStr "ADC140_ADANSA1 ") ;;
  v <- peek ADC140_ADANSA1 ;; print (ODec v) ;;
  println (OStr " A/D Channel Select Register A1") ;;
  print (OStr "ADC140_ADADS0 ") ;;
  v <- peek ADC140_ADADS0 ;; print (ODec v) ;;
  println (OStr " A/D-Converted Value Addition/Average Channel Select Register 0") ;;
  print (OStr "ADC140_ADADS1 ") ;;
  v <- peek ADC140_ADADS1 ;; print (ODec v) ;;
  println (OStr " A/D-Converted Value Addition/Average Channel Select Register 1") ;;
  print (OStr "ADC140_ADCER ") ;;
  v <- peek ADC140_ADCER ;; print (ODec v) ;;
  println (OStr " A/D Control Extended Register") ;;
  print (OStr "ADC140_ADSTRGR ") ;;
  v <- peek ADC140_ADSTRGR ;; print (ODec v) ;;
  println (OStr " A/D Conversion Start Trigger Select Register") ;;
  print (OStr "ADC140_ADEXICR ") ;;
  v <- peek ADC140_ADEXICR ;; print (ODec v) ;;
  println (OStr " A/D Conversion Extended Input Control Register") ;;
  print (OStr "ADC140_ADANSB0 ") ;;
  v <- peek ADC140_ADANSB0 ;; print (ODec v) ;;
  println (OStr " A/D Channel Select Register B0") ;;
  print (OStr "ADC140_ADANSB1 ") ;;
  v <- peek ADC140_ADANSB1 ;; print (ODec v) ;;
  println (OStr " A/D Channel Select Register B1") ;;
  print (OStr "ADC140_ADRD ") ;;
  v <- peek ADC140_ADRD ;; print (ODec v) ;;
  println (OStr " A/D Self-Diagnosis Data Register") ;;
  print (OStr "ADC140_ADGSPCR ") ;;
  v <- peek ADC140_ADGSPCR ;; print (ODec v) ;;
  println (OStr " A/D Group Scan Priority Control Register") ;;
  print (OStr "ADC140_ADCMPCR ") ;;
  v <- peek ADC140_ADCMPCR ;; print (ODec v) ;;
  println (OStr " A/D Compare Function Control Register").

(** In the four routines that follow the [int] argument is an integer and
    the address is the expression as written: the address read, for an
    argument that keeps the expression between 0 and [2 ^ 32 - 1]. *)

(** [void print_adc_sample_state_reg(int ssregval)] *)
Definition print_adc_sample_state_reg (ssregval : Z) : P unit :=
  print (OStr "ADC140_ADSSTR") ;;
  print (ODec ssregval) ;;
  print (OStr " = ") ;;
  v <- peek (U8 (ADCBASE + 0xC0E0 + ssregval)) ;; println (ODec v).

(** [void print_sci_serial_reg(int sciregval)] *)
Definition print_sci_serial_reg (sciregval : Z) : P unit :=
  print (OStr "SCI") ;;
  print (ODec sciregval) ;;
  println (OStr " Registers") ;;
  print (OStr "*SCI") ;;
  print (ODec sciregval) ;;
  print (OStr "_RDR") ;;
  print (OStr " = 0x") ;;
  v <- peek (U8 (SCIBASE + 0x0005 + (0x20 * sciregval))) ;; print (OHex v) ;;
  println (OStr "; // Receive Data Register") ;;
  print (OStr "*SCI") ;;
  print (ODec sciregval) ;;
  print (OStr "_TDR") ;;
  print (OStr " = 0x") ;;
  v <- peek (U8 (SCIBASE + 0x0003 + (0x20 * sciregval))) ;; print (OHex v) ;;
  println (OStr "; // Transmit Data Register") ;;
  print (OStr "*SCI") ;;
  print (ODec sciregval) ;;
  print (OStr "_SMR") ;;
  print (OStr " = 0x") ;;
  v <- peek (U8 (SCIBASE + 0x0000 + (0x20 * sciregval))) ;; print (OHex v) ;;
  println (OStr "; // Serial Mode Register") ;;
  print (OStr "*SCI") ;;
  print (ODec sciregval) ;;
  print (OStr "_SSR") ;;
  print (OStr " = 0x") ;;
  v <- peek (U8 (SCIBASE + 0x0004 + (0x20 * sciregval))) ;; print (OHex v) ;;
  println (OStr "; // Serial Status Register") ;;
  print (OStr "*SCI") ;;
  print (ODec sciregval) ;;
  print (OStr "_SCMR") ;;
  print (OStr " = 0x") ;;
  v <- peek (U8 (SCIBASE + 0x0006 + (0x20 * sciregval))) ;; print (OHex v) ;;
  println (OStr "; // Smart Card Mode Register - and other settings") ;;
  print (OStr "*SCI") ;;
  print (ODec sciregval) ;;
  print (OStr "_BRR") ;;
  print (OStr " = 0x") ;;
  v <- peek (U8 (SCIBASE + 0x0001 + (0x20 * sciregval))) ;; print (OHex v) ;;
  println (OStr "; // Bit Rate Register") ;;
  print (OStr "*SCI") ;;
  print (ODec sciregval) ;;
  print (OStr "_MDDR") ;;
  print (OStr " = 0x") ;;
  v <- peek (U8 (SCIBASE + 0x0012 + (0x20 * sciregval))) ;; print (OHex v) ;;
  println (OStr "; // Modulation Duty Register") ;;
  print (OStr "*SCI") ;;
  print (ODec sciregval) ;;
  print (OStr "_SEMR") ;;
  print (OStr " = 0x") ;;
  v <- peek (U8 (SCIBASE + 0x0007 + (0x20 * sciregval))) ;; print (OHex v) ;;
  println (OStr "; // Serial Extended Mode Register") ;;
  print (OStr "*SCI") ;;
  print (ODec sciregval) ;;
  print (OStr "_SNFR") ;;
  print (OStr " = 0x") ;;
  v <- peek (U8 (SCIBASE + 0x0008 + (0x20 * sciregval))) ;; print (OHex v) ;;
  println (OStr "; // Noise Filter Setting Register") ;;
  print (OStr "*SCI") ;;
  print (ODec sciregval) ;;
  print (OStr "_SPTR") ;;
  print (OStr " = 0x") ;;
  v <- peek (U8 (SCIBASE + 0x001C + (0x20 * sciregval))) ;; print (OHex v) ;;
  println (OStr "; // Serial Port Register") ;;
  print (OStr "*SCI") ;;
  print (ODec sciregval) ;;
  print (OStr "_SCR") ;;
  print (OStr " = 0x") ;;
  v <- peek (U8 (SCIBASE + 0x0002 + (0x20 * sciregval))) ;; print (OHex v) ;;
  println (OStr "; // Serial Control Register").

(** [void print_iic_serial_reg(int iicregval)] *)
Definition print_iic_serial_reg (iicregval : Z) : P unit :=
  print (OStr "IIC") ;;
  print (ODec iicregval) ;;
  println (OStr " Registers") ;;
  for_le 256 0 0x13 (fun iic_val_index =>
    print (OHex iic_val_index) ;;
    print (OStr " = ") ;;
    local_iic_val <- peek (U8 (IICBASE + 0x3000 + iic_val_index + (0x100 * iicregval))) ;;
    println (OHex local_iic_val)) ;;
  println (OStr " ").

(** [void print_spi_serial_reg(int spiregval)]; the last read uses the index
    the second loop is left with. *)
Definition print_spi_serial_reg (spiregval : Z) : P unit :=
  print (OStr "SPI") ;;
  print (ODec spiregval) ;;
  println (OStr " Registers") ;;
  v <- peek SPI0_SPDR_HA ;; println (OHex v) ;;
  for_le 256 0 0x3 (fun spi_val_index =>
    print (OHex spi_val_index) ;;
    print (OStr " = ") ;;
    local_spi_val <- peek (U8 (SPIBASE + 0x2000 + spi_val_index + (0x100 * spiregval))) ;;
    println (OHex local_spi_val)) ;;
  spi_val_index <- for_le 256 0x0A 0x0F (fun spi_val_index =>
    print (OHex spi_val_index) ;;
    print (OStr " = ") ;;
    local_spi_val <- peek (U8 (SPIBASE + 0x2000 + spi_val_index + (0x100 * spiregval))) ;;
    println (OHex local_spi_val)) ;;
  print (OHex spi_val_index) ;;
  print (OStr " = ") ;;
  local_spi_val <- peek (U16 (SPIBASE + 0x2000 + spi_val_index + (0x100 * spiregval))) ;;
  println (OHex local_spi_val) ;;
  println (OStr " ").

(** Library code and memory layout that the sketch does not define.
    [pgm_read_word] and [strcpy_P] come from the program-space header of the
    board's core, and where the strings lie in flash is the linker's choice.
    What [strcpy_P] finds to copy through the pointer fetched by
    [pgm_read_word(&(string_table[v]))], for an index [v] inside the table,
    is therefore a parameter: [pgm_text v] is the text found, without its
    terminator, or [None] when there is none to read. *)
Variable pgm_text : Z -> option string.

(** [strcpy_P(message_buffer, ...pgm_read_word(&(string_table[v])))]: the
    text [message_buffer] holds afterwards, or [None] where the sketch
    leaves the defined behaviour of C: an index beyond the 184 entries of
    [string_table], no text to read, or a text that does not fit
    [message_buffer] with its terminator. *)
Definition strcpy_P (v : Z) : option string :=
  if v <? Z.of_nat (length string_table)
  then match pgm_text v with
       | Some t =>
           if (String.length t <? message_buffer_size)%nat then Some t else None
       | None => None
       end
  else None.

(** The loop of [print_icu_event_links],
    [for(icu_val_index = 0; icu_val_index < 32; icu_val_index++) { ...;
     if(local_icu_val == IRQ_NO_EVENT) break; }].
    The global [message_buffer] is passed in and handed back; the result is
    [None] when the copy is undefined, and the model follows the routine no
    further than that. *)
Fixpoint icu_links (fuel : nat) (icu_val_index : Z) (message_buffer : string)
  : P (option string) :=
  match fuel with
  | O => pret (Some message_buffer)
  | S fuel' =>
      if icu_val_index <? 32
      then
        print (ODec icu_val_index) ;;
        print (OStr " - ") ;;
        local_icu_val <- peek (U32 (ICUBASE + IELSR + (icu_val_index * 4))) ;;
        print (OHex local_icu_val) ;;
        match strcpy_P local_icu_val with
        | Some copied =>
            print (OStr " - ") ;;
            println (OStr copied) ;;
            if local_icu_val =? IRQ_NO_EVENT
            then pret (Some copied)
            else icu_links fuel' (trunc 8 (icu_val_index + 1)) copied
        | None => pret None
        end
      else pret (Some message_buffer)
  end.

(** [void print_icu_event_links(void)] *)
Definition print_icu_event_links (message_buffer : string) : P (option string) :=
  r <- icu_links 256 0 message_buffer ;;
  match r with
  | Some copied => println (OStr " ") ;; pret (Some copied)
  | None => pret None
  end.

End Diagnostics.

(** ** The main loop *)

Section MainLoop.
(** Floating point is left open: [double] stands for the C type,
    [dfreq_of a] for [(double)(a) / 16.384] and [tword_of d] for
    [pow(2, 32) * d / refclk] as the assignment to the [unsigned long]
    [tword_m0] converts it. *)
Variable double : Type.
Variable dfreq_of : Z -> double.
Variable tword_of : double -> Z.
Local Open Scope diag_scope.

(** [void loop()].  The global [dfreq0] is passed in and handed back. *)
Definition loop (dfreq0 : double) : P double :=
  lf <- plift (getb loopFlag) ;;
  dfreq0 <- (if lf
             then a <- plift (getz adc_val_A1) ;;
                  let dfreq0 := dfreq_of a in
                  plift (setz tword_m0 (tword_of dfreq0)) ;;
                  a <- plift (getz adc_val_A1) ;; print (OHex a) ;;
                  print (OStr ", ") ;;
                  r1 <- plift (getz spi1_received_val) ;; print (OHex r1) ;;
                  print (OStr ", ") ;;
                  r0 <- plift (getz spi0_received_val) ;; println (OHex r0) ;;
                  plift (setb loopFlag false) ;;
                  pret dfreq0
             else pret dfreq0) ;;
  af <- plift (getb actionFlag) ;;
  (if af then plift (setb actionFlag false) else pret tt) ;;
  pret dfreq0.

End MainLoop.

(** The reads of [print_icu_event_links] when the slots from [idx] on show
    the values [vals]. *)
Fixpoint icu_trace (idx : Z) (vals : list Z) : list event :=
  match vals with
  | [] => []
  | v :: tl => EvRead (ICU_IELSR idx) v :: icu_trace (idx + 1) tl
  end.

(** What the routine prints for a slot up to the copy, and the whole lines
    for slots whose names are copied. *)
Definition icu_line_start (idx v : Z) : list out :=
  [ODec idx; OStr " - "; OHex v].

Fixpoint icu_lines (names : Z -> option string) (idx : Z) (vals : list Z) : list out :=
  match vals with
  | [] => []
  | v :: tl =>
      icu_line_start idx v
      ++ match names v with
         | Some t => [OStr " - "; OStr t; ONl]
         | None => []
         end
      ++ icu_lines names (idx + 1) tl
  end.

(** The numbers a routine prints in hexadecimal, in order. *)
Definition hex_values (o : list out) : list Z :=
  flat_map (fun t => match t with OHex v => [v] | _ => [] end) o.

(** * Properties *)

(** ** Concrete runs *)

(** With quiet hardware every flag reads 0: nothing is received, all 16
    polls miss, and the DDS writes phase 0 to the DAC. *)
Example quiet_run_trace_length :
  length (events (timer7interrupt quiet_hw) init_machine) = 50%nat.
Proof. reflexivity. Qed.

Example quiet_run_phases :
  phase_sequence (events (timer7interrupt quiet_hw) init_machine)
  = [PhADC; PhSPI; PhDAC; PhPWM].
Proof. reflexivity. Qed.

Example quiet_run_polls :
  length (reads_of SPI1_SPSR (events (timer7interrupt quiet_hw) init_machine))
  = 18%nat.
Proof. reflexivity. Qed.

(** With every register reading 0xFFFF both receive flags are set at the
    first look, and the duty value is clamped to 0x3FE. *)
Example busy_run_received :
  map (zv (exec (timer7interrupt (const_hw 0xFFFF)) init_machine))
      [adc_val_A1; spi0_received_val; spi1_received_val; test; localValA1]
  = [0xFFFF; 0xFFFF; 0xFFFF; 0; 0x3FE].
Proof. reflexivity. Qed.

Example busy_run_polls :
  length (reads_of SPI1_SPSR (events (timer7interrupt (const_hw 0xFFFF)) init_machine))
  = 3%nat.
Proof. reflexivity. Qed.

(** Without the 14-bit precondition the value sent to the DAC can exceed 12
    bits when the DDS is off. *)
Example plain_run_dac_16_bit_reading :
  writes_to DAC12_DADR0 (events (timer7interrupt (const_hw 0xFFFF)) plain_machine)
  = [0x3FFF].
Proof. reflexivity. Qed.

Example setup_run_spcr :
  map (regs (exec (setup quiet_hw) init_machine)) [SPI1_SPCR; SPI0_SPCR]
  = [0xF8; 0x40].
Proof. reflexivity. Qed.

Example setup_timers_run_channels :
  touched_channels (events (setup_timers quiet_hw) init_machine) = [1; 3; 4; 7].
Proof. reflexivity. Qed.

(** ** Arithmetic on fixed-width values *)

Lemma trunc_range w x : 0 <= w -> 0 <= trunc w x < 2 ^ w.
Proof.
  intros Hw. unfold trunc. apply Z.mod_pos_bound. apply Z.pow_pos_nonneg; lia.
Qed.

Lemma trunc_small w x : 0 <= x < 2 ^ w -> trunc w x = x.
Proof. intros H. unfold trunc. apply Z.mod_small. exact H. Qed.

Lemma land_pow2 f n :
  0 <= n -> Z.land f (2 ^ n) = if Z.testbit f n then 2 ^ n else 0.
Proof.
  intros Hn. apply Z.bits_inj'. intros m Hm.
  rewrite Z.land_spec, Z.pow2_bits_eqb by lia.
  destruct (Z.eqb_spec n m) as [->|Hne].
  - rewrite andb_true_r. destruct (Z.testbit f m) eqn:E.
    + rewrite Z.pow2_bits_true by lia. reflexivity.
    + rewrite Z.bits_0. reflexivity.
  - rewrite andb_false_r.
    destruct (Z.testbit f n);
      [rewrite Z.pow2_bits_false by lia | rewrite Z.bits_0]; reflexivity.
Qed.

(** The C test [(f & 0x80) == 0x80] reads bit 7, also through a [uint8_t]. *)
Lemma flag7 f : (Z.land f 128 =? 128) = Z.testbit f 7.
Proof.
  change 128 with (2 ^ 7). rewrite land_pow2 by lia.
  destruct (Z.testbit f 7); reflexivity.
Qed.

Lemma flag7_u8 f : (trunc 8 (Z.land f 128) =? 128) = Z.testbit f 7.
Proof.
  change 128 with (2 ^ 7). rewrite land_pow2 by lia.
  destruct (Z.testbit f 7); reflexivity.
Qed.

Lemma shiftr_bound x k n :
  0 <= k -> 0 <= n -> 0 <= x < 2 ^ (k + n) -> 0 <= Z.shiftr x k < 2 ^ n.
Proof.
  intros Hk Hn [H0 H1]. rewrite Z.shiftr_div_pow2 by lia. split.
  - apply Z.div_pos; [lia | apply Z.pow_pos_nonneg; lia].
  - apply Z.div_lt_upper_bound; [apply Z.pow_pos_nonneg; lia |].
    rewrite <- Z.pow_add_r by lia. exact H1.
Qed.

Lemma duty_range a : 1 <= duty a <= 0x3FE.
Proof.
  unfold duty. cbv zeta.
  destruct (Z.eqb_spec (trunc 16 (Z.shiftr a 4)) 0) as [E|E]; [lia |].
  destruct (Z.leb_spec 0x3FF (trunc 16 (Z.shiftr a 4))) as [L|L]; [lia |].
  pose proof (trunc_range 16 (Z.shiftr a 4)). lia.
Qed.

(** ** Registers and traces *)

Lemma reg_eqb_eq r1 r2 : reg_eqb r1 r2 = true <-> r1 = r2.
Proof.
  destruct r1 as [a1 b1], r2 as [a2 b2]. unfold reg_eqb. cbn [addr bits].
  rewrite andb_true_iff, !Z.eqb_eq. split.
  - intros [-> ->]. reflexivity.
  - intros H. inversion H. split; reflexivity.
Qed.

Lemma reads_of_app r l1 l2 : reads_of r (l1 ++ l2) = reads_of r l1 ++ reads_of r l2.
Proof.
  induction l1 as [|e l1 IH]; [reflexivity |].
  destruct e as [q v|q v|c]; cbn [app reads_of]; try exact IH.
  destruct (reg_eqb q r); cbn [app]; rewrite IH; reflexivity.
Qed.

Lemma writes_to_app r l1 l2 : writes_to r (l1 ++ l2) = writes_to r l1 ++ writes_to r l2.
Proof.
  induction l1 as [|e l1 IH]; [reflexivity |].
  destruct e as [q v|q v|c]; cbn [app writes_to]; try exact IH.
  destruct (reg_eqb q r); cbn [app]; rewrite IH; reflexivity.
Qed.






Lemma reads_of_polls l : reads_of SPI1_SPSR (map (EvRead SPI1_SPSR) l) = l.
Proof. induction l as [|f l IH]; [reflexivity |]. cbn [map]. rewrite <- IH at 2. reflexivity. Qed.

Lemma event_on_polls L l :
  mem_reg SPI1_SPSR L = true -> forallb (event_on L) (map (EvRead SPI1_SPSR) l) = true.
Proof.
  intros H. induction l as [|f l IH]; [reflexivity |].
  cbn [map forallb]. rewrite IH, andb_true_r. exact H.
Qed.

(** ** The monad and its weakest-precondition rules *)

Lemma exec_bind {A B} (m : M A) (k : A -> M B) s :
  exec (bind m k) s = exec (k (result m s)) (exec m s).
Proof.
  unfold exec, result, bind. destruct (m s) as [[a s1] e1]. cbn [fst snd].
  destruct (k a s1) as [[b s2] e2]. reflexivity.
Qed.

Lemma events_bind {A B} (m : M A) (k : A -> M B) s :
  events (bind m k) s = events m s ++ events (k (result m s)) (exec m s).
Proof.
  unfold events, exec, result, bind. destruct (m s) as [[a s1] e1]. cbn [fst snd].
  destruct (k a s1) as [[b s2] e2]. reflexivity.
Qed.

Lemma wp_ret {A} (a : A) s Q : Q a s [] -> wp (ret a) s Q.
Proof. exact (fun H => H). Qed.

Lemma wp_bind {A B} (m : M A) (k : A -> M B) s Q :
  wp m s (fun a s1 e1 => wp (k a) s1 (fun b s2 e2 => Q b s2 (e1 ++ e2))) ->
  wp (bind m k) s Q.
Proof.
  unfold wp. rewrite exec_bind, events_bind.
  unfold result at 3, bind. unfold result, exec, events.
  destruct (m s) as [[a s1] e1]. cbn [fst snd].
  destruct (k a s1) as [[b s2] e2]. exact (fun H => H).
Qed.

Lemma wp_mono {A} (m : M A) s (Q Q' : A -> machine -> list event -> Prop) :
  wp m s Q -> (forall a s' e, Q a s' e -> Q' a s' e) -> wp m s Q'.
Proof. unfold wp. intros H HQ. apply HQ, H. Qed.

Lemma wp_getz x s Q : Q (zv s x) s [] -> wp (getz x) s Q.
Proof. exact (fun H => H). Qed.

Lemma wp_setz x v s Q :
  Q tt (mkMachine (upd_z (zv s) x (trunc (width x) v)) (bv s) (regs s) (loads s)) [] ->
  wp (setz x v) s Q.
Proof. exact (fun H => H). Qed.

Lemma wp_getb x s Q : Q (bv s x) s [] -> wp (getb x) s Q.
Proof. exact (fun H => H). Qed.

Lemma wp_setb x v s Q :
  Q tt (mkMachine (zv s) (upd_b (bv s) x v) (regs s) (loads s)) [] ->
  wp (setb x v) s Q.
Proof. exact (fun H => H). Qed.

Lemma wp_core c s Q : Q tt s [EvCore c] -> wp (core c) s Q.
Proof. exact (fun H => H). Qed.

Lemma wp_store r v s Q :
  Q tt (mkMachine (zv s) (bv s) (upd_r (regs s) r (trunc (bits r) v)) (loads s))
    [EvWrite r (trunc (bits r) v)] ->
  wp (store r v) s Q.
Proof. exact (fun H => H). Qed.

Section Rules.
Variable hw : hardware.

(** A read yields some value of the register's width ... *)
Lemma wp_load r s Q :
  0 <= bits r ->
  (forall v, 0 <= v < 2 ^ bits r ->
     Q v (mkMachine (zv s) (bv s) (upd_r (regs s) r v) (S (loads s))) [EvRead r v]) ->
  wp (load hw r) s Q.
Proof.
  intros Hb H. apply H. unfold bus_value. apply trunc_range. exact Hb.
Qed.

(** ... and the stored value when the hardware leaves the register alone. *)
Lemma wp_load_stored r s Q :
  hw r (loads s) = None ->
  Q (trunc (bits r) (regs s r))
    (mkMachine (zv s) (bv s) (upd_r (regs s) r (trunc (bits r) (regs s r))) (S (loads s)))
    [EvRead r (trunc (bits r) (regs s r))] ->
  wp (load hw r) s Q.
Proof.
  intros Hn H. unfold wp, load, result, exec, events, bus_value. cbn [fst snd].
  rewrite Hn. exact H.
Qed.

Lemma wp_or_assign r v s Q :
  wp (x <- load hw r ;; store r (Z.lor x v)) s Q -> wp (or_assign hw r v) s Q.
Proof. exact (fun H => H). Qed.

Lemma wp_and_assign r v s Q :
  wp (x <- load hw r ;; store r (Z.land x v)) s Q -> wp (and_assign hw r v) s Q.
Proof. exact (fun H => H). Qed.

End Rules.

(** One step of symbolic execution; every read introduces a fresh value. *)
Ltac wp_step :=
  lazymatch goal with
  | |- wp (bind _ _) _ _ => apply wp_bind
  | |- wp (ret _) _ _ => apply wp_ret
  | |- wp (getz _) _ _ => apply wp_getz
  | |- wp (setz _ _) _ _ => apply wp_setz
  | |- wp (getb _) _ _ => apply wp_getb
  | |- wp (setb _ _) _ _ => apply wp_setb
  | |- wp (core _) _ _ => apply wp_core
  | |- wp (store _ _) _ _ => apply wp_store
  | |- wp (or_assign _ _ _) _ _ => apply wp_or_assign
  | |- wp (and_assign _ _ _) _ _ => apply wp_and_assign
  | |- wp (load _ _) _ _ =>
      let v := fresh "v" in
      let Hv := fresh "Hv" in
      apply wp_load; [ discriminate | intros v Hv ]
  | |- wp (if ?c then _ else _) _ _ =>
      let E := fresh "E" in destruct c eqn:E
  end;
  cbv beta; cbn [zv bv regs loads upd_z upd_b zvar_eqb bvar_eqb width].

Ltac wp_run := repeat wp_step.

(** ** The sections of the timer interrupt *)

Section Sections.
Variable hw : hardware.

Lemma adc_section_wp s : wp (adc_section hw) s (fun _ => adc_post s).
Proof.
  unfold adc_section. wp_run. cbn [app].
  exists v, v0, v1. repeat split; try tauto; try reflexivity.
  intros y. rewrite (trunc_small 16 v), (trunc_small 16 v0) by assumption.
  reflexivity.
Qed.

Ltac frame_z :=
  let y := fresh "y" in
  intros y; intros; destruct y; try congruence; reflexivity.

Lemma spi0_section_wp s : wp (spi0_section hw) s (fun _ => spi0_post s).
Proof.
  unfold spi0_section. wp_run; cbn [app];
    exists v, v0, v1; eexists; (split; [reflexivity |]);
    (split; [reflexivity |]);
    rewrite flag7_u8 in E; rewrite E; cbn [zv bv upd_z zvar_eqb];
    (split; [| split; [frame_z | intros b; reflexivity]]).
  all: try (exists v2; split; [reflexivity | apply trunc_small; exact Hv2]).
  all: split; reflexivity.
Qed.

Lemma spi1_wait_wp n :
  forall s, 0 <= zv s test -> zv s test + Z.of_nat n < 256 ->
            wp (spi1_wait hw n) s (fun _ => wait_post n s).
Proof.
  induction n as [|n IH]; intros s Ht0 Ht1.
  - cbn [spi1_wait]. wp_run. exists []. split; [| split; [| split]].
    + split; [constructor | right; repeat split].
    + cbn [length]. rewrite Z.add_0_r. reflexivity.
    + intros; reflexivity.
    + intros b; reflexivity.
  - cbn [spi1_wait]. wp_step. wp_step. wp_step.
    + change (Z.shiftl 1 SPSR_SPRF) with 128 in E. rewrite flag7 in E.
      wp_run. cbn [app]. exists []. split; [| split; [| split]].
      * split; [constructor | left]. exists v. eexists.
        repeat split; [exact E | cbn; lia |].
        cbn [zv upd_z zvar_eqb]. apply trunc_small. exact Hv0.
      * cbn [length]. rewrite Z.add_0_r. reflexivity.
      * frame_z.
      * intros b; reflexivity.
    + change (Z.shiftl 1 SPSR_SPRF) with 128 in E. rewrite flag7 in E.
      wp_step. wp_step. wp_step. wp_step.
      assert (Ht : trunc 8 (zv s test + 1) = zv s test + 1)
        by (apply trunc_small; change (2 ^ 8) with 256; lia).
      rewrite Ht.
      eapply wp_mono; [apply IH; cbn [zv upd_z zvar_eqb]; lia |].
      cbv beta. intros _ s' e (misses & Htr & Htest & Hfr & Hb).
      cbn [zv bv upd_z zvar_eqb] in Htr, Htest, Hfr, Hb. cbn [app].
      exists (v :: misses). split; [| split; [| split]].
      * destruct Htr as [Hm Hcase]. split; [constructor; assumption |].
        destruct Hcase as [(hit & d & Hhit & Hlen & He & Hd) | (Hlen & He & Hd)].
        -- left. exists hit, d. repeat split; [exact Hhit | cbn [length]; lia | | exact Hd].
           rewrite He. reflexivity.
        -- right. repeat split; [cbn [length]; lia | rewrite He; reflexivity | exact Hd].
      * rewrite Htest. cbn [length]. lia.
      * intros y Hy1 Hy2. rewrite (Hfr y Hy1 Hy2).
        destruct y; try congruence; reflexivity.
      * exact Hb.
Qed.

Lemma spi1_section_wp s : wp (spi1_section hw) s (fun _ => spi1_post s).
Proof.
  unfold spi1_section. wp_run.
  eapply wp_mono; [apply spi1_wait_wp; cbn [zv upd_z zvar_eqb]; cbn; lia |].
  cbv beta. intros _ s' e (misses & Htr & Htest & Hfr & Hb).
  cbn [zv bv upd_z zvar_eqb] in Htr, Htest, Hfr, Hb. cbn [app].
  exists v, v0, v1, v2, e, misses. split; [reflexivity |].
  split; [exact Htr |]. split; [exact Htest |]. split; [| split].
  - rewrite (Hfr localCount) by discriminate. reflexivity.
  - intros y Hy1 Hy2 Hy3. rewrite (Hfr y Hy1 Hy2).
    destruct y; try congruence; reflexivity.
  - exact Hb.
Qed.

Lemma dac_section_wp s : wp dac_section s (fun _ => dac_post s).
Proof.
  unfold dac_section, dac_post. wp_run; cbn [app].
  - split; [intros b; reflexivity |]. cbv zeta.
    assert (Hp : 0 <= Z.shiftr (trunc 32 (zv s phaccu0 + zv s tword_m0)) 20 < 2 ^ 12)
      by (apply shiftr_bound; [lia | lia | apply trunc_range; lia]).
    assert (Ht : trunc 16 (Z.shiftr (trunc 32 (zv s phaccu0 + zv s tword_m0)) 20)
                 = Z.shiftr (trunc 32 (zv s phaccu0 + zv s tword_m0)) 20)
      by (apply trunc_small; change (2 ^ 12) with 4096 in Hp;
          change (2 ^ 16) with 65536; lia).
    rewrite Ht. change (bits DAC12_DADR0) with 16. rewrite Ht.
    split; [reflexivity | intros y; reflexivity].
  - split; [intros b; reflexivity |]. split; [reflexivity | intros y; reflexivity].
Qed.

Lemma trunc_32_16 t : trunc 32 (trunc 16 t) = trunc 16 t.
Proof.
  apply trunc_small. pose proof (trunc_range 16 t).
  change (2 ^ 16) with 65536 in *. change (2 ^ 32) with 4294967296. lia.
Qed.

Ltac use_tests :=
  repeat match goal with
         | H : (_ =? _) = _ |- _ => rewrite H
         | H : (_ <=? _) = _ |- _ => rewrite H
         end.

Lemma pwm_section_wp s : wp pwm_section s (fun _ => pwm_post s).
Proof.
  unfold pwm_section, clamp_duty, pwm_post. wp_run; cbn [app]; cbv zeta;
    unfold duty; cbv zeta; use_tests;
    change (bits GPT321_GTCCRD) with 32; rewrite ?trunc_32_16;
    (split; [reflexivity | split;
      [intros y; destruct y; reflexivity | intros b; destruct b; reflexivity]]).
Qed.

Lemma loop_count_section_wp s : wp loop_count_section s (fun _ => loop_count_post s).
Proof.
  unfold loop_count_section, loop_count_post. wp_run; cbn [app]; cbv zeta;
    use_tests; (split; [reflexivity | split;
      [intros y; destruct y; reflexivity | intros b; destruct b; reflexivity]]).
Qed.

End Sections.

(** ** The timer interrupt as the sequence of its sections *)

Lemma timer7interrupt_sections hw s :
  exists s1 s2 s3 s4 s5 e1 e2 e3 e4 e5,
    adc_post s s1 e1 /\ spi0_post s1 s2 e2 /\ spi1_post s2 s3 e3
    /\ dac_post s3 s4 e4 /\ pwm_post s4 s5 e5
    /\ loop_count_post s5 (exec (timer7interrupt hw) s) []
    /\ events (timer7interrupt hw) s =
         EvWrite PFS_P107PFS_BY 5 :: e1
         ++ [EvWrite PFS_P107PFS_BY 4; EvWrite PFS_P106PFS_BY 5] ++ e2 ++ e3
         ++ [EvWrite PFS_P106PFS_BY 4; EvWrite PFS_P107PFS_BY 4] ++ e4 ++ e5
         ++ [EvWrite PFS_P107PFS_BY 5; EvWrite PFS_P107PFS_BY 4].
Proof.
  change (wp (timer7interrupt hw) s (fun _ s' evs =>
    exists s1 s2 s3 s4 s5 e1 e2 e3 e4 e5,
      adc_post s s1 e1 /\ spi0_post s1 s2 e2 /\ spi1_post s2 s3 e3
      /\ dac_post s3 s4 e4 /\ pwm_post s4 s5 e5
      /\ loop_count_post s5 s' []
      /\ evs =
           EvWrite PFS_P107PFS_BY 5 :: e1
           ++ [EvWrite PFS_P107PFS_BY 4; EvWrite PFS_P106PFS_BY 5] ++ e2 ++ e3
           ++ [EvWrite PFS_P106PFS_BY 4; EvWrite PFS_P107PFS_BY 4] ++ e4 ++ e5
           ++ [EvWrite PFS_P107PFS_BY 5; EvWrite PFS_P107PFS_BY 4])).
  unfold timer7interrupt. wp_run.
  eapply wp_mono; [apply adc_section_wp |]. cbv beta. intros _ s1 e1 H1. wp_run.
  eapply wp_mono; [apply spi0_section_wp |]. cbv beta. intros _ s2 e2 H2. wp_run.
  eapply wp_mono; [apply spi1_section_wp |]. cbv beta. intros _ s3 e3 H3. wp_run.
  eapply wp_mono; [apply dac_section_wp |]. cbv beta. intros _ s4 e4 H4. wp_run.
  eapply wp_mono; [apply pwm_section_wp |]. cbv beta. intros _ s5 e5 H5. wp_run.
  eapply wp_mono; [apply loop_count_section_wp |]. cbv beta. intros _ s6 e6 H6. wp_run.
  exists s1, s2, s3, s4, s5, e1, e2, e3, e4, e5.
  split; [exact H1 |]. split; [exact H2 |]. split; [exact H3 |].
  split; [exact H4 |]. split; [exact H5 |].
  assert (He6 : e6 = []) by (destruct H6 as [He _]; exact He). subst e6.
  split; [exact H6 |]. 
  cbn [app]. reflexivity.
Qed.

(** What one execution of the timer interrupt does, with [a1], [a2] the two
    ADC readings and [e2], [e3] the traces of the two SPI units. *)
Lemma timer7interrupt_summary hw s :
  let s' := exec (timer7interrupt hw) s in
  let p := trunc 32 (zv s phaccu0 + zv s tword_m0) in
  let c := trunc 16 (zv s loop_counter + 1) in
  let d := bv s directionFlag in
  exists a1 a2 x e2 e3 sa sb sc,
    events (timer7interrupt hw) s =
      [EvWrite PFS_P107PFS_BY 5;
       EvRead ADC140_ADDR00 a1; EvRead ADC140_ADDR01 a2;
       EvRead ADC140_ADCSR x; EvWrite ADC140_ADCSR (trunc 16 (Z.lor x 0x8000));
       EvWrite PFS_P107PFS_BY 4; EvWrite PFS_P106PFS_BY 5]
      ++ e2 ++ e3
      ++ [EvWrite PFS_P106PFS_BY 4; EvWrite PFS_P107PFS_BY 4;
          EvWrite DAC12_DADR0 (if bv s sineFlag then Z.shiftr p 20 else Z.shiftr a1 2);
          EvWrite GPT321_GTCCRC
            (trunc 32 (Z.shiftr (if bv s sineFlag then Z.shiftr p 20
                                 else zv s icount0) 2));
          EvWrite GPT321_GTCCRD (duty a1);
          EvWrite GPT167_GTCCRC (if d then 0x000 else 0x7FD);
          EvWrite GPT167_GTCCRD (if d then 0x7FD else 0x000);
          EvWrite PFS_P107PFS_BY 5; EvWrite PFS_P107PFS_BY 4]
    /\ 0 <= a1 < 2 ^ 16 /\ 0 <= a2 < 2 ^ 16
    /\ spi0_post sa sb e2 /\ spi1_post sb sc e3
    /\ zv sa spi0_received_val = zv s spi0_received_val
    /\ zv sb spi1_received_val = zv s spi1_received_val
    /\ zv sb localCount = zv s localCount
    /\ zv s' spi0_received_val = zv sb spi0_received_val
    /\ zv s' spi1_received_val = zv sc spi1_received_val
    /\ zv s' localCount = zv sc localCount
    /\ zv s' test = zv sc test
    /\ zv s' adc_val_A1 = a1 /\ zv s' adc_val_A2 = a2
    /\ zv s' localValA1 = duty a1 /\ zv s' localValA2 = duty a2
    /\ zv s' phaccu0 = (if bv s sineFlag then p else zv s phaccu0)
    /\ zv s' icount0 = (if bv s sineFlag then Z.shiftr p 20 else zv s icount0)
    /\ zv s' loop_counter = (if LOOP_COUNT_VAL <=? c then 0 else c)
    /\ bv s' loopFlag = (if LOOP_COUNT_VAL <=? c then true else bv s loopFlag)
    /\ bv s' directionFlag = negb d
    /\ bv s' sineFlag = bv s sineFlag
    /\ bv s' actionFlag = bv s actionFlag
    /\ (forall y, In y [adc_val_A0; tword_m0; spi1_transmit_val; spi0_transmit_val] ->
                  zv s' y = zv s y).
Proof.
  cbv zeta.
  destruct (timer7interrupt_sections hw s)
    as (s1 & s2 & s3 & s4 & s5 & e1 & e2 & e3 & e4 & e5
        & H1 & H2 & H3 & H4 & H5 & H6 & Hev).
  destruct H1 as (a1 & a2 & x & He1 & Ha1 & Ha2 & Hz1 & Hb1).
  pose proof H2 as H2'. pose proof H3 as H3'.
  destruct H2' as (_ & _ & _ & _ & _ & _ & _ & Hz2 & Hb2).
  destruct H3' as (_ & _ & _ & _ & _ & _ & _ & _ & _ & _ & Hz3 & Hb3).
  destruct H4 as (Hb4 & H4).
  destruct H5 as (He5 & Hz5 & Hb5).
  destruct H6 as (_ & Hz6 & Hb6). cbv zeta in He5, Hz5, Hb5, Hz6, Hb6.
  assert (Hsf : bv s3 sineFlag = bv s sineFlag)
    by (rewrite Hb3, Hb2, Hb1; reflexivity).
  assert (Hdf : bv s4 directionFlag = bv s directionFlag)
    by (rewrite Hb4, Hb3, Hb2, Hb1; reflexivity).
  assert (Hlf : bv s5 loopFlag = bv s loopFlag)
    by (rewrite Hb5; cbn [upd_b bvar_eqb]; rewrite Hb4, Hb3, Hb2, Hb1; reflexivity).
  assert (Hlc : zv s3 loop_counter = zv s loop_counter).
  { rewrite Hz3, Hz2, Hz1 by discriminate. reflexivity. }
  assert (Hp : zv s3 phaccu0 = zv s phaccu0).
  { rewrite Hz3, Hz2, Hz1 by discriminate. reflexivity. }
  assert (Htw : zv s3 tword_m0 = zv s tword_m0).
  { rewrite Hz3, Hz2, Hz1 by discriminate. reflexivity. }
  assert (Hic : zv s3 icount0 = zv s icount0).
  { rewrite Hz3, Hz2, Hz1 by discriminate. reflexivity. }
  assert (HA1 : zv s3 adc_val_A1 = a1).
  { rewrite Hz3, Hz2, Hz1 by discriminate. reflexivity. }
  assert (HA2 : zv s3 adc_val_A2 = a2).
  { rewrite Hz3, Hz2, Hz1 by discriminate. reflexivity. }
  assert (Hfr3 : forall y, In y [adc_val_A0; tword_m0; spi1_transmit_val; spi0_transmit_val] ->
                           zv s3 y = zv s y).
  { intros y Hy. cbn [In] in Hy.
    destruct Hy as [<-|[<-|[<-|[<-|[]]]]];
      rewrite Hz3, Hz2, Hz1 by discriminate; reflexivity. }
  assert (Hs12 : zv s1 spi0_received_val = zv s spi0_received_val)
    by (rewrite Hz1; reflexivity).
  assert (Hs22 : zv s2 spi1_received_val = zv s spi1_received_val)
    by (rewrite Hz2, Hz1 by discriminate; reflexivity).
  assert (Hs2c : zv s2 localCount = zv s localCount)
    by (rewrite Hz2, Hz1 by discriminate; reflexivity).
  assert (Hs32 : zv s3 spi0_received_val = zv s2 spi0_received_val)
    by (rewrite Hz3 by discriminate; reflexivity).
  assert (Hd2 : trunc 16 (Z.shiftr a1 2) = Z.shiftr a1 2).
  { apply trunc_small. pose proof (shiftr_bound a1 2 14) as Hs.
    change (2 ^ (2 + 14)) with (2 ^ 16) in Hs.
    change (2 ^ 14) with 16384 in Hs. change (2 ^ 16) with 65536 in *. lia. }
  rewrite Hsf, Hp, Htw, HA1, ?Hd2 in H4.
  exists a1, a2, x, e2, e3, s1, s2, s3.
  rewrite Hev, He1, He5.
  destruct (bv s sineFlag) eqn:Esf; cbv zeta in H4; destruct H4 as (He4 & Hz4);
    rewrite He4;
    rewrite !Hz6, !Hb6; cbn [upd_z upd_b zvar_eqb bvar_eqb];
    rewrite !Hz5, !Hb5; cbn [upd_z upd_b zvar_eqb bvar_eqb];
    rewrite !Hz4, !Hb4; cbn [upd_z upd_b zvar_eqb bvar_eqb app];
    rewrite ?Hlc, ?HA1, ?HA2, ?Hic, ?Hp, ?Hs32, !Hb3, !Hb2, !Hb1;
    (split; [reflexivity |]);
    repeat (split; [first [assumption | reflexivity] |]);
    intros y Hy; pose proof (Hfr3 y Hy) as Hy3; cbn [In] in Hy;
    destruct Hy as [<-|[<-|[<-|[<-|[]]]]];
    rewrite Hz6; cbn [upd_z zvar_eqb]; rewrite Hz5; cbn [upd_z zvar_eqb];
    rewrite Hz4; cbn [upd_z zvar_eqb]; exact Hy3.
Qed.

(** ** The software divider *)

Lemma main_step_loop_counter s s' :
  main_step s s' -> zv s' loop_counter = zv s loop_counter.
Proof. intros H. destruct H; reflexivity. Qed.

Lemma placeholder_frame hw h s :
  h <> Timer7 ->
  (forall x, zv (exec (run_handler hw h) s) x = zv s x)
  /\ (forall b, bv (exec (run_handler hw h) s) b = bv s b).
Proof.
  intros Hh. destruct h; [congruence | | | |]; split; intros; reflexivity.
Qed.

Lemma timer7interrupt_loop_counter hw t :
  let t' := exec (timer7interrupt hw) t in
  let c := trunc 16 (zv t loop_counter + 1) in
  0 <= zv t' loop_counter < LOOP_COUNT_VAL
  /\ zv t' loop_counter = (if LOOP_COUNT_VAL <=? c then 0 else c)
  /\ bv t' loopFlag = (if LOOP_COUNT_VAL <=? c then true else bv t loopFlag).
Proof.
  cbv zeta.
  destruct (timer7interrupt_summary hw t)
    as (a1 & a2 & x & e2 & e3 & sa & sb & sc & _ & _ & _ & _ & _ & _ & _ & _ & _
        & _ & _ & _ & _ & _ & _ & _ & _ & _ & Hlc & Hlf & _).
  rewrite Hlc, Hlf. split; [| split; reflexivity].
  pose proof (trunc_range 16 (zv t loop_counter + 1)) as Hr.
  unfold LOOP_COUNT_VAL in *.
  destruct (Z.leb_spec 24000 (trunc 16 (zv t loop_counter + 1))); lia.
Qed.

Lemma runs_loop_counter hw n s s1 :
  zv s loop_counter = 0 -> runs hw n s s1 ->
  zv s1 loop_counter = Z.of_nat n mod LOOP_COUNT_VAL.
Proof.
  intros H0 Hr. induction Hr as [s|n s s1 s2 Hr IH Hm|n s s1 h Hr IH Hh|n s s1 Hr IH].
  - exact H0.
  - rewrite (main_step_loop_counter _ _ Hm). exact (IH H0).
  - destruct (placeholder_frame hw h s1 Hh) as [Hz _]. rewrite Hz. exact (IH H0).
  - destruct (timer7interrupt_loop_counter hw s1) as (_ & Hlc & _).
    rewrite Hlc, (IH H0). unfold LOOP_COUNT_VAL. rewrite Nat2Z.inj_succ.
    pose proof (Z.mod_pos_bound (Z.of_nat n) 24000 ltac:(lia)) as Hb.
    rewrite (trunc_small 16) by (change (2 ^ 16) with 65536; lia).
    destruct (Z.leb_spec 24000 (Z.of_nat n mod 24000 + 1)) as [L|L].
    + apply Z.mod_unique_pos with (q := Z.of_nat n / 24000 + 1); [lia |].
      pose proof (Z.div_mod (Z.of_nat n) 24000 ltac:(lia)). lia.
    + apply Z.mod_unique_pos with (q := Z.of_nat n / 24000); [lia |].
      pose proof (Z.div_mod (Z.of_nat n) 24000 ltac:(lia)). lia.
Qed.

(** C10: the counter stays below LOOP_COUNT_VAL after every execution of
    timer7interrupt; an execution sets loopFlag exactly when the incremented
    counter reaches LOOP_COUNT_VAL, and then clears the counter; so, counting
    from loop_counter = 0, the flag is raised by every 24000th interrupt and
    by no other, whatever the main loop and the other handlers do in
    between. *)
Theorem loop_counter_divider hw n s s1 :
  zv s loop_counter = 0 -> runs hw n s s1 ->
  let s2 := exec (timer7interrupt hw) s1 in
  let c := zv s1 loop_counter + 1 in
  (forall t, let t' := exec (timer7interrupt hw) t in
             let ct := trunc 16 (zv t loop_counter + 1) in
             0 <= zv t' loop_counter < LOOP_COUNT_VAL
             /\ zv t' loop_counter = (if LOOP_COUNT_VAL <=? ct then 0 else ct)
             /\ bv t' loopFlag = (if LOOP_COUNT_VAL <=? ct then true else bv t loopFlag))
  /\ zv s1 loop_counter = Z.of_nat n mod LOOP_COUNT_VAL
  /\ zv s2 loop_counter = Z.of_nat (S n) mod LOOP_COUNT_VAL
  /\ zv s2 loop_counter = (if c =? LOOP_COUNT_VAL then 0 else c)
  /\ bv s2 loopFlag = (if c =? LOOP_COUNT_VAL then true else bv s1 loopFlag)
  /\ (c =? LOOP_COUNT_VAL) = (Z.of_nat (S n) mod LOOP_COUNT_VAL =? 0).
Proof.
  intros H0 Hr. cbv zeta.
  split; [intros t; apply timer7interrupt_loop_counter |].
  pose proof (runs_loop_counter hw n s s1 H0 Hr) as H1.
  pose proof (runs_loop_counter hw (S n) s _ H0 (runs_timer hw n s s1 Hr)) as H2.
  split; [exact H1 |]. split; [exact H2 |].
  destruct (timer7interrupt_loop_counter hw s1) as (_ & Hlc & Hlf).
  pose proof (Z.mod_pos_bound (Z.of_nat n) LOOP_COUNT_VAL ltac:(reflexivity)) as Hb.
  unfold LOOP_COUNT_VAL in *.
  rewrite (trunc_small 16) in Hlc, Hlf by (change (2 ^ 16) with 65536; lia).
  assert (Hge : (24000 <=? zv s1 loop_counter + 1) = (zv s1 loop_counter + 1 =? 24000)).
  { destruct (Z.leb_spec 24000 (zv s1 loop_counter + 1));
      destruct (Z.eqb_spec (zv s1 loop_counter + 1) 24000); lia. }
  rewrite Hge in Hlc, Hlf. split; [exact Hlc |]. split; [exact Hlf |].
  rewrite <- H2, Hlc.
  destruct (Z.eqb_spec (zv s1 loop_counter + 1) 24000) as [E|E]; [reflexivity |].
  symmetry. apply Z.eqb_neq. lia.
Qed.

Lemma loop_counter_divider_witness :
  zv init_machine loop_counter = 0
  /\ runs quiet_hw 1 init_machine (exec (timer7interrupt quiet_hw) init_machine)
  /\ zv (exec (timer7interrupt quiet_hw) init_machine) loop_counter = 1
  /\ bv (exec (timer7interrupt quiet_hw)
           (exec (timer7interrupt quiet_hw) init_machine)) loopFlag = false.
Proof.
  assert (Hrun : runs quiet_hw 1 init_machine
                   (exec (timer7interrupt quiet_hw) init_machine))
    by (apply runs_timer, runs_start).
  split; [reflexivity |]. split; [exact Hrun |].
  destruct (loop_counter_divider quiet_hw 1 init_machine _ eq_refl Hrun)
    as (_ & H1 & _ & _ & H4 & _).
  split; [exact H1 |]. rewrite H4. reflexivity.
Defined.

(** ** Who changes the program variables *)

(** C4, as the code has it: of the five interrupt handlers only
    timer7interrupt changes program variables: adcCompleteInterrupt,
    spiErrorInterrupt, spiReceiveInterrupt and spiTransmitInterrupt leave
    every variable as it was and write nothing but the P107 pin register,
    while an execution of timer7interrupt can change each of adc_val_A1,
    adc_val_A2, spi0_received_val, spi1_received_val, phaccu0, icount0,
    loop_counter, directionFlag and loopFlag. *)
Theorem only_timer7interrupt_mutates_globals :
  Forall (fun h => forall hw s,
              let s' := exec (run_handler hw h) s in
              (forall x, zv s' x = zv s x)
              /\ (forall b, bv s' b = bv s b)
              /\ Forall (fun e => exists v, e = EvWrite PFS_P107PFS_BY v)
                        (events (run_handler hw h) s))
         [AdcComplete; SpiError; SpiReceive; SpiTransmit]
  /\ (let s := eve_machine in
      let s' := exec (timer7interrupt (const_hw 0xFFFF)) s in
      Forall (fun x => zv s' x <> zv s x)
             [adc_val_A1; adc_val_A2; spi0_received_val; spi1_received_val;
              phaccu0; icount0; loop_counter]
      /\ Forall (fun b => bv s' b <> bv s b) [directionFlag; loopFlag])
  /\ (forall hw s,
        bv (exec (timer7interrupt hw) s) directionFlag = negb (bv s directionFlag)).
Proof.
  split; [| split].
  - repeat constructor; intros; try reflexivity; eexists; reflexivity.
  - cbv zeta. split; repeat constructor; vm_compute; discriminate.
  - intros hw s.
    destruct (timer7interrupt_summary hw s)
      as (a1 & a2 & x & e2 & e3 & sa & sb & sc & _ & _ & _ & _ & _ & _ & _ & _ & _
          & _ & _ & _ & _ & _ & _ & _ & _ & _ & _ & _ & Hd & _).
    exact Hd.
Qed.

(** C4, as stated, fails: the main loop, which is no interrupt handler,
    changes one of the listed variables.  In the state the timer interrupt
    leaves when the software divider wraps, loopFlag is set, and one pass
    of loop() clears it, whatever the floating-point operations yield. *)
Lemma loop_mutates_loopFlag :
  let s := exec (timer7interrupt quiet_hw) eve_machine in
  bv s loopFlag = true
  /\ (forall (double : Type) (dfreq_of : Z -> double) (tword_of : double -> Z)
             (dfreq0 : double),
        bv (exec (loop double dfreq_of tword_of dfreq0) s) loopFlag = false).
Proof.
  cbv zeta. split; [vm_compute; reflexivity |].
  intros double dfreq_of tword_of dfreq0. vm_compute. reflexivity.
Qed.

(** ** Where the SPI sections reach *)

Lemma event_on_writes_to L evs r :
  forallb (event_on L) evs = true -> mem_reg r L = false -> writes_to r evs = [].
Proof.
  intros H Hr. induction evs as [|e evs IH]; [reflexivity |].
  cbn [forallb] in H. apply andb_true_iff in H. destruct H as [He Hrest].
  destruct e as [q v|q v|c]; cbn [writes_to]; try exact (IH Hrest).
  destruct (reg_eqb q r) eqn:E; [| exact (IH Hrest)].
  apply reg_eqb_eq in E. subst q. cbn [event_on event_reg] in He. congruence.
Qed.

Lemma event_on_reads_of L evs r :
  forallb (event_on L) evs = true -> mem_reg r L = false -> reads_of r evs = [].
Proof.
  intros H Hr. induction evs as [|e evs IH]; [reflexivity |].
  cbn [forallb] in H. apply andb_true_iff in H. destruct H as [He Hrest].
  destruct e as [q v|q v|c]; cbn [reads_of]; try exact (IH Hrest).
  destruct (reg_eqb q r) eqn:E; [| exact (IH Hrest)].
  apply reg_eqb_eq in E. subst q. cbn [event_on event_reg] in He. congruence.
Qed.

Lemma spi0_post_on s s' e :
  spi0_post s s' e -> forallb (event_on (PFS_P106PFS_BY :: spi0_regs)) e = true.
Proof.
  intros (x1 & x2 & f7 & tl & He & Hon & _). subst e.
  cbn [forallb]. rewrite Hon. reflexivity.
Qed.

Lemma wait_trace_on n old new w misses :
  wait_trace n old new w misses ->
  forallb (event_on (PFS_P107PFS_BY :: spi1_regs)) w = true.
Proof.
  intros [_ [(hit & d & _ & _ & Hw & _) | (_ & Hw & _)]]; subst w.
  - rewrite forallb_app, event_on_polls by reflexivity. reflexivity.
  - apply event_on_polls. reflexivity.
Qed.

Lemma spi1_post_on s s' e :
  spi1_post s s' e -> forallb (event_on (PFS_P107PFS_BY :: spi1_regs)) e = true.
Proof.
  intros (x1 & x2 & x3 & lv & w & misses & He & Hw & _). subst e.
  rewrite forallb_app, (wait_trace_on _ _ _ _ _ Hw). reflexivity.
Qed.

(** ** Values written to the DAC and to the PWM compare registers *)

(** C6: timer7interrupt writes DAC12_DADR0 once, and the value fits in 12
    bits: with sineFlag set it is the upper 12 bits of the 32-bit sum
    phaccu0 + tword_m0; with sineFlag clear it is adc_val_A1 >> 2, which is
    below 4096 when the reading latched in adc_val_A1 is a 14-bit value. *)
Theorem dac_value_fits_12_bits hw s :
  (bv s sineFlag = false -> zv (exec (timer7interrupt hw) s) adc_val_A1 < 16384) ->
  let s' := exec (timer7interrupt hw) s in
  exists v,
    writes_to DAC12_DADR0 (events (timer7interrupt hw) s) = [v]
    /\ v = (if bv s sineFlag
            then Z.shiftr ((zv s phaccu0 + zv s tword_m0) mod 2 ^ 32) 20
            else Z.shiftr (zv s' adc_val_A1) 2)
    /\ 0 <= v < 4096.
Proof.
  intros Hadc. cbv zeta.
  destruct (timer7interrupt_summary hw s)
    as (a1 & a2 & x & e2 & e3 & sa & sb & sc & Hev & Ha1 & _ & H2 & H3 & _ & _ & _
        & _ & _ & _ & _ & HA1 & _).
  cbv zeta in Hev.
  rewrite HA1 in *.
  exists (if bv s sineFlag
          then Z.shiftr (trunc 32 (zv s phaccu0 + zv s tword_m0)) 20
          else Z.shiftr a1 2).
  split; [| split; [reflexivity |]].
  - rewrite Hev, !writes_to_app.
    rewrite (event_on_writes_to _ e2 _ (spi0_post_on _ _ _ H2)) by reflexivity.
    rewrite (event_on_writes_to _ e3 _ (spi1_post_on _ _ _ H3)) by reflexivity.
    reflexivity.
  - destruct (bv s sineFlag).
    + change 4096 with (2 ^ 12). apply shiftr_bound; [lia | lia |].
      apply trunc_range. lia.
    + change 4096 with (2 ^ 12). apply shiftr_bound; [lia | lia |].
      specialize (Hadc eq_refl). change (2 ^ (2 + 12)) with 16384. lia.
Qed.

Lemma dac_value_fits_12_bits_witness :
  (bv plain_machine sineFlag = false ->
   zv (exec (timer7interrupt (const_hw 0x3FFF)) plain_machine) adc_val_A1 < 16384)
  /\ writes_to DAC12_DADR0 (events (timer7interrupt (const_hw 0x3FFF)) plain_machine)
     = [0xFFF].
Proof.
  assert (H : bv plain_machine sineFlag = false ->
              zv (exec (timer7interrupt (const_hw 0x3FFF)) plain_machine) adc_val_A1
              < 16384) by (intros _; vm_compute; reflexivity).
  split; [exact H |].
  destruct (dac_value_fits_12_bits (const_hw 0x3FFF) plain_machine H)
    as (v & Hw & Hv & _).
  rewrite Hw, Hv. reflexivity.
Defined.

(** C9: for every reading latched in adc_val_A1, the duty value
    timer7interrupt writes to GPT321_GTCCRD is adc_val_A1 >> 4 with 0
    replaced by 1 and anything from 0x3FF up replaced by 0x3FE, so it lies
    in [0x001, 0x3FE] and is never 0x000 or 0x3FF. *)
Theorem pwm_duty_clamped hw s :
  let s' := exec (timer7interrupt hw) s in
  let a := zv s' adc_val_A1 in
  let l := Z.shiftr a 4 in
  0 <= a < 2 ^ 16
  /\ exists v,
       writes_to GPT321_GTCCRD (events (timer7interrupt hw) s) = [v]
       /\ v = (if l =? 0 then 1 else if 0x3FF <=? l then 0x3FE else l)
       /\ 0x001 <= v <= 0x3FE
       /\ v <> 0x000 /\ v <> 0x3FF.
Proof.
  cbv zeta.
  destruct (timer7interrupt_summary hw s)
    as (a1 & a2 & x & e2 & e3 & sa & sb & sc & Hev & Ha1 & _ & H2 & H3 & _ & _ & _
        & _ & _ & _ & _ & HA1 & _).
  cbv zeta in Hev. rewrite HA1. split; [exact Ha1 |].
  exists (duty a1). split; [| split].
  - rewrite Hev, !writes_to_app.
    rewrite (event_on_writes_to _ e2 _ (spi0_post_on _ _ _ H2)) by reflexivity.
    rewrite (event_on_writes_to _ e3 _ (spi1_post_on _ _ _ H3)) by reflexivity.
    reflexivity.
  - unfold duty. cbv zeta. rewrite (trunc_small 16); [reflexivity |].
    pose proof (shiftr_bound a1 4 12) as Hs.
    change (2 ^ (4 + 12)) with (2 ^ 16) in Hs.
    change (2 ^ 12) with 4096 in Hs. change (2 ^ 16) with 65536 in *. lia.
  - pose proof (duty_range a1). lia.
Qed.

(** ** Received SPI data *)

Lemma reads_of_polls_other r l :
  reg_eqb SPI1_SPSR r = false -> reads_of r (map (EvRead SPI1_SPSR) l) = [].
Proof.
  intros Hr. induction l as [|f l IH]; [reflexivity |].
  cbn [map reads_of]. rewrite Hr. exact IH.
Qed.

(** C3: in timer7interrupt the received-data variables change only on a
    polled status flag.  spi0_received_val takes the value read from
    SPI0_SPDR when the third read of SPI0_SPSR shows bit 7 set, and is
    neither read for nor changed otherwise.  spi1_received_val takes the
    value read from SPI1_SPDR when one of at most 16 polls of SPI1_SPSR shows
    bit 7 set (polling stops there); when all 16 polls miss, SPI1_SPDR is
    not read again and spi1_received_val keeps its value. *)
Theorem spi_received_only_on_flag hw s :
  let s' := exec (timer7interrupt hw) s in
  let evs := events (timer7interrupt hw) s in
  (exists x1 x2 f7 rest,
      reads_of SPI0_SPSR evs = x1 :: x2 :: f7 :: rest
      /\ if Z.testbit f7 7
         then exists d, reads_of SPI0_SPDR evs = [d]
                        /\ zv s' spi0_received_val = d
         else reads_of SPI0_SPDR evs = []
              /\ zv s' spi0_received_val = zv s spi0_received_val)
  /\ (exists x1 x2 lv misses,
      Forall (fun f => Z.testbit f 7 = false) misses
      /\ ((exists hit d,
             Z.testbit hit 7 = true /\ (length misses < 16)%nat
             /\ reads_of SPI1_SPSR evs = x1 :: x2 :: misses ++ [hit]
             /\ reads_of SPI1_SPDR evs = [lv; d]
             /\ zv s' spi1_received_val = d)
          \/ (length misses = 16%nat
              /\ reads_of SPI1_SPSR evs = x1 :: x2 :: misses
              /\ reads_of SPI1_SPDR evs = [lv]
              /\ zv s' spi1_received_val = zv s spi1_received_val
              /\ zv s' test = 16))).
Proof.
  cbv zeta.
  destruct (timer7interrupt_summary hw s)
    as (a1 & a2 & x & e2 & e3 & sa & sb & sc & Hev & _ & _ & H2 & H3 & Hsa & Hsb & _
        & Hr0 & Hr1 & _ & Ht & _).
  cbv zeta in Hev.
  pose proof (spi0_post_on _ _ _ H2) as On2.
  pose proof (spi1_post_on _ _ _ H3) as On3.
  assert (R : forall r,
             reads_of r (events (timer7interrupt hw) s)
             = reads_of r [EvRead ADC140_ADDR00 a1; EvRead ADC140_ADDR01 a2;
                           EvRead ADC140_ADCSR x]
               ++ reads_of r e2 ++ reads_of r e3).
  { intros r. rewrite Hev, !reads_of_app.
    cbn [reads_of app]. rewrite app_nil_r. reflexivity. }
  split.
  - destruct H2 as (x1 & x2 & f7 & tl & He2 & _ & Hf & _).
    exists x1, x2, f7, (reads_of SPI0_SPSR tl).
    rewrite !R, (event_on_reads_of _ e3 SPI0_SPSR On3),
      (event_on_reads_of _ e3 SPI0_SPDR On3) by reflexivity.
    rewrite !app_nil_r, Hr0, <- Hsa, He2. split; [reflexivity |].
    exact Hf.
  - destruct H3 as (x1 & x2 & x3 & lv & w & misses & He3 & Hw & Htest & _).
    exists x1, x2, lv, misses.
    rewrite !R, (event_on_reads_of _ e2 SPI1_SPSR On2),
      (event_on_reads_of _ e2 SPI1_SPDR On2) by reflexivity.
    rewrite Hr1, Ht, Htest, <- Hsb, He3, !reads_of_app.
    destruct Hw as [Hm Hcase]. split; [exact Hm |].
    destruct Hcase as [(hit & d & Hhit & Hlen & Hw & Hd) | (Hlen & Hw & Hd)].
    + left. exists hit, d. rewrite Hw, !reads_of_app, reads_of_polls.
      rewrite reads_of_polls_other by reflexivity.
      split; [exact Hhit |]. split; [exact Hlen |].
      split; [reflexivity |]. split; [reflexivity | exact Hd].
    + right. rewrite Hw, reads_of_polls, reads_of_polls_other by reflexivity.
      rewrite Hlen. split; [reflexivity |]. split; [reflexivity |].
      split; [reflexivity |]. split; [exact Hd | reflexivity].
Qed.

(** ** Order of the phases *)





(** ** Peripheral set-up: registers that hold what is written *)

Lemma upd_r_same f r v : upd_r f r v r = v.
Proof.
  unfold upd_r. replace (reg_eqb r r) with true; [reflexivity |].
  symmetry. apply reg_eqb_eq. reflexivity.
Qed.

Lemma upd_r_other f q v r : reg_eqb r q = false -> upd_r f q v r = f r.
Proof. intros H. unfold upd_r. rewrite H. reflexivity. Qed.

Lemma trunc_lor w a b : 0 <= w -> trunc w (Z.lor a b) = Z.lor (trunc w a) (trunc w b).
Proof.
  intros Hw. unfold trunc. apply Z.bits_inj'. intros i Hi.
  rewrite Z.lor_spec, !Z.testbit_mod_pow2, Z.lor_spec by exact Hw.
  destruct (i <? w); reflexivity.
Qed.

Lemma trunc_trunc w x : 0 <= w -> trunc w (trunc w x) = trunc w x.
Proof. intros Hw. apply trunc_small. apply trunc_range. exact Hw. Qed.

Ltac regs_simpl :=
  repeat first [ rewrite upd_r_same | rewrite upd_r_other by reflexivity ].

(** Symbolic execution that reads a [storage] register from the store. *)
Ltac wp_step_stored :=
  lazymatch goal with
  | H : storage ?hw ?r |- wp (load ?hw ?r) _ _ =>
      apply wp_load_stored; [ apply H | ];
      cbv beta; cbn [zv bv regs loads]; regs_simpl
  | |- _ => wp_step
  end.

Ltac wp_run_stored := repeat wp_step_stored.

Section Setup.
Variable hw : hardware.

Lemma setup_adc_wp s :
  storage hw ADC140_ADANSA0 -> storage hw ADC140_ADADS0 ->
  wp (setup_adc hw) s (fun _ s' evs =>
    writes_to ADC140_ADCER evs = [0x06]
    /\ regs s' ADC140_ADCER = 0x06
    /\ regs s' ADC140_ADANSA0 = Z.lor (trunc 16 (regs s ADC140_ADANSA0)) 3
    /\ writes_to ADC140_ADADC evs = [0x83]
    /\ regs s' ADC140_ADADC = 0x83
    /\ regs s' ADC140_ADADS0 = Z.lor (trunc 16 (regs s ADC140_ADADS0)) 3).
Proof.
  intros Hsel Havg. unfold setup_adc. wp_run_stored. cbn [app]. regs_simpl.
  repeat split; try reflexivity.
  - change (bits ADC140_ADANSA0) with 16.
    rewrite !trunc_lor, !trunc_trunc, <- Z.lor_assoc by lia. reflexivity.
  - change (bits ADC140_ADADS0) with 16.
    rewrite !trunc_lor, !trunc_trunc, <- Z.lor_assoc by lia. reflexivity.
Qed.

(** C7: setup_adc writes 0x06 to ADC140_ADCER (bits 2:1 set for 14-bit
    conversion, bit 5, the automatic-clear enable, clear), sets the AN00 and
    AN01 bits of ADC140_ADANSA0, writes 0x83 to ADC140_ADADC (4-times
    averaging) and sets the matching two bits of ADC140_ADADS0; the channel
    and averaging select registers are taken to hold what is written to
    them. *)
Theorem setup_adc_14_bit_averaging s :
  storage hw ADC140_ADANSA0 -> storage hw ADC140_ADADS0 ->
  let s' := exec (setup_adc hw) s in
  let evs := events (setup_adc hw) s in
  writes_to ADC140_ADCER evs = [0x06] /\ regs s' ADC140_ADCER = 0x06
  /\ Z.testbit (regs s' ADC140_ADCER) 1 = true
  /\ Z.testbit (regs s' ADC140_ADCER) 2 = true
  /\ Z.testbit (regs s' ADC140_ADCER) 5 = false
  /\ regs s' ADC140_ADANSA0 = Z.lor (trunc 16 (regs s ADC140_ADANSA0)) 3
  /\ Z.testbit (regs s' ADC140_ADANSA0) 0 = true
  /\ Z.testbit (regs s' ADC140_ADANSA0) 1 = true
  /\ writes_to ADC140_ADADC evs = [0x83] /\ regs s' ADC140_ADADC = 0x83
  /\ regs s' ADC140_ADADS0 = Z.lor (trunc 16 (regs s ADC140_ADADS0)) 3
  /\ Z.testbit (regs s' ADC140_ADADS0) 0 = true
  /\ Z.testbit (regs s' ADC140_ADADS0) 1 = true.
Proof.
  intros Hsel Havg. cbv zeta.
  destruct (setup_adc_wp s Hsel Havg) as (H1 & H2 & H3 & H4 & H5 & H6).
  rewrite H1, H2, H3, H4, H5, H6, !Z.lor_spec.
  repeat split; try reflexivity; apply orb_true_r.
Qed.

End Setup.

Lemma setup_adc_14_bit_averaging_witness :
  storage quiet_hw ADC140_ADANSA0 /\ storage quiet_hw ADC140_ADADS0
  /\ regs (exec (setup_adc quiet_hw) init_machine) ADC140_ADANSA0 = 3
  /\ regs (exec (setup_adc quiet_hw) init_machine) ADC140_ADCER = 6.
Proof.
  assert (Ha : storage quiet_hw ADC140_ADANSA0) by (intros n; reflexivity).
  assert (Hb : storage quiet_hw ADC140_ADADS0) by (intros n; reflexivity).
  split; [exact Ha |]. split; [exact Hb |].
  destruct (setup_adc_14_bit_averaging quiet_hw init_machine Ha Hb)
    as (_ & H2 & _ & _ & _ & H6 & _).
  split; [rewrite H6; reflexivity | exact H2].
Defined.

(** ** The timers set up *)

Lemma setup_timers_wp hw s :
  wp (setup_timers hw) s (fun _ s' evs =>
    initialised_channels evs = [1; 4; 7]
    /\ touched_channels evs = [1; 3; 4; 7]
    /\ regs s' SPI0_SPCR = regs s SPI0_SPCR
    /\ regs s' SPI1_SPCR = regs s SPI1_SPCR).
Proof.
  unfold setup_timers. wp_run. cbn [app]. regs_simpl.
  repeat split; reflexivity.
Qed.

(** C5, as the code has it: setup_timers initialises the control, counter,
    compare, period and I/O registers of exactly three of the eight GPT
    channels: channel 1 (GPT321), channel 4 (GPT164) and channel 7
    (GPT167). *)
Theorem setup_timers_initialises_three_channels hw s :
  initialised_channels (events (setup_timers hw) s) = [1; 4; 7]
  /\ length (initialised_channels (events (setup_timers hw) s)) = 3%nat.
Proof.
  destruct (setup_timers_wp hw s) as (H & _). rewrite H. split; reflexivity.
Qed.

(** C5, as stated, fails: the set-up sequence does not initialise exactly
    two channels. *)
Lemma setup_timers_not_two_channels :
  length (initialised_channels (events (setup_timers quiet_hw) init_machine)) <> 2%nat.
Proof. vm_compute. discriminate. Qed.

(** ** The SPI units set up *)

Section SpiSetup.
Variable hw : hardware.
Hypothesis spcr0 : storage hw SPI0_SPCR.
Hypothesis spcr1 : storage hw SPI1_SPCR.

Lemma setup_spi0_wp MSmode bitRate numBits IRQmode s :
  wp (setup_spi0 hw MSmode bitRate numBits IRQmode) s (fun v s' evs =>
    v = spcr_value MSmode IRQmode
    /\ regs s' SPI0_SPCR = v
    /\ last (writes_to SPI0_SPCR evs) 0 = v
    /\ regs s' SPI1_SPCR = regs s SPI1_SPCR).
Proof.
  unfold setup_spi0. cbv zeta.
  destruct MSmode, IRQmode; wp_run_stored; cbn [app]; regs_simpl;
    repeat split; reflexivity.
Qed.

Lemma setup_spi1_wp MSmode bitRate numBits IRQmode s :
  wp (setup_spi1 hw MSmode bitRate numBits IRQmode) s (fun v s' evs =>
    v = spcr_value MSmode IRQmode
    /\ regs s' SPI1_SPCR = v
    /\ last (writes_to SPI1_SPCR evs) 0 = v
    /\ regs s' SPI0_SPCR = regs s SPI0_SPCR).
Proof.
  unfold setup_spi1. cbv zeta.
  destruct MSmode, IRQmode; wp_run_stored; cbn [app]; regs_simpl;
    repeat split; reflexivity.
Qed.

Lemma setup_adc_wp_frame s :
  wp (setup_adc hw) s (fun _ s' evs =>
    regs s' SPI0_SPCR = regs s SPI0_SPCR /\ regs s' SPI1_SPCR = regs s SPI1_SPCR).
Proof. unfold setup_adc. wp_run. regs_simpl. split; reflexivity. Qed.

Lemma setup_dac_wp s :
  wp (setup_dac hw) s (fun _ s' evs =>
    regs s' SPI0_SPCR = regs s SPI0_SPCR /\ regs s' SPI1_SPCR = regs s SPI1_SPCR).
Proof. unfold setup_dac. wp_run. regs_simpl. split; reflexivity. Qed.

Lemma setup_wp s :
  wp (setup hw) s (fun _ s' evs =>
    (exists s1 post,
       evs = [EvCore (AttachInterrupt 13 Timer7);
              EvWrite ICU_IELSR05 IRQ_GPT7_OVF; EvWrite PFS_P111PFS 0;
              EvCore (AttachInterrupt 15 SpiError);
              EvWrite PFS_P000PFS 0; EvWrite ICU_IELSR06 IRQ_SPI0_SPEI;
              EvCore (AttachInterrupt 16 SpiReceive);
              EvWrite PFS_P001PFS 0; EvWrite ICU_IELSR07 IRQ_SPI0_SPRI;
              EvCore (AttachInterrupt 17 SpiTransmit);
              EvWrite PFS_P002PFS 0; EvWrite ICU_IELSR08 IRQ_SPI0_SPTI;
              EvWrite PFS_P107PFS_BY 4;
              EvCore (SerialBegin 115200); EvCore SerialWait]
             ++ events (setup_spi1 hw SPI_MASTER SPI_BR_8M0Hz SPI_BITS_32 SPI_IRQEN) s1
             ++ events (setup_spi0 hw SPI_SLAVE SPI_BR_8M0Hz SPI_BITS_32 SPI_POLL)
                  (exec (setup_spi1 hw SPI_MASTER SPI_BR_8M0Hz SPI_BITS_32 SPI_IRQEN) s1)
             ++ post)
    /\ regs s' SPI1_SPCR = spcr_value SPI_MASTER SPI_IRQEN
    /\ regs s' SPI0_SPCR = spcr_value SPI_SLAVE SPI_POLL).
Proof.
  unfold setup. wp_run.
  match goal with
  | |- wp (setup_spi1 _ _ _ _ _) ?st _ =>
      pose proof (setup_spi1_wp SPI_MASTER SPI_BR_8M0Hz SPI_BITS_32 SPI_IRQEN st)
        as (Hmv & Hm & _ & _)
  end.
  rewrite Hmv in Hm. clear Hmv.
  unfold wp at 1. cbv beta. wp_run.
  match goal with
  | |- wp (setup_spi0 _ _ _ _ _) ?st _ =>
      pose proof (setup_spi0_wp SPI_SLAVE SPI_BR_8M0Hz SPI_BITS_32 SPI_POLL st)
        as (Hsv & Hs & _ & Hs1)
  end.
  rewrite Hsv in Hs. clear Hsv. rewrite Hm in Hs1.
  unfold wp at 1. cbv beta. wp_run.
  eapply wp_mono; [apply setup_adc_wp_frame |].
  cbv beta. intros _ sA eA [HA0 HA1]. wp_run.
  eapply wp_mono; [apply setup_dac_wp |].
  cbv beta. intros _ sD eD [HD0 HD1]. wp_run.
  eapply wp_mono; [apply setup_timers_wp |].
  cbv beta. intros _ sT eT (_ & _ & HT0 & HT1). wp_run. regs_simpl.
  split; [| split].
  - eexists. eexists. cbn [app]. reflexivity.
  - rewrite HT1, HD1, HA1. exact Hs1.
  - rewrite HT0, HD0, HA0. exact Hs.
Qed.

(** C2: setup brings up SPI1 as master and SPI0 as slave.  It calls
    setup_spi1 with MSmode = SPI_MASTER and then setup_spi0 with MSmode =
    SPI_SLAVE, and when it returns the MSTR bit of SPI1_SPCR is set, that of
    SPI0_SPCR is clear and both have SPE set.  For any arguments, the value
    setup_spi0 (setup_spi1) writes last to its SPCR and returns has SPE
    (bit 6) set and has MSTR (bit 3) set exactly when MSmode is true.  The
    two control registers are taken to hold what is written to them. *)
Theorem setup_spi1_master_spi0_slave :
  (SPI_MASTER = true /\ SPI_SLAVE = false)
  /\ (forall s, exists s1 post,
        events (setup hw) s =
          [EvCore (AttachInterrupt 13 Timer7);
           EvWrite ICU_IELSR05 IRQ_GPT7_OVF; EvWrite PFS_P111PFS 0;
           EvCore (AttachInterrupt 15 SpiError);
           EvWrite PFS_P000PFS 0; EvWrite ICU_IELSR06 IRQ_SPI0_SPEI;
           EvCore (AttachInterrupt 16 SpiReceive);
           EvWrite PFS_P001PFS 0; EvWrite ICU_IELSR07 IRQ_SPI0_SPRI;
           EvCore (AttachInterrupt 17 SpiTransmit);
           EvWrite PFS_P002PFS 0; EvWrite ICU_IELSR08 IRQ_SPI0_SPTI;
           EvWrite PFS_P107PFS_BY 4;
           EvCore (SerialBegin 115200); EvCore SerialWait]
          ++ events (setup_spi1 hw SPI_MASTER SPI_BR_8M0Hz SPI_BITS_32 SPI_IRQEN) s1
          ++ events (setup_spi0 hw SPI_SLAVE SPI_BR_8M0Hz SPI_BITS_32 SPI_POLL)
               (exec (setup_spi1 hw SPI_MASTER SPI_BR_8M0Hz SPI_BITS_32 SPI_IRQEN) s1)
          ++ post)
  /\ (forall s, let s' := exec (setup hw) s in
        Z.testbit (regs s' SPI1_SPCR) SPCR_MSTR = true
        /\ Z.testbit (regs s' SPI1_SPCR) SPCR_SPE = true
        /\ Z.testbit (regs s' SPI0_SPCR) SPCR_MSTR = false
        /\ Z.testbit (regs s' SPI0_SPCR) SPCR_SPE = true)
  /\ (forall MSmode bitRate numBits IRQmode s,
        let v := result (setup_spi0 hw MSmode bitRate numBits IRQmode) s in
        last (writes_to SPI0_SPCR
                (events (setup_spi0 hw MSmode bitRate numBits IRQmode) s)) 0 = v
        /\ Z.testbit v SPCR_SPE = true
        /\ Z.testbit v SPCR_MSTR = MSmode)
  /\ (forall MSmode bitRate numBits IRQmode s,
        let v := result (setup_spi1 hw MSmode bitRate numBits IRQmode) s in
        last (writes_to SPI1_SPCR
                (events (setup_spi1 hw MSmode bitRate numBits IRQmode) s)) 0 = v
        /\ Z.testbit v SPCR_SPE = true
        /\ Z.testbit v SPCR_MSTR = MSmode).
Proof.
  split; [split; reflexivity |]. split; [| split; [| split]].
  - intros s. destruct (setup_wp s) as (H & _). exact H.
  - intros s. cbv zeta. destruct (setup_wp s) as (_ & H1 & H0).
    rewrite H1, H0. repeat split; reflexivity.
  - intros MSmode bitRate numBits IRQmode s. cbv zeta.
    destruct (setup_spi0_wp MSmode bitRate numBits IRQmode s) as (Hv & _ & Hl & _).
    rewrite Hl, Hv. destruct MSmode, IRQmode; repeat split; reflexivity.
  - intros MSmode bitRate numBits IRQmode s. cbv zeta.
    destruct (setup_spi1_wp MSmode bitRate numBits IRQmode s) as (Hv & _ & Hl & _).
    rewrite Hl, Hv. destruct MSmode, IRQmode; repeat split; reflexivity.
Qed.

End SpiSetup.

Lemma setup_spi1_master_spi0_slave_witness :
  storage quiet_hw SPI0_SPCR /\ storage quiet_hw SPI1_SPCR
  /\ Z.testbit (regs (exec (setup quiet_hw) init_machine) SPI1_SPCR) SPCR_MSTR = true
  /\ Z.testbit (regs (exec (setup quiet_hw) init_machine) SPI0_SPCR) SPCR_MSTR = false
  /\ result (setup_spi1 quiet_hw SPI_MASTER SPI_BR_8M0Hz SPI_BITS_32 SPI_IRQEN)
       init_machine = 0xF8
  /\ result (setup_spi0 quiet_hw SPI_SLAVE SPI_BR_8M0Hz SPI_BITS_32 SPI_POLL)
       init_machine = 0x40.
Proof.
  assert (H0 : storage quiet_hw SPI0_SPCR) by (intros n; reflexivity).
  assert (H1 : storage quiet_hw SPI1_SPCR) by (intros n; reflexivity).
  split; [exact H0 |]. split; [exact H1 |].
  destruct (setup_spi1_master_spi0_slave quiet_hw H0 H1) as (_ & _ & Hs & _ & _).
  destruct (Hs init_machine) as (Hm1 & _ & Hm0 & _).
  split; [exact Hm1 |]. split; [exact Hm0 |]. split; reflexivity.
Defined.
(** ** More on the timer interrupt *)

Lemma writes_to_reads q r l : writes_to r (map (EvRead q) l) = [].
Proof. induction l as [|f l IH]; [reflexivity | exact IH]. Qed.

Lemma wait_trace_writes n old new w misses r :
  wait_trace n old new w misses -> reg_eqb PFS_P107PFS_BY r = false ->
  writes_to r w = [].
Proof.
  intros [_ [(hit & d & _ & _ & Hw & _) | (_ & Hw & _)]] Hr; subst w.
  - rewrite writes_to_app, writes_to_reads. cbn [writes_to app]. rewrite Hr.
    reflexivity.
  - apply writes_to_reads.
Qed.

(** What one interrupt does with the SPI1 word counter and the direction
    flag, read off the trace. *)
Lemma timer7interrupt_localCount hw t :
  zv (exec (timer7interrupt hw) t) localCount = trunc 16 (zv t localCount + 1)
  /\ writes_to SPI1_SPDR (events (timer7interrupt hw) t) = [trunc 32 (zv t localCount)].
Proof.
  destruct (timer7interrupt_summary hw t)
    as (a1 & a2 & x & e2 & e3 & sa & sb & sc & Hev & _ & _ & H2 & H3 & _ & _ & Hlb
        & _ & _ & Hlc & _).
  cbv zeta in Hev.
  pose proof (spi0_post_on _ _ _ H2) as On2.
  destruct H3 as (x1 & x2 & x3 & lv & w & misses & He3 & Hw & _ & Hc & _).
  split.
  - rewrite Hlc, Hc, Hlb. reflexivity.
  - rewrite Hev, !writes_to_app.
    rewrite (event_on_writes_to _ e2 _ On2) by reflexivity.
    rewrite He3, writes_to_app, (wait_trace_writes _ _ _ _ _ _ Hw) by reflexivity.
    rewrite Hlb. reflexivity.
Qed.

Lemma main_step_frame s s' :
  main_step s s' ->
  (forall x, x <> tword_m0 -> zv s' x = zv s x)
  /\ (forall b, b <> loopFlag -> b <> actionFlag -> bv s' b = bv s b).
Proof.
  intros H. destruct H; split; intros y Hy; try reflexivity.
  - cbn [zv upd_z]. destruct y; try reflexivity. congruence.
  - intros Hy'. cbn [bv upd_b]. destruct y; try reflexivity; congruence.
  - intros Hy'. cbn [bv upd_b]. destruct y; try reflexivity; congruence.
Qed.

(** X1: the master unit sends a running count.  Starting from
    localCount = 0, after n timer interrupts (with main-loop assignments and
    the other handlers in between) localCount is n mod 65536, and the next
    interrupt writes exactly that number, once, to SPI1_SPDR. *)
Theorem spi1_sends_sequence_numbers hw n s s1 :
  zv s localCount = 0 -> runs hw n s s1 ->
  zv s1 localCount = Z.of_nat n mod 65536
  /\ writes_to SPI1_SPDR (events (timer7interrupt hw) s1) = [Z.of_nat n mod 65536].
Proof.
  intros H0 Hr.
  assert (Hc : zv s1 localCount = Z.of_nat n mod 65536).
  { induction Hr as [s|n s s1 s2 Hr IH Hm|n s s1 h Hr IH Hh|n s s1 Hr IH].
    - exact H0.
    - destruct (main_step_frame _ _ Hm) as [Hz _].
      rewrite Hz by discriminate. exact (IH H0).
    - destruct (placeholder_frame hw h s1 Hh) as [Hz _]. rewrite Hz. exact (IH H0).
    - destruct (timer7interrupt_localCount hw s1) as [Hlc _].
      rewrite Hlc, (IH H0). unfold trunc. change (2 ^ 16) with 65536.
      rewrite Nat2Z.inj_succ, Z.add_mod_idemp_l by lia. reflexivity. }
  split; [exact Hc |].
  destruct (timer7interrupt_localCount hw s1) as [_ Hw].
  rewrite Hw, Hc. f_equal. apply trunc_small.
  pose proof (Z.mod_pos_bound (Z.of_nat n) 65536 ltac:(lia)).
  change (2 ^ 32) with 4294967296. lia.
Qed.

Lemma spi1_sends_sequence_numbers_witness :
  zv init_machine localCount = 0
  /\ runs quiet_hw 1 init_machine (exec (timer7interrupt quiet_hw) init_machine)
  /\ writes_to SPI1_SPDR
       (events (timer7interrupt quiet_hw) (exec (timer7interrupt quiet_hw) init_machine))
     = [1].
Proof.
  assert (Hrun : runs quiet_hw 1 init_machine
                   (exec (timer7interrupt quiet_hw) init_machine))
    by (apply runs_timer, runs_start).
  split; [reflexivity |]. split; [exact Hrun |].
  destruct (spi1_sends_sequence_numbers quiet_hw 1 init_machine _ eq_refl Hrun)
    as [_ Hw].
  rewrite Hw. reflexivity.
Defined.

Lemma timer7interrupt_direction hw t :
  let d := bv t directionFlag in
  bv (exec (timer7interrupt hw) t) directionFlag = negb d
  /\ writes_to GPT167_GTCCRC (events (timer7interrupt hw) t) = [if d then 0x000 else 0x7FD]
  /\ writes_to GPT167_GTCCRD (events (timer7interrupt hw) t) = [if d then 0x7FD else 0x000].
Proof.
  cbv zeta.
  destruct (timer7interrupt_summary hw t)
    as (a1 & a2 & x & e2 & e3 & sa & sb & sc & Hev & _ & _ & H2 & H3 & _ & _ & _
        & _ & _ & _ & _ & _ & _ & _ & _ & _ & _ & _ & _ & Hd & _).
  cbv zeta in Hev.
  pose proof (spi0_post_on _ _ _ H2) as On2.
  pose proof (spi1_post_on _ _ _ H3) as On3.
  split; [exact Hd |].
  rewrite Hev, !writes_to_app.
  rewrite !(event_on_writes_to _ e2 _ On2), !(event_on_writes_to _ e3 _ On3)
    by reflexivity.
  split; reflexivity.
Qed.

(** X2: the two outputs of timer 7 swap on every interrupt.  Each interrupt
    writes one of GPT167_GTCCRC / GPT167_GTCCRD with 0 and the other with the
    period value 0x7FD, and toggles directionFlag; starting from
    directionFlag = FALSE, interrupt n+1 drives output C when n is even and
    output D when n is odd, whatever the main loop and the other handlers
    do in between. *)
Theorem direction_outputs_alternate hw n s s1 :
  bv s directionFlag = false -> runs hw n s s1 ->
  let evs := events (timer7interrupt hw) s1 in
  bv s1 directionFlag = Nat.odd n
  /\ writes_to GPT167_GTCCRC evs = [if Nat.odd n then 0x000 else 0x7FD]
  /\ writes_to GPT167_GTCCRD evs = [if Nat.odd n then 0x7FD else 0x000].
Proof.
  intros H0 Hr. cbv zeta.
  assert (Hd : bv s1 directionFlag = Nat.odd n).
  { induction Hr as [s|n s s1 s2 Hr IH Hm|n s s1 h Hr IH Hh|n s s1 Hr IH].
    - exact H0.
    - destruct (main_step_frame _ _ Hm) as [_ Hb].
      rewrite Hb by discriminate. exact (IH H0).
    - destruct (placeholder_frame hw h s1 Hh) as [_ Hb]. rewrite Hb. exact (IH H0).
    - destruct (timer7interrupt_direction hw s1) as [Hf _].
      rewrite Hf, (IH H0), Nat.odd_succ, <- Nat.negb_odd. reflexivity. }
  split; [exact Hd |].
  destruct (timer7interrupt_direction hw s1) as (_ & Hc & Hdd).
  rewrite Hc, Hdd, Hd. split; reflexivity.
Qed.

Lemma direction_outputs_alternate_witness :
  bv init_machine directionFlag = false
  /\ runs quiet_hw 1 init_machine (exec (timer7interrupt quiet_hw) init_machine)
  /\ writes_to GPT167_GTCCRD
       (events (timer7interrupt quiet_hw) (exec (timer7interrupt quiet_hw) init_machine))
     = [0x7FD].
Proof.
  assert (Hrun : runs quiet_hw 1 init_machine
                   (exec (timer7interrupt quiet_hw) init_machine))
    by (apply runs_timer, runs_start).
  split; [reflexivity |]. split; [exact Hrun |].
  destruct (direction_outputs_alternate quiet_hw 1 init_machine _ eq_refl Hrun)
    as (_ & _ & Hd).
  rewrite Hd. reflexivity.
Defined.

Lemma timer7interrupt_dds hw t :
  bv t sineFlag = true ->
  let t' := exec (timer7interrupt hw) t in
  let p := trunc 32 (zv t phaccu0 + zv t tword_m0) in
  zv t' phaccu0 = p /\ zv t' icount0 = Z.shiftr p 20
  /\ zv t' tword_m0 = zv t tword_m0 /\ bv t' sineFlag = true
  /\ writes_to DAC12_DADR0 (events (timer7interrupt hw) t) = [Z.shiftr p 20]
  /\ writes_to GPT321_GTCCRC (events (timer7interrupt hw) t)
     = [trunc 32 (Z.shiftr (Z.shiftr p 20) 2)].
Proof.
  intros Hs. cbv zeta.
  destruct (timer7interrupt_summary hw t)
    as (a1 & a2 & x & e2 & e3 & sa & sb & sc & Hev & _ & _ & H2 & H3 & _ & _ & _
        & _ & _ & _ & _ & _ & _ & _ & _ & Hp & Hi & _ & _ & _ & Hsf & _ & Hfr).
  cbv zeta in Hev.
  pose proof (spi0_post_on _ _ _ H2) as On2.
  pose proof (spi1_post_on _ _ _ H3) as On3.
  rewrite Hs in *.
  split; [exact Hp |]. split; [exact Hi |].
  split; [apply Hfr; cbn [In]; auto |]. split; [exact Hsf |].
  rewrite Hev, !writes_to_app.
  rewrite !(event_on_writes_to _ e2 _ On2), !(event_on_writes_to _ e3 _ On3)
    by reflexivity.
  split; reflexivity.
Qed.

(** X3: the software DDS.  With sineFlag set and a 32-bit phase
    accumulator, n consecutive timer interrupts leave
    phaccu0 = (phaccu0 + n * tword_m0) mod 2^32, and the next interrupt
    writes the upper twelve bits of the following phase,
    ((phaccu0 + (n + 1) * tword_m0) mod 2^32) >> 20, to the DAC: a ramp whose
    slope is the tuning word. *)
Theorem dds_phase_accumulates hw n s :
  bv s sineFlag = true -> 0 <= zv s phaccu0 < 2 ^ 32 ->
  let sn := Nat.iter n (exec (timer7interrupt hw)) s in
  zv sn phaccu0 = (zv s phaccu0 + Z.of_nat n * zv s tword_m0) mod 2 ^ 32
  /\ writes_to DAC12_DADR0 (events (timer7interrupt hw) sn)
     = [Z.shiftr ((zv s phaccu0 + (Z.of_nat n + 1) * zv s tword_m0) mod 2 ^ 32) 20].
Proof.
  intros Hs Hp. cbv zeta.
  assert (H : bv (Nat.iter n (exec (timer7interrupt hw)) s) sineFlag = true
              /\ zv (Nat.iter n (exec (timer7interrupt hw)) s) tword_m0 = zv s tword_m0
              /\ zv (Nat.iter n (exec (timer7interrupt hw)) s) phaccu0
                 = (zv s phaccu0 + Z.of_nat n * zv s tword_m0) mod 2 ^ 32).
  { induction n as [|n IH].
    - cbn [Nat.iter]. split; [exact Hs |]. split; [reflexivity |].
      change (Z.of_nat 0) with 0. rewrite Z.mul_0_l, Z.add_0_r.
      symmetry. apply Z.mod_small. exact Hp.
    - destruct IH as (Is & Im & Ip). rewrite !Nat.iter_succ.
      destruct (timer7interrupt_dds hw _ Is) as (Hp' & _ & Hm' & Hs' & _).
      split; [exact Hs' |]. split; [rewrite Hm'; exact Im |].
      rewrite Hp', Ip, Im. unfold trunc.
      rewrite Z.add_mod_idemp_l by lia. f_equal. lia. }
  destruct H as (Is & Im & Ip). split; [exact Ip |].
  destruct (timer7interrupt_dds hw _ Is) as (_ & _ & _ & _ & Hw & _).
  rewrite Hw, Ip, Im. unfold trunc.
  rewrite Z.add_mod_idemp_l by lia. do 3 f_equal. lia.
Qed.

Lemma dds_phase_accumulates_witness :
  bv eve_machine sineFlag = true
  /\ 0 <= zv eve_machine phaccu0 < 2 ^ 32
  /\ zv (Nat.iter 2 (exec (timer7interrupt quiet_hw)) eve_machine) phaccu0 = 0x1000C7
  /\ writes_to DAC12_DADR0
       (events (timer7interrupt quiet_hw)
          (Nat.iter 2 (exec (timer7interrupt quiet_hw)) eve_machine))
     = [1].
Proof.
  assert (Hp : 0 <= zv eve_machine phaccu0 < 2 ^ 32) by (vm_compute; split; [discriminate | reflexivity]).
  split; [reflexivity |]. split; [exact Hp |].
  destruct (dds_phase_accumulates quiet_hw 2 eve_machine eq_refl Hp) as [Ha Hw].
  rewrite Ha, Hw. split; reflexivity.
Defined.

(** X4: the A duty of timer 1 follows the DDS and is not clamped.  With
    sineFlag set the one value written to GPT321_GTCCRC is the new phase
    shifted right by 22, which is the DAC value of the same interrupt
    shifted right by 2 and lies in [0, 0x3FF]; unlike the B duty it does
    take the end values 0x000 and 0x3FF.  With sineFlag clear the value is
    the old icount0 >> 2, so the A duty stands still. *)
Theorem pwm_a_duty_follows_dds hw s :
  let evs := events (timer7interrupt hw) s in
  let p := (zv s phaccu0 + zv s tword_m0) mod 2 ^ 32 in
  (exists c, writes_to GPT321_GTCCRC evs = [c]
     /\ if bv s sineFlag
        then c = Z.shiftr p 22 /\ 0 <= c <= 0x3FF
             /\ exists v, writes_to DAC12_DADR0 evs = [v] /\ c = Z.shiftr v 2
        else c = trunc 32 (Z.shiftr (zv s icount0) 2)
             /\ zv (exec (timer7interrupt hw) s) icount0 = zv s icount0)
  /\ writes_to GPT321_GTCCRC (events (timer7interrupt hw) init_machine) = [0x000]
  /\ writes_to GPT321_GTCCRC
       (events (timer7interrupt hw)
          (mkMachine (upd_z init_zv phaccu0 0xFFFFFF00) init_bv (fun _ => 0) 0%nat))
     = [0x3FF].
Proof.
  cbv zeta.
  assert (G : forall t,
    writes_to GPT321_GTCCRC (events (timer7interrupt hw) t)
    = [trunc 32 (Z.shiftr (if bv t sineFlag
                           then Z.shiftr (trunc 32 (zv t phaccu0 + zv t tword_m0)) 20
                           else zv t icount0) 2)]
    /\ writes_to DAC12_DADR0 (events (timer7interrupt hw) t)
       = [if bv t sineFlag
          then Z.shiftr (trunc 32 (zv t phaccu0 + zv t tword_m0)) 20
          else Z.shiftr (zv (exec (timer7interrupt hw) t) adc_val_A1) 2]
    /\ zv (exec (timer7interrupt hw) t) icount0
       = (if bv t sineFlag
          then Z.shiftr (trunc 32 (zv t phaccu0 + zv t tword_m0)) 20
          else zv t icount0)).
  { intros t.
    destruct (timer7interrupt_summary hw t)
      as (a1 & a2 & x & e2 & e3 & sa & sb & sc & Hev & _ & _ & H2 & H3 & _ & _ & _
          & _ & _ & _ & _ & HA1 & _ & _ & _ & _ & Hi & _).
    cbv zeta in Hev.
    pose proof (spi0_post_on _ _ _ H2) as On2.
    pose proof (spi1_post_on _ _ _ H3) as On3.
    rewrite Hev, !writes_to_app.
    rewrite !(event_on_writes_to _ e2 _ On2), !(event_on_writes_to _ e3 _ On3)
      by reflexivity.
    rewrite HA1. split; [reflexivity |]. split; [reflexivity | exact Hi]. }
  split; [| split].
  - destruct (G s) as (Hc & Hv & Hi). rewrite Hc, Hv, Hi.
    eexists. split; [reflexivity |].
    destruct (bv s sineFlag).
    + set (p := trunc 32 (zv s phaccu0 + zv s tword_m0)).
      assert (Hp : 0 <= p < 2 ^ 32) by (apply trunc_range; lia).
      assert (Hs : Z.shiftr (Z.shiftr p 20) 2 = Z.shiftr p 22)
        by (rewrite Z.shiftr_shiftr by lia; reflexivity).
      assert (Hb : 0 <= Z.shiftr p 22 < 2 ^ 10)
        by (apply shiftr_bound; [lia | lia | exact Hp]).
      rewrite Hs, trunc_small by (change (2 ^ 10) with 1024 in Hb;
                                  change (2 ^ 32) with 4294967296; lia).
      split; [reflexivity |].
      split; [change (2 ^ 10) with 1024 in Hb; lia |].
      eexists. split; [reflexivity | symmetry; exact Hs].
    + split; reflexivity.
  - destruct (G init_machine) as (Hc & _). rewrite Hc. reflexivity.
  - match goal with |- writes_to _ (events _ ?t) = _ => destruct (G t) as (Hc & _) end.
    rewrite Hc. reflexivity.
Qed.


Lemma flag5_u8 f : (trunc 8 (Z.land f 32) =? 32) = Z.testbit f 5.
Proof.
  change 32 with (2 ^ 5). rewrite land_pow2 by lia.
  destruct (Z.testbit f 5); reflexivity.
Qed.

Lemma flag2_u8 f : (trunc 8 (Z.land f 4) =? 4) = Z.testbit f 2.
Proof.
  change 4 with (2 ^ 2). rewrite land_pow2 by lia.
  destruct (Z.testbit f 2); reflexivity.
Qed.

(** Decide [reg_eqb] on registers given by their macros. *)
Ltac reg_eqb_eval :=
  repeat match goal with
         | |- context [reg_eqb ?a ?b] =>
             let c := eval vm_compute in (reg_eqb a b) in
             lazymatch c with
             | true => change (reg_eqb a b) with true
             | false => change (reg_eqb a b) with false
             end
         end;
  cbv iota.

Lemma wp_conj {A} (m : M A) s (Q1 Q2 : A -> machine -> list event -> Prop) :
  wp m s Q1 -> wp m s Q2 -> wp m s (fun a s' e => Q1 a s' e /\ Q2 a s' e).
Proof. unfold wp. intros H1 H2. split; assumption. Qed.

Lemma spi0_section_exchange hw s :
  wp (spi0_section hw) s (fun _ _ => spi0_exchange s).
Proof.
  unfold spi0_section. wp_run; cbn [app]; unfold spi0_exchange;
    rewrite flag7_u8 in E; rewrite flag5_u8 in E0; rewrite flag2_u8 in E1;
    do 6 eexists; (split; [reflexivity |]); rewrite E0, E1;
    (split; [reflexivity |]);
    (split; [first [ eexists; split; reflexivity | split; reflexivity ] |]);
    (split; [reflexivity |]);
    cbn [writes_to]; reg_eqb_eval;
    repeat (apply Forall_cons; [first [left; reflexivity | right; reflexivity] |]);
    apply Forall_nil.
Qed.

(** The sections once more, keeping the bus traffic of the slave unit. *)
Lemma timer7interrupt_sections_spi0 hw s :
  exists s1 s2 s3 e1 e2 e3 e45,
    adc_post s s1 e1 /\ spi0_post s1 s2 e2 /\ spi0_exchange s1 e2
    /\ spi1_post s2 s3 e3
    /\ (exists v c d gc gd,
          e45 = [EvWrite DAC12_DADR0 v; EvWrite GPT321_GTCCRC c;
                 EvWrite GPT321_GTCCRD d; EvWrite GPT167_GTCCRC gc;
                 EvWrite GPT167_GTCCRD gd])
    /\ events (timer7interrupt hw) s =
         EvWrite PFS_P107PFS_BY 5 :: e1
         ++ [EvWrite PFS_P107PFS_BY 4; EvWrite PFS_P106PFS_BY 5] ++ e2 ++ e3
         ++ [EvWrite PFS_P106PFS_BY 4; EvWrite PFS_P107PFS_BY 4] ++ e45
         ++ [EvWrite PFS_P107PFS_BY 5; EvWrite PFS_P107PFS_BY 4].
Proof.
  change (wp (timer7interrupt hw) s (fun _ s' evs =>
    exists s1 s2 s3 e1 e2 e3 e45,
      adc_post s s1 e1 /\ spi0_post s1 s2 e2 /\ spi0_exchange s1 e2
      /\ spi1_post s2 s3 e3
      /\ (exists v c d gc gd,
            e45 = [EvWrite DAC12_DADR0 v; EvWrite GPT321_GTCCRC c;
                   EvWrite GPT321_GTCCRD d; EvWrite GPT167_GTCCRC gc;
                   EvWrite GPT167_GTCCRD gd])
      /\ evs =
           EvWrite PFS_P107PFS_BY 5 :: e1
           ++ [EvWrite PFS_P107PFS_BY 4; EvWrite PFS_P106PFS_BY 5] ++ e2 ++ e3
           ++ [EvWrite PFS_P106PFS_BY 4; EvWrite PFS_P107PFS_BY 4] ++ e45
           ++ [EvWrite PFS_P107PFS_BY 5; EvWrite PFS_P107PFS_BY 4])).
  unfold timer7interrupt. wp_run.
  eapply wp_mono; [apply adc_section_wp |]. cbv beta. intros _ s1 e1 H1. wp_run.
  eapply wp_mono;
    [apply wp_conj; [apply spi0_section_wp | apply spi0_section_exchange] |].
  cbv beta. intros _ s2 e2 [H2 X2]. wp_run.
  eapply wp_mono; [apply spi1_section_wp |]. cbv beta. intros _ s3 e3 H3. wp_run.
  eapply wp_mono; [apply dac_section_wp |]. cbv beta. intros _ s4 e4 H4. wp_run.
  eapply wp_mono; [apply pwm_section_wp |]. cbv beta. intros _ s5 e5 H5. wp_run.
  eapply wp_mono; [apply loop_count_section_wp |]. cbv beta. intros _ s6 e6 H6. wp_run.
  exists s1, s2, s3, e1, e2, e3, (e4 ++ e5).
  split; [exact H1 |]. split; [exact H2 |]. split; [exact X2 |]. split; [exact H3 |].
  assert (He6 : e6 = []) by (destruct H6 as [He _]; exact He). subst e6.
  split.
  - destruct H4 as [_ H4]. cbn [bv zv] in H4.
    destruct H5 as (He5 & _). rewrite He5.
    destruct (bv s3 sineFlag); cbv iota zeta in H4; destruct H4 as [He4 _]; rewrite He4;
      do 5 eexists; reflexivity.
  - cbn [app]. rewrite <- !app_assoc. reflexivity.
Qed.

(** X5: the slave unit's transmit and mode-fault handling.  SPI0_SPSR is
    read at least five times; the ADC reading just latched in adc_val_A1 is
    written to SPI0_SPDR exactly when the fourth read shows SPTEF (bit 5),
    and not at all otherwise; when the fifth read shows MODF (bit 2) the
    status register is read once more and written back with bit 2 cleared,
    otherwise only the two flag-clearing writes at the start are made. *)
Theorem spi0_transmit_and_mode_fault hw s :
  let evs := events (timer7interrupt hw) s in
  exists a1 x1 x2 f7 f5 f2 rest,
    reads_of ADC140_ADDR00 evs = [a1]
    /\ reads_of SPI0_SPSR evs = x1 :: x2 :: f7 :: f5 :: f2 :: rest
    /\ writes_to SPI0_SPDR evs = (if Z.testbit f5 5 then [a1] else [])
    /\ (if Z.testbit f2 2
        then exists m,
               rest = [m]
               /\ writes_to SPI0_SPSR evs
                  = [trunc 8 (Z.land x1 0xE2); trunc 8 (Z.lor x2 0x20);
                     trunc 8 (Z.land m 0xFB)]
        else rest = []
             /\ writes_to SPI0_SPSR evs
                = [trunc 8 (Z.land x1 0xE2); trunc 8 (Z.lor x2 0x20)]).
Proof.
  cbv zeta.
  destruct (timer7interrupt_sections_spi0 hw s)
    as (s1 & s2 & s3 & e1 & e2 & e3 & e45 & H1 & H2 & X2 & H3 & H45 & Hev).
  destruct H45 as (dv & dc & dd & gc & gd & He45).
  pose proof (spi0_post_on _ _ _ H2) as On2.
  pose proof (spi1_post_on _ _ _ H3) as On3.
  destruct H1 as (a1 & a2 & x & He1 & Ha1 & _ & Hz1 & _).
  destruct X2 as (x1 & x2 & f7 & f5 & f2 & rest & Hr & Hd & Hm & _).
  exists a1, x1, x2, f7, f5, f2, rest.
  assert (HA : trunc 32 (zv s1 adc_val_A1) = a1).
  { rewrite Hz1. cbn [upd_z zvar_eqb]. apply trunc_small.
    change (2 ^ 16) with 65536 in Ha1. change (2 ^ 32) with 4294967296. lia. }
  rewrite HA in Hd.
  rewrite Hev, He1, He45.
  change (EvWrite PFS_P107PFS_BY 5 :: ?l ++ ?r) with ((EvWrite PFS_P107PFS_BY 5 :: l) ++ r).
  rewrite !reads_of_app, !writes_to_app.
  rewrite !(event_on_reads_of _ e2 ADC140_ADDR00 On2),
    !(event_on_reads_of _ e3 _ On3), !(event_on_writes_to _ e3 _ On3)
    by reflexivity.
  cbn [reads_of writes_to app].
  reg_eqb_eval. rewrite !app_nil_r.
  split; [reflexivity |]. split; [exact Hr |]. split; [exact Hd |]. exact Hm.
Qed.
Lemma forallb_event_on_incl L L' evs :
  incl L L' ->
  forallb (event_on L) evs = true -> forallb (event_on L') evs = true.
Proof.
  intros Hin H. rewrite forallb_forall in *. intros e He. specialize (H e He).
  unfold event_on, mem_reg in *. destruct (event_reg e) as [r|]; [| exact H].
  apply existsb_exists in H. destruct H as (q & Hq & Hr).
  apply existsb_exists. exists q. split; [apply Hin; exact Hq | exact Hr].
Qed.

Ltac list_incl :=
  let q := fresh "q" in
  let H := fresh "H" in
  intros q H;
  cbv [adc_regs spi0_regs spi1_regs dac_regs pwm_regs app In] in H |- *;
  tauto.

(** X6: the registers the timer interrupt reaches.  Every event of an
    execution is an access to one of fifteen registers: the two pin
    registers of D6 and D7, the ADC results and ADCSR, the status and data
    registers of both SPI units, ICU_IELSR07, the DAC data register and the
    four compare registers; no call into the Arduino core is made.  The ADC
    result registers are only read, the DAC, the compare and the pin
    registers only written. *)
Theorem timer7interrupt_register_footprint hw s :
  let evs := events (timer7interrupt hw) s in
  forallb (event_on (PFS_P106PFS_BY :: PFS_P107PFS_BY
                     :: adc_regs ++ spi0_regs ++ spi1_regs ++ dac_regs ++ pwm_regs))
          evs = true
  /\ writes_to ADC140_ADDR00 evs = [] /\ writes_to ADC140_ADDR01 evs = []
  /\ Forall (fun r => reads_of r evs = [])
            (PFS_P106PFS_BY :: PFS_P107PFS_BY :: dac_regs ++ pwm_regs).
Proof.
  cbv zeta.
  destruct (timer7interrupt_sections_spi0 hw s)
    as (s1 & s2 & s3 & e1 & e2 & e3 & e45 & H1 & H2 & X2 & H3 & H45 & Hev).
  destruct H45 as (dv & dc & dd & gc & gd & He45).
  pose proof (spi0_post_on _ _ _ H2) as On2.
  pose proof (spi1_post_on _ _ _ H3) as On3.
  destruct H1 as (a1 & a2 & x & He1 & _).
  destruct X2 as (x1 & x2 & f7 & f5 & f2 & rest & _ & _ & _ & Hp6 & _).
  assert (Hp7 : reads_of PFS_P107PFS_BY e3 = []).
  { destruct H3 as (y1 & y2 & y3 & lv & w & misses & He3 & Hw & _). subst e3.
    rewrite reads_of_app.
    destruct Hw as [_ [(hit & d & _ & _ & Hw & _) | (_ & Hw & _)]]; subst w.
    - rewrite reads_of_app, reads_of_polls_other by reflexivity. reflexivity.
    - rewrite reads_of_polls_other by reflexivity. reflexivity. }
  set (L := PFS_P106PFS_BY :: PFS_P107PFS_BY
            :: adc_regs ++ spi0_regs ++ spi1_regs ++ dac_regs ++ pwm_regs).
  assert (I2 : forallb (event_on L) e2 = true).
  { apply (forallb_event_on_incl (PFS_P106PFS_BY :: spi0_regs)); [| exact On2].
    subst L. list_incl. }
  assert (I3 : forallb (event_on L) e3 = true).
  { apply (forallb_event_on_incl (PFS_P107PFS_BY :: spi1_regs)); [| exact On3].
    subst L. list_incl. }
  rewrite Hev, He1, He45.
  change (EvWrite PFS_P107PFS_BY 5 :: ?l ++ ?r)
    with ((EvWrite PFS_P107PFS_BY 5 :: l) ++ r).
  split; [| split; [| split]].
  - rewrite !forallb_app, I2, I3. reflexivity.
  - rewrite !writes_to_app.
    rewrite (event_on_writes_to _ e2 _ On2), (event_on_writes_to _ e3 _ On3)
      by reflexivity.
    reflexivity.
  - rewrite !writes_to_app.
    rewrite (event_on_writes_to _ e2 _ On2), (event_on_writes_to _ e3 _ On3)
      by reflexivity.
    reflexivity.
  - change (dac_regs ++ pwm_regs)
      with [DAC12_DADR0; GPT321_GTCCRC; GPT321_GTCCRD; GPT167_GTCCRC; GPT167_GTCCRD].
    apply Forall_cons.
    { rewrite !reads_of_app, Hp6, (event_on_reads_of _ e3 _ On3) by reflexivity.
      reflexivity. }
    apply Forall_cons.
    { rewrite !reads_of_app, Hp7, (event_on_reads_of _ e2 _ On2) by reflexivity.
      reflexivity. }
    repeat (apply Forall_cons;
            [ rewrite !reads_of_app, (event_on_reads_of _ e2 _ On2),
                (event_on_reads_of _ e3 _ On3) by reflexivity;
              reflexivity |]).
    apply Forall_nil.
Qed.

Lemma testbit_mask_16 i :
  0 <= i < 32 -> Z.testbit 0xFFFEFFFF i = negb (i =? 16).
Proof.
  intros Hi.
  assert (H : 0xFFFEFFFF = Z.ldiff (Z.ones 32) (2 ^ 16)) by reflexivity.
  rewrite H, Z.ldiff_spec, Z.ones_spec_low, Z.pow2_bits_eqb by lia.
  rewrite (Z.eqb_sym i 16). reflexivity.
Qed.

(** X7: the two read-modify-write accesses of the timer interrupt change one
    bit each.  ADC140_ADCSR is read once and written back once with bit 15
    (ADST, start conversion) set and bits 0..14 as read; ICU_IELSR07 is read
    once and written back once with bit 16 (the IR flag) cleared and all
    other bits 0..31 as read. *)
Theorem timer7interrupt_read_modify_write hw s :
  let evs := events (timer7interrupt hw) s in
  exists x w y z,
    reads_of ADC140_ADCSR evs = [x] /\ writes_to ADC140_ADCSR evs = [w]
    /\ (forall i, 0 <= i < 16 -> Z.testbit w i = (i =? 15) || Z.testbit x i)
    /\ reads_of ICU_IELSR07 evs = [y] /\ writes_to ICU_IELSR07 evs = [z]
    /\ (forall i, 0 <= i < 32 -> Z.testbit z i = negb (i =? 16) && Z.testbit y i).
Proof.
  cbv zeta.
  destruct (timer7interrupt_summary hw s)
    as (a1 & a2 & x & e2 & e3 & sa & sb & sc & Hev & _ & _ & H2 & H3 & _).
  cbv zeta in Hev.
  pose proof (spi0_post_on _ _ _ H2) as On2.
  pose proof (spi1_post_on _ _ _ H3) as On3.
  destruct H3 as (x1 & x2 & y & lv & w & misses & He3 & Hw & _).
  exists x, (trunc 16 (Z.lor x 0x8000)), y, (trunc 32 (Z.land y 0xFFFEFFFF)).
  assert (Wr : reads_of ICU_IELSR07 w = [] /\ writes_to ICU_IELSR07 w = []).
  { split; [| apply (wait_trace_writes _ _ _ _ _ ICU_IELSR07 Hw); reflexivity].
    destruct Hw as [_ [(hit & d & _ & _ & Hw & _) | (_ & Hw & _)]]; subst w.
    - rewrite reads_of_app, reads_of_polls_other by reflexivity. reflexivity.
    - rewrite reads_of_polls_other by reflexivity. reflexivity. }
  destruct Wr as [Wr Ww].
  rewrite Hev, !reads_of_app, !writes_to_app.
  rewrite (event_on_reads_of _ e2 ADC140_ADCSR On2),
    (event_on_reads_of _ e3 ADC140_ADCSR On3),
    (event_on_writes_to _ e2 ADC140_ADCSR On2),
    (event_on_writes_to _ e3 ADC140_ADCSR On3),
    (event_on_reads_of _ e2 ICU_IELSR07 On2),
    (event_on_writes_to _ e2 ICU_IELSR07 On2) by reflexivity.
  rewrite He3, !reads_of_app, !writes_to_app, Wr, Ww.
  split; [reflexivity |]. split; [reflexivity |]. split.
  { intros i Hi. unfold trunc. rewrite Z.mod_pow2_bits_low by lia.
    rewrite Z.lor_spec. change 0x8000 with (2 ^ 15).
    rewrite Z.pow2_bits_eqb by lia. rewrite (Z.eqb_sym i 15), orb_comm.
    reflexivity. }
  split; [reflexivity |]. split; [reflexivity |].
  intros i Hi. unfold trunc. rewrite Z.mod_pow2_bits_low by lia.
  rewrite Z.land_spec, testbit_mask_16 by exact Hi. apply andb_comm.
Qed.


Lemma Forall_last {A} (Q : A -> Prop) (l : list A) d :
  l <> [] -> Forall Q l -> Q (last l d).
Proof.
  intros Hne H. rewrite (app_removelast_last d Hne) in H.
  apply Forall_app in H. destruct H as [_ H]. inversion H. assumption.
Qed.

(** X8: the timing marks on D6 and D7.  An execution begins by writing 5
    (high) and ends by writing 4 (low) to the D7 pin register.  After the
    two flag-clearing reads, SPI1_SPSR is polled until a poll shows SPRF
    (bit 7) or sixteen polls have missed.  When the last poll shows SPRF, a
    word was received from SPI1: right after that poll D7 is written 5,
    SPI1_SPDR is read, D7 is written 4, the word read is what
    spi1_received_val holds afterwards, and D7 is written seven times in
    all, 5 4 5 4 4 5 4.  When the last poll misses, it is the sixteenth,
    SPI1_SPDR is read only by the emptying read, spi1_received_val is as it
    was and D7 is written five times, 5 4 4 5 4.  Every value written to
    the D6 pin register is 4 or 5, the first is 5 and the last is 4, so
    both pins are left low. *)
Theorem timer7interrupt_pin_marks hw s :
  let evs := events (timer7interrupt hw) s in
  let s' := exec (timer7interrupt hw) s in
  (exists mid, evs = EvWrite PFS_P107PFS_BY 5 :: mid ++ [EvWrite PFS_P107PFS_BY 4])
  /\ (exists x1 x2 polls flag,
        reads_of SPI1_SPSR evs = x1 :: x2 :: polls ++ [flag]
        /\ Forall (fun f => Z.testbit f 7 = false) polls
        /\ if Z.testbit flag 7
           then exists lv d pre post,
                  evs = pre
                        ++ [EvRead SPI1_SPSR flag; EvWrite PFS_P107PFS_BY 5;
                            EvRead SPI1_SPDR d; EvWrite PFS_P107PFS_BY 4]
                        ++ post
                  /\ writes_to PFS_P107PFS_BY pre = [5; 4]
                  /\ writes_to PFS_P107PFS_BY post = [4; 5; 4]
                  /\ reads_of SPI1_SPDR evs = [lv; d]
                  /\ zv s' spi1_received_val = d
                  /\ writes_to PFS_P107PFS_BY evs = [5; 4; 5; 4; 4; 5; 4]
           else length polls = 15%nat
                /\ (exists lv, reads_of SPI1_SPDR evs = [lv])
                /\ zv s' spi1_received_val = zv s spi1_received_val
                /\ writes_to PFS_P107PFS_BY evs = [5; 4; 4; 5; 4])
  /\ Forall (fun v => v = 4 \/ v = 5) (writes_to PFS_P106PFS_BY evs)
  /\ (exists mid6, writes_to PFS_P106PFS_BY evs = 5 :: mid6 ++ [4]).
Proof.
  cbv zeta.
  destruct (timer7interrupt_sections_spi0 hw s)
    as (s1 & s2 & s3 & e1 & e2 & e3 & e45 & H1 & H2 & X2 & H3 & H45 & Hev).
  destruct H45 as (dv & dc & dd & gc & gd & He45).
  pose proof (spi0_post_on _ _ _ H2) as On2.
  pose proof (spi1_post_on _ _ _ H3) as On3.
  destruct H1 as (a1 & a2 & x & He1 & _).
  destruct X2 as (x1 & x2 & f7 & f5 & f2 & rest & _ & _ & _ & _ & Hw6).
  split; [| split; [| split]].
  - eexists. rewrite Hev.
    change [EvWrite PFS_P107PFS_BY 5; EvWrite PFS_P107PFS_BY 4]
      with ([EvWrite PFS_P107PFS_BY 5] ++ [EvWrite PFS_P107PFS_BY 4]).
    rewrite !app_assoc. reflexivity.
  - clear s1 s2 s3 e1 e2 e3 e45 H2 H3 Hev He45 On2 On3 He1 Hw6
          dv dc dd gc gd a1 a2 x x1 x2 f7 f5 f2 rest.
    destruct (timer7interrupt_summary hw s)
      as (a1 & a2 & x & e2 & e3 & sa & sb & sc & Hev & _ & _ & H2 & H3 & _ & Hsb
          & _ & _ & Hs' & _).
    pose proof (spi0_post_on _ _ _ H2) as On2.
    rewrite Hs', <- Hsb.
    destruct H3 as (x1 & x2 & x3 & lv & w & misses & He3 & Hw & _).
    set (L1 := [EvWrite PFS_P107PFS_BY 5; EvRead ADC140_ADDR00 a1;
                EvRead ADC140_ADDR01 a2; EvRead ADC140_ADCSR x;
                EvWrite ADC140_ADCSR (trunc 16 (Z.lor x 32768));
                EvWrite PFS_P107PFS_BY 4; EvWrite PFS_P106PFS_BY 5]) in Hev.
    match type of Hev with _ = _ ++ _ ++ _ ++ ?l => set (L2 := l) in Hev end.
    match type of He3 with _ = ?l ++ _ => set (E8 := l) in He3 end.
    assert (R1 : reads_of SPI1_SPSR L1 = []) by reflexivity.
    assert (R2 : reads_of SPI1_SPSR L2 = []) by reflexivity.
    assert (R8 : reads_of SPI1_SPSR E8 = [x1; x2]) by reflexivity.
    assert (D1 : reads_of SPI1_SPDR L1 = []) by reflexivity.
    assert (D2 : reads_of SPI1_SPDR L2 = []) by reflexivity.
    assert (D8 : reads_of SPI1_SPDR E8 = [lv]) by reflexivity.
    assert (W1 : writes_to PFS_P107PFS_BY L1 = [5; 4]) by reflexivity.
    assert (W2 : writes_to PFS_P107PFS_BY L2 = [4; 5; 4]) by reflexivity.
    assert (W8 : writes_to PFS_P107PFS_BY E8 = []) by reflexivity.
    pose proof (event_on_reads_of _ e2 SPI1_SPSR On2 eq_refl) as Re2.
    pose proof (event_on_reads_of _ e2 SPI1_SPDR On2 eq_refl) as De2.
    pose proof (event_on_writes_to _ e2 PFS_P107PFS_BY On2 eq_refl) as We2.
    clearbody L1 L2 E8.
    rewrite Hev, He3. rewrite !reads_of_app, !writes_to_app.
    rewrite R1, R2, R8, D1, D2, D8, W1, W2, W8, Re2, De2, We2.
    cbn [app]. rewrite !app_nil_r.
    destruct Hw as [Hmiss [(hit & d & Hhit & Hlen & Hw & Hnew) | (Hlen & Hw & Hnew)]];
      subst w.
    + exists x1, x2, misses, hit.
      rewrite !reads_of_app, !writes_to_app, reads_of_polls, writes_to_reads,
        (reads_of_polls_other SPI1_SPDR) by reflexivity.
      split; [reflexivity |]. split; [exact Hmiss |]. rewrite Hhit.
      exists lv, d, (L1 ++ e2 ++ E8 ++ map (EvRead SPI1_SPSR) misses), L2.
      split; [rewrite <- !app_assoc; reflexivity |].
      split.
      { rewrite !writes_to_app, W1, We2, W8, writes_to_reads. reflexivity. }
      split; [exact W2 |]. split; [reflexivity |]. split; [exact Hnew |].
      reflexivity.
    + assert (Hne : misses <> []) by (intros ->; discriminate Hlen).
      exists x1, x2, (removelast misses), (last misses 0).
      rewrite reads_of_polls, writes_to_reads,
        (reads_of_polls_other SPI1_SPDR) by reflexivity.
      split; [rewrite <- (app_removelast_last 0 Hne); reflexivity |].
      split.
      { rewrite (app_removelast_last 0 Hne) in Hmiss.
        apply Forall_app in Hmiss. apply Hmiss. }
      rewrite (Forall_last _ misses 0 Hne Hmiss).
      split.
      { pose proof (f_equal (@length Z) (app_removelast_last 0 Hne)) as Hl.
        rewrite length_app in Hl. cbn [length] in Hl. lia. }
      split; [exists lv; reflexivity |]. split; [exact Hnew | reflexivity].
  - rewrite Hev, He1, He45.
    change (EvWrite PFS_P107PFS_BY 5 :: ?l ++ ?r)
      with ((EvWrite PFS_P107PFS_BY 5 :: l) ++ r).
    rewrite !writes_to_app, (event_on_writes_to _ e3 _ On3) by reflexivity.
    cbn [writes_to]. reg_eqb_eval. cbn [app].
    apply Forall_cons; [right; reflexivity |].
    apply Forall_app. split; [exact Hw6 |].
    apply Forall_cons; [left; reflexivity | apply Forall_nil].
  - rewrite Hev, He1, He45.
    change (EvWrite PFS_P107PFS_BY 5 :: ?l ++ ?r)
      with ((EvWrite PFS_P107PFS_BY 5 :: l) ++ r).
    rewrite !writes_to_app, (event_on_writes_to _ e3 _ On3) by reflexivity.
    cbn [writes_to]. reg_eqb_eval. cbn [app].
    exists (writes_to PFS_P106PFS_BY e2). reflexivity.
Qed.

(** X9: what the timer interrupt leaves to the main loop.  An execution
    changes none of tword_m0, adc_val_A0, spi0_transmit_val and
    spi1_transmit_val, and neither sineFlag nor actionFlag: the tuning word
    and the mode flags are inputs of the handler only. *)
Theorem timer7interrupt_leaves_main_loop_variables hw s :
  let s' := exec (timer7interrupt hw) s in
  (forall y, In y [adc_val_A0; tword_m0; spi1_transmit_val; spi0_transmit_val] ->
             zv s' y = zv s y)
  /\ bv s' sineFlag = bv s sineFlag /\ bv s' actionFlag = bv s actionFlag.
Proof.
  cbv zeta.
  destruct (timer7interrupt_summary hw s)
    as (a1 & a2 & x & e2 & e3 & sa & sb & sc & _ & _ & _ & _ & _ & _ & _ & _
        & _ & _ & _ & _ & _ & _ & _ & _ & _ & _ & _ & _ & _ & Hsf & Haf & Hfr).
  split; [exact Hfr |]. split; [exact Hsf | exact Haf].
Qed.
(** ** More on the peripheral set-up *)

(** Look a register up in a store built from updates. *)
Ltac lookup f q :=
  lazymatch f with
  | upd_r ?g ?r ?v =>
      let c := eval vm_compute in (reg_eqb q r) in
      lazymatch c with
      | true => v
      | false => lookup g q
      end
  | _ => constr:(f q)
  end.

Ltac regs_eval :=
  repeat match goal with
         | |- context [upd_r ?f ?r ?v ?q] =>
             let res := lookup (upd_r f r v) q in
             change (upd_r f r v q) with res
         end.

(** Symbolic execution for straight-line set-up code: a register with a
    [storage] hypothesis is read from the store, a test on constants is
    decided. *)
Ltac wpx_step :=
  lazymatch goal with
  | |- wp (load _ _) _ _ =>
      first [ match goal with
              | H : storage _ ?q |- wp (load ?hw ?r) ?s ?Q =>
                  let c := eval vm_compute in (reg_eqb r q) in
                  lazymatch c with
                  | true =>
                      change (wp (load hw q) s Q);
                      apply wp_load_stored; [ apply H | ]
                  end
              end
            | let v := fresh "v" in
              let Hv := fresh "Hv" in
              apply wp_load; [ discriminate | intros v Hv ] ];
      cbv beta; cbn [zv bv regs loads]; regs_eval
  | |- wp (if ?c then _ else _) _ _ =>
      let b := eval vm_compute in c in
      lazymatch b with
      | true => change c with true; cbv iota
      | false => change c with false; cbv iota
      | _ => let E := fresh "E" in destruct c eqn:E
      end
  | |- _ => wp_step
  end.

Ltac wpx_run := repeat wpx_step.

Ltac unfold_setup :=
  unfold setup, setup_spi1, setup_spi0, setup_adc, setup_dac, setup_timers;
  cbv zeta.

Lemma trunc_land w a b : 0 <= w -> trunc w (Z.land a b) = Z.land (trunc w a) (trunc w b).
Proof.
  intros Hw. unfold trunc. apply Z.bits_inj'. intros i Hi.
  rewrite Z.land_spec, !Z.testbit_mod_pow2, Z.land_spec by exact Hw.
  destruct (i <? w); reflexivity.
Qed.

(** A property of bit positions 0..31 that holds by evaluation. *)
Lemma bits32_forall (f : Z -> bool) :
  forallb f (map Z.of_nat (seq 0 32)) = true -> forall i, 0 <= i < 32 -> f i = true.
Proof.
  intros H i Hi. rewrite forallb_forall in H. apply H.
  apply in_map_iff. exists (Z.to_nat i). split; [lia | apply in_seq; lia].
Qed.

Lemma mask_bits m l :
  forallb (fun i => Bool.eqb (Z.testbit m i) (negb (existsb (Z.eqb i) l)))
          (map Z.of_nat (seq 0 32)) = true ->
  forall x i, 0 <= i < 32 ->
    Z.testbit (Z.land (trunc 32 x) m) i = Z.testbit x i && negb (existsb (Z.eqb i) l).
Proof.
  intros H x i Hi. pose proof (bits32_forall _ H i Hi) as Hm. cbv beta in Hm.
  apply eqb_prop in Hm. rewrite Z.land_spec, Hm. unfold trunc.
  rewrite Z.mod_pow2_bits_low by lia. reflexivity.
Qed.

(** X10: the event links after set-up.  setup leaves ICU slot 5 linked to
    the GPT7 overflow event and slots 6, 7 and 8 to the SPI1 error, receive
    and transmit events: the SPI0 events setup first writes there as
    placeholders are overwritten by setup_spi1, which is called with
    SPI_IRQEN, while setup_spi0, called with SPI_POLL, writes no slot. *)
Theorem setup_event_links hw s :
  let s' := exec (setup hw) s in
  let evs := events (setup hw) s in
  writes_to ICU_IELSR05 evs = [IRQ_GPT7_OVF]
  /\ writes_to ICU_IELSR06 evs = [IRQ_SPI0_SPEI; IRQ_SPI1_SPEI]
  /\ writes_to ICU_IELSR07 evs = [IRQ_SPI0_SPRI; IRQ_SPI1_SPRI]
  /\ writes_to ICU_IELSR08 evs = [IRQ_SPI0_SPTI; IRQ_SPI1_SPTI]
  /\ regs s' ICU_IELSR05 = IRQ_GPT7_OVF
  /\ regs s' ICU_IELSR06 = IRQ_SPI1_SPEI
  /\ regs s' ICU_IELSR07 = IRQ_SPI1_SPRI
  /\ regs s' ICU_IELSR08 = IRQ_SPI1_SPTI
  /\ writes_to ICU_IELSR06
       (events (setup_spi0 hw SPI_SLAVE SPI_BR_8M0Hz SPI_BITS_32 SPI_POLL) s) = [].
Proof.
  cbv zeta.
  assert (H : wp (setup hw) s (fun _ s' evs =>
    writes_to ICU_IELSR05 evs = [IRQ_GPT7_OVF]
    /\ writes_to ICU_IELSR06 evs = [IRQ_SPI0_SPEI; IRQ_SPI1_SPEI]
    /\ writes_to ICU_IELSR07 evs = [IRQ_SPI0_SPRI; IRQ_SPI1_SPRI]
    /\ writes_to ICU_IELSR08 evs = [IRQ_SPI0_SPTI; IRQ_SPI1_SPTI]
    /\ regs s' ICU_IELSR05 = IRQ_GPT7_OVF
    /\ regs s' ICU_IELSR06 = IRQ_SPI1_SPEI
    /\ regs s' ICU_IELSR07 = IRQ_SPI1_SPRI
    /\ regs s' ICU_IELSR08 = IRQ_SPI1_SPTI)).
  { unfold_setup. wpx_run. regs_eval. cbn [app].
    repeat split; reflexivity. }
  assert (H0 : wp (setup_spi0 hw SPI_SLAVE SPI_BR_8M0Hz SPI_BITS_32 SPI_POLL) s
                 (fun _ _ evs => writes_to ICU_IELSR06 evs = [])).
  { unfold_setup. wpx_run. cbn [app]. reflexivity. }
  unfold wp in H, H0.
  repeat (split; [apply H |]). exact H0.
Qed.

(** X11: the module stop bits.  When the two module stop control registers
    hold what is written to them, setup clears bits 18 and 19 of MSTPCRB
    (SPI1, SPI0) and bits 5, 6, 16 and 20 of MSTPCRD (the two GPT groups,
    the ADC and the DAC) and leaves every other bit 0..31 of the two
    registers as it was. *)
Theorem setup_releases_module_stops hw s :
  storage hw MSTP_MSTPCRB -> storage hw MSTP_MSTPCRD ->
  let s' := exec (setup hw) s in
  forall i, 0 <= i < 32 ->
    Z.testbit (regs s' MSTP_MSTPCRB) i
    = Z.testbit (regs s MSTP_MSTPCRB) i
      && negb (existsb (Z.eqb i) [MSTPB18; MSTPB19])
    /\ Z.testbit (regs s' MSTP_MSTPCRD) i
       = Z.testbit (regs s MSTP_MSTPCRD) i
         && negb (existsb (Z.eqb i) [MSTPD5; MSTPD6; MSTPD16; MSTPD20]).
Proof.
  intros HB HD. cbv zeta.
  assert (H : wp (setup hw) s (fun _ s' _ =>
    regs s' MSTP_MSTPCRB = Z.land (trunc 32 (regs s MSTP_MSTPCRB)) 0xFFF3FFFF
    /\ regs s' MSTP_MSTPCRD = Z.land (trunc 32 (regs s MSTP_MSTPCRD)) 0xFFEEFF9F)).
  { unfold_setup. wpx_run. regs_eval.
    change (bits MSTP_MSTPCRB) with 32. change (bits MSTP_MSTPCRD) with 32.
    rewrite !trunc_land, !trunc_trunc by lia.
    rewrite <- !Z.land_assoc. split; reflexivity. }
  unfold wp in H. destruct H as [Hb Hd]. intros i Hi. rewrite Hb, Hd.
  split; apply mask_bits; try exact Hi; vm_compute; reflexivity.
Qed.

Lemma setup_releases_module_stops_witness :
  storage quiet_hw MSTP_MSTPCRB /\ storage quiet_hw MSTP_MSTPCRD
  /\ Z.testbit (regs (exec (setup quiet_hw)
                        (mkMachine init_zv init_bv (fun _ => 0xFFFFFFFF) 0%nat))
                     MSTP_MSTPCRB) 18 = false
  /\ Z.testbit (regs (exec (setup quiet_hw)
                        (mkMachine init_zv init_bv (fun _ => 0xFFFFFFFF) 0%nat))
                     MSTP_MSTPCRD) 17 = true.
Proof.
  assert (HB : storage quiet_hw MSTP_MSTPCRB) by (intros n; reflexivity).
  assert (HD : storage quiet_hw MSTP_MSTPCRD) by (intros n; reflexivity).
  split; [exact HB |]. split; [exact HD |].
  split.
  - destruct (setup_releases_module_stops quiet_hw
                (mkMachine init_zv init_bv (fun _ => 0xFFFFFFFF) 0%nat) HB HD 18
                ltac:(lia)) as [H _].
    rewrite H. reflexivity.
  - destruct (setup_releases_module_stops quiet_hw
                (mkMachine init_zv init_bv (fun _ => 0xFFFFFFFF) 0%nat) HB HD 17
                ltac:(lia)) as [_ H].
    rewrite H. reflexivity.
Defined.

(** Split a list of [storage] assumptions into its members. *)
Ltac split_storage H :=
  repeat (let H1 := fresh "St" in
          apply Forall_cons_iff in H; destruct H as [H1 H]);
  clear H.

(** X12: the pin functions after set-up.  When the pin function registers
    hold what is written to them, setup leaves the four SPI1 pins
    P109..P112 and the SPI0 pins P101..P103 with PSEL = 6 and PMR set
    (0x06010000), P100 with these and bit 4 set as well, the five PWM pins
    P104, P105, P303, P304 and P204 with PSEL = 3 and PMR set (0x03010000),
    the DAC pin P014 with only its analog bit 15 set, and the interrupt
    pins P000, P001 and P002 cleared.  P111, cleared first as the pin of
    the hijacked interrupt, ends as the SPI1 clock. *)
Theorem setup_pin_functions hw s :
  Forall (storage hw)
    [PFS_P109PFS; PFS_P110PFS; PFS_P111PFS; PFS_P112PFS;
     PFS_P100PFS; PFS_P101PFS; PFS_P102PFS; PFS_P103PFS;
     PFS_P104PFS; PFS_P105PFS; PFS_P303PFS; PFS_P304PFS; PFS_P204PFS;
     PFS_P014PFS] ->
  let s' := exec (setup hw) s in
  Forall (fun r => regs s' r = Z.lor (Z.shiftl 6 24) (Z.shiftl 1 16))
    [PFS_P109PFS; PFS_P110PFS; PFS_P111PFS; PFS_P112PFS;
     PFS_P101PFS; PFS_P102PFS; PFS_P103PFS]
  /\ regs s' PFS_P100PFS = Z.lor (Z.lor (Z.shiftl 6 24) (Z.shiftl 1 16)) (Z.shiftl 1 4)
  /\ Forall (fun r => regs s' r = Z.lor (Z.shiftl 3 24) (Z.shiftl 1 16))
       [PFS_P104PFS; PFS_P105PFS; PFS_P303PFS; PFS_P304PFS; PFS_P204PFS]
  /\ regs s' PFS_P014PFS = Z.shiftl 1 15
  /\ Forall (fun r => regs s' r = 0) [PFS_P000PFS; PFS_P001PFS; PFS_P002PFS]
  /\ writes_to PFS_P111PFS (events (setup hw) s)
     = [0; Z.shiftl 6 24; Z.lor (Z.shiftl 6 24) (Z.shiftl 1 16)].
Proof.
  intros St. split_storage St. cbv zeta.
  change (wp (setup hw) s (fun _ s' evs =>
    Forall (fun r => regs s' r = Z.lor (Z.shiftl 6 24) (Z.shiftl 1 16))
      [PFS_P109PFS; PFS_P110PFS; PFS_P111PFS; PFS_P112PFS;
       PFS_P101PFS; PFS_P102PFS; PFS_P103PFS]
    /\ regs s' PFS_P100PFS = Z.lor (Z.lor (Z.shiftl 6 24) (Z.shiftl 1 16)) (Z.shiftl 1 4)
    /\ Forall (fun r => regs s' r = Z.lor (Z.shiftl 3 24) (Z.shiftl 1 16))
         [PFS_P104PFS; PFS_P105PFS; PFS_P303PFS; PFS_P304PFS; PFS_P204PFS]
    /\ regs s' PFS_P014PFS = Z.shiftl 1 15
    /\ Forall (fun r => regs s' r = 0) [PFS_P000PFS; PFS_P001PFS; PFS_P002PFS]
    /\ writes_to PFS_P111PFS evs
       = [0; Z.shiftl 6 24; Z.lor (Z.shiftl 6 24) (Z.shiftl 1 16)])).
  unfold_setup. wpx_run. cbn [app].
  repeat split; repeat apply Forall_cons; try apply Forall_nil;
    cbv beta; regs_eval; reflexivity.
Qed.

Lemma setup_pin_functions_witness :
  Forall (storage quiet_hw)
    [PFS_P109PFS; PFS_P110PFS; PFS_P111PFS; PFS_P112PFS;
     PFS_P100PFS; PFS_P101PFS; PFS_P102PFS; PFS_P103PFS;
     PFS_P104PFS; PFS_P105PFS; PFS_P303PFS; PFS_P304PFS; PFS_P204PFS;
     PFS_P014PFS]
  /\ regs (exec (setup quiet_hw) init_machine) PFS_P100PFS = 0x06010010.
Proof.
  assert (St : Forall (storage quiet_hw)
    [PFS_P109PFS; PFS_P110PFS; PFS_P111PFS; PFS_P112PFS;
     PFS_P100PFS; PFS_P101PFS; PFS_P102PFS; PFS_P103PFS;
     PFS_P104PFS; PFS_P105PFS; PFS_P303PFS; PFS_P304PFS; PFS_P204PFS;
     PFS_P014PFS])
    by (repeat apply Forall_cons; try apply Forall_nil; intros n; reflexivity).
  split; [exact St |].
  destruct (setup_pin_functions quiet_hw init_machine St) as (_ & H & _).
  rewrite H. reflexivity.
Defined.

(** X13: the timers after set-up.  When the I/O control and the control
    registers of the three timers hold what is written to them,
    setup_timers leaves them with fixed values whatever they held before:
    GTIOR is 0x01090109 for timer 7, 0x011B011B for timer 1 and 0x01090000
    for timer 4; GTCR has the count start bit 0 set for all three (with
    the triangle mode bits 0x40000 for timer 1); the periods are 0x7FD,
    0x3FF and 0x7FD. *)
Theorem setup_timers_known_state hw s :
  Forall (storage hw)
    [GPT167_GTIOR; GPT321_GTIOR; GPT164_GTIOR;
     GPT167_GTCR; GPT321_GTCR; GPT164_GTCR] ->
  let s' := exec (setup_timers hw) s in
  regs s' GPT167_GTIOR = 0x01090109
  /\ regs s' GPT321_GTIOR = 0x011B011B
  /\ regs s' GPT164_GTIOR = 0x01090000
  /\ regs s' GPT167_GTCR = 0x1
  /\ regs s' GPT321_GTCR = 0x40001
  /\ regs s' GPT164_GTCR = 0x1
  /\ regs s' GPT167_GTPR = 0x7FD
  /\ regs s' GPT321_GTPR = 0x3FF
  /\ regs s' GPT164_GTPR = 0x7FD.
Proof.
  intros St. split_storage St. cbv zeta.
  change (wp (setup_timers hw) s (fun _ s' _ =>
    regs s' GPT167_GTIOR = 0x01090109
    /\ regs s' GPT321_GTIOR = 0x011B011B
    /\ regs s' GPT164_GTIOR = 0x01090000
    /\ regs s' GPT167_GTCR = 0x1
    /\ regs s' GPT321_GTCR = 0x40001
    /\ regs s' GPT164_GTCR = 0x1
    /\ regs s' GPT167_GTPR = 0x7FD
    /\ regs s' GPT321_GTPR = 0x3FF
    /\ regs s' GPT164_GTPR = 0x7FD)).
  unfold_setup. wpx_run. regs_eval. repeat split; reflexivity.
Qed.

Lemma setup_timers_known_state_witness :
  Forall (storage quiet_hw)
    [GPT167_GTIOR; GPT321_GTIOR; GPT164_GTIOR;
     GPT167_GTCR; GPT321_GTCR; GPT164_GTCR]
  /\ regs (exec (setup_timers quiet_hw)
             (mkMachine init_zv init_bv (fun _ => 0xFFFFFFFF) 0%nat))
          GPT321_GTCR = 0x40001.
Proof.
  assert (St : Forall (storage quiet_hw)
    [GPT167_GTIOR; GPT321_GTIOR; GPT164_GTIOR;
     GPT167_GTCR; GPT321_GTCR; GPT164_GTCR])
    by (repeat apply Forall_cons; try apply Forall_nil; intros n; reflexivity).
  split; [exact St |].
  destruct (setup_timers_known_state quiet_hw
              (mkMachine init_zv init_bv (fun _ => 0xFFFFFFFF) 0%nat) St)
    as (_ & _ & _ & _ & H & _).
  exact H.
Defined.

(** X14: the compare values stay inside the periods.  setup_timers
    programs the period 0x3FF for timer 1 and 0x7FD for timer 7; every
    value the timer interrupt writes to GPT321_GTCCRD lies strictly
    between 0 and the period of timer 1, the value written to
    GPT321_GTCCRC with sineFlag set is at most that period, and the two
    values written to GPT167_GTCCRC and GPT167_GTCCRD are 0 and the period
    of timer 7, in one order or the other. *)
Theorem compare_values_within_period hw hw' s t :
  let p1 := regs (exec (setup_timers hw) s) GPT321_GTPR in
  let p7 := regs (exec (setup_timers hw) s) GPT167_GTPR in
  let evs := events (timer7interrupt hw') t in
  (exists d, writes_to GPT321_GTCCRD evs = [d] /\ 0 < d < p1)
  /\ (exists c, writes_to GPT321_GTCCRC evs = [c]
                /\ (bv t sineFlag = true -> 0 <= c <= p1))
  /\ (exists c d, writes_to GPT167_GTCCRC evs = [c]
                  /\ writes_to GPT167_GTCCRD evs = [d]
                  /\ (c = 0 /\ d = p7 \/ c = p7 /\ d = 0)).
Proof.
  cbv zeta.
  assert (P : wp (setup_timers hw) s (fun _ s' _ =>
                regs s' GPT321_GTPR = 0x3FF /\ regs s' GPT167_GTPR = 0x7FD)).
  { unfold_setup. wpx_run. regs_eval. split; reflexivity. }
  unfold wp in P. destruct P as [P1 P7]. rewrite P1, P7.
  destruct (timer7interrupt_summary hw' t)
    as (a1 & a2 & x & e2 & e3 & sa & sb & sc & Hev & _ & _ & H2 & H3 & _).
  cbv zeta in Hev.
  pose proof (spi0_post_on _ _ _ H2) as On2.
  pose proof (spi1_post_on _ _ _ H3) as On3.
  rewrite Hev, !writes_to_app.
  rewrite !(event_on_writes_to _ e2 _ On2), !(event_on_writes_to _ e3 _ On3)
    by reflexivity.
  split; [| split].
  - exists (duty a1). split; [reflexivity |].
    pose proof (duty_range a1). lia.
  - eexists. split; [reflexivity |]. intros Hs. rewrite Hs.
    set (p := trunc 32 (zv t phaccu0 + zv t tword_m0)).
    assert (Hp : 0 <= p < 2 ^ 32) by (apply trunc_range; lia).
    assert (Hb : 0 <= Z.shiftr p 22 < 2 ^ 10)
      by (apply shiftr_bound; [lia | lia | exact Hp]).
    rewrite Z.shiftr_shiftr by lia. change (20 + 2) with 22.
    change (2 ^ 10) with 1024 in Hb.
    rewrite trunc_small by (change (2 ^ 32) with 4294967296; lia). lia.
  - do 2 eexists. split; [reflexivity |]. split; [reflexivity |].
    destruct (bv t directionFlag); [left | right]; split; reflexivity.
Qed.

Lemma small_cases n :
  0 <= n < 16 ->
  In n [0; 1; 2; 3; 4; 5; 6; 7; 8; 9; 10; 11; 12; 13; 14; 15].
Proof. intros H. cbn [In]. lia. Qed.

(** X15: the frame length in the SPI set-up.  For either unit, any mode and
    a numBits below 16, when SPCMD0 and SPDCR hold what is written to them:
    the command register ends as its base value (0xE001 for a master,
    0x0001 for a slave) with numBits in the SPB field, bits 8..11; for
    numBits below 4 (the 20, 24 and 32 bit frames) word access is switched
    on (SPLW, bit 5 of SPDCR) and the data register is primed through the
    32-bit SPDR, otherwise SPDCR is cleared and the 16-bit SPDR_HA is
    used. *)
Theorem setup_spi_frame_length hw (MSmode : bool) bitRate numBits IRQmode s :
  Forall (storage hw) [SPI0_SPCMD0; SPI0_SPDCR; SPI1_SPCMD0; SPI1_SPDCR] ->
  0 <= numBits < 16 ->
  let base : Z := if MSmode then 0xE001 else 0x0001 in
  let s0 := exec (setup_spi0 hw MSmode bitRate numBits IRQmode) s in
  let e0 := events (setup_spi0 hw MSmode bitRate numBits IRQmode) s in
  let s1 := exec (setup_spi1 hw MSmode bitRate numBits IRQmode) s in
  let e1 := events (setup_spi1 hw MSmode bitRate numBits IRQmode) s in
  regs s0 SPI0_SPCMD0 = base + numBits * 256
  /\ regs s1 SPI1_SPCMD0 = base + numBits * 256
  /\ Z.land (Z.shiftr (regs s0 SPI0_SPCMD0) SPCMD0_SPB_0_3) 0xF = numBits
  /\ Z.land (Z.shiftr (regs s1 SPI1_SPCMD0) SPCMD0_SPB_0_3) 0xF = numBits
  /\ (if numBits <? 4
      then Z.testbit (regs s0 SPI0_SPDCR) SPDCR_SPLW = true
           /\ Z.testbit (regs s1 SPI1_SPDCR) SPDCR_SPLW = true
           /\ writes_to SPI0_SPDR e0 = [0x55555555] /\ writes_to SPI0_SPDR_HA e0 = []
           /\ writes_to SPI1_SPDR e1 = [0x55555555] /\ writes_to SPI1_SPDR_HA e1 = []
      else regs s0 SPI0_SPDCR = 0 /\ regs s1 SPI1_SPDCR = 0
           /\ writes_to SPI0_SPDR e0 = [] /\ writes_to SPI0_SPDR_HA e0 = [0xAAAA]
           /\ writes_to SPI1_SPDR e1 = [] /\ writes_to SPI1_SPDR_HA e1 = [0xAAAA]).
Proof.
  intros St Hn. split_storage St. cbv zeta.
  assert (H0 : wp (setup_spi0 hw MSmode bitRate numBits IRQmode) s (fun _ s0 e0 =>
    regs s0 SPI0_SPCMD0 = (if MSmode then 0xE001 else 0x0001) + numBits * 256
    /\ Z.land (Z.shiftr (regs s0 SPI0_SPCMD0) SPCMD0_SPB_0_3) 0xF = numBits
    /\ (if numBits <? 4
        then Z.testbit (regs s0 SPI0_SPDCR) SPDCR_SPLW = true
             /\ writes_to SPI0_SPDR e0 = [0x55555555] /\ writes_to SPI0_SPDR_HA e0 = []
        else regs s0 SPI0_SPDCR = 0
             /\ writes_to SPI0_SPDR e0 = [] /\ writes_to SPI0_SPDR_HA e0 = [0xAAAA]))).
  { pose proof (small_cases numBits Hn) as Hc. cbn [In] in Hc.
    unfold_setup. rewrite !(trunc_small 8 numBits) by lia.
    destruct MSmode, IRQmode; wpx_run; regs_eval; cbn [app];
      repeat (destruct Hc as [<- | Hc]); try contradiction; try discriminate;
      (split; [reflexivity |]); (split; [reflexivity |]);
      cbv iota; change (bits SPI0_SPDCR) with 8;
      repeat split; try reflexivity;
      unfold trunc; rewrite Z.mod_pow2_bits_low by (unfold SPDCR_SPLW; lia);
      rewrite Z.lor_spec; apply orb_true_r. }
  assert (H1 : wp (setup_spi1 hw MSmode bitRate numBits IRQmode) s (fun _ s1 e1 =>
    regs s1 SPI1_SPCMD0 = (if MSmode then 0xE001 else 0x0001) + numBits * 256
    /\ Z.land (Z.shiftr (regs s1 SPI1_SPCMD0) SPCMD0_SPB_0_3) 0xF = numBits
    /\ (if numBits <? 4
        then Z.testbit (regs s1 SPI1_SPDCR) SPDCR_SPLW = true
             /\ writes_to SPI1_SPDR e1 = [0x55555555] /\ writes_to SPI1_SPDR_HA e1 = []
        else regs s1 SPI1_SPDCR = 0
             /\ writes_to SPI1_SPDR e1 = [] /\ writes_to SPI1_SPDR_HA e1 = [0xAAAA]))).
  { pose proof (small_cases numBits Hn) as Hc. cbn [In] in Hc.
    unfold_setup. rewrite !(trunc_small 8 numBits) by lia.
    destruct MSmode, IRQmode; wpx_run; regs_eval; cbn [app];
      repeat (destruct Hc as [<- | Hc]); try contradiction; try discriminate;
      (split; [reflexivity |]); (split; [reflexivity |]);
      cbv iota; change (bits SPI1_SPDCR) with 8;
      repeat split; try reflexivity;
      unfold trunc; rewrite Z.mod_pow2_bits_low by (unfold SPDCR_SPLW; lia);
      rewrite Z.lor_spec; apply orb_true_r. }
  unfold wp in H0, H1.
  destruct H0 as (A0 & B0 & C0). destruct H1 as (A1 & B1 & C1).
  split; [exact A0 |]. split; [exact A1 |]. split; [exact B0 |]. split; [exact B1 |].
  destruct (numBits <? 4).
  - destruct C0 as (? & ? & ?). destruct C1 as (? & ? & ?). repeat split; assumption.
  - destruct C0 as (? & ? & ?). destruct C1 as (? & ? & ?). repeat split; assumption.
Qed.

Lemma setup_spi_frame_length_witness :
  Forall (storage quiet_hw) [SPI0_SPCMD0; SPI0_SPDCR; SPI1_SPCMD0; SPI1_SPDCR]
  /\ 0 <= SPI_BITS_32 < 16
  /\ regs (exec (setup_spi1 quiet_hw SPI_MASTER SPI_BR_8M0Hz SPI_BITS_32 SPI_IRQEN)
             init_machine) SPI1_SPCMD0 = 0xE201.
Proof.
  assert (St : Forall (storage quiet_hw)
                 [SPI0_SPCMD0; SPI0_SPDCR; SPI1_SPCMD0; SPI1_SPDCR])
    by (repeat apply Forall_cons; try apply Forall_nil; intros n; reflexivity).
  assert (Hn : 0 <= SPI_BITS_32 < 16) by (unfold SPI_BITS_32; lia).
  split; [exact St |]. split; [exact Hn |].
  destruct (setup_spi_frame_length quiet_hw SPI_MASTER SPI_BR_8M0Hz SPI_BITS_32
              SPI_IRQEN init_machine St Hn) as (_ & H & _).
  rewrite H. reflexivity.
Defined.

(** ** The diagnostic routines *)

Lemma wp_pret {A} (a : A) s Q : Q (a, []) s [] -> wp (pret a) s Q.
Proof. exact (fun H => H). Qed.

Lemma wp_print o s Q : Q (tt, [o]) s [] -> wp (print o) s Q.
Proof. exact (fun H => H). Qed.

Lemma wp_println o s Q : Q (tt, [o; ONl]) s [] -> wp (println o) s Q.
Proof. exact (fun H => H). Qed.

Lemma wp_pbind {A B} (m : P A) (k : A -> P B) s Q :
  wp m s (fun ao s1 e1 =>
    wp (k (fst ao)) s1 (fun bo s2 e2 => Q (fst bo, snd ao ++ snd bo) s2 (e1 ++ e2))) ->
  wp (pbind m k) s Q.
Proof.
  unfold wp, pbind, bind, ret, result, exec, events.
  destruct (m s) as [[ao s1] e1]. cbn [fst snd].
  destruct (k (fst ao) s1) as [[bo s2] e2]. cbn [fst snd].
  rewrite app_nil_r. exact (fun H => H).
Qed.

Lemma wp_plift {A} (m : M A) s Q :
  wp m s (fun a s1 e1 => Q (a, []) s1 e1) -> wp (plift m) s Q.
Proof.
  unfold wp, plift, bind, ret, result, exec, events.
  destruct (m s) as [[a s1] e1]. cbn [fst snd].
  rewrite app_nil_r. exact (fun H => H).
Qed.

Lemma wp_peek hw r s Q :
  wp (load hw r) s (fun a s1 e1 => Q (a, []) s1 e1) -> wp (peek hw r) s Q.
Proof. apply wp_plift. Qed.

Lemma for_le_step fuel i b body :
  for_le (S fuel) i b body
  = if i <=? b
    then pbind (body i) (fun _ => for_le fuel (trunc 8 (i + 1)) b body)
    else pret i.
Proof. reflexivity. Qed.

(** Symbolic execution of a printing routine. *)
Ltac pw_step :=
  lazymatch goal with
  | |- wp (pbind _ _) _ _ => apply wp_pbind
  | |- wp (pret _) _ _ => apply wp_pret
  | |- wp (print _) _ _ => apply wp_print
  | |- wp (println _) _ _ => apply wp_println
  | |- wp (peek _ _) _ _ => apply wp_peek
  | |- wp (plift _) _ _ => apply wp_plift
  | |- wp (for_le (S _) ?i _ _) _ _ =>
      rewrite for_le_step;
      let j := eval vm_compute in (trunc 8 (i + 1)) in
      change (trunc 8 (i + 1)) with j
  | |- _ => wpx_step
  end;
  cbv beta; cbn [fst snd].

Ltac pw_run := repeat pw_step.

Lemma icu_trace_reads idx vals : forallb is_read (icu_trace idx vals) = true.
Proof.
  revert idx. induction vals as [|v tl IH]; intros idx; [reflexivity |].
  cbn [icu_trace forallb is_read]. apply IH.
Qed.



(** The loop of [print_icu_event_links] from slot [idx] on, with enough
    fuel to reach slot 32. *)
Lemma icu_links_wp hw names fuel :
  forall idx buf s,
    0 <= idx <= 32 -> (Z.to_nat (32 - idx) <= fuel)%nat ->
    wp (icu_links hw names fuel idx buf) s (fun ao s' evs =>
      exists vals,
        evs = icu_trace idx vals
        /\ Z.of_nat (length vals) <= 32 - idx
        /\ (idx < 32 -> vals <> [])
        /\ Forall (fun v => v <> IRQ_NO_EVENT /\ strcpy_P names v <> None)
                  (removelast vals)
        /\ Forall (fun v => 0 <= v < 2 ^ 32) vals
        /\ snd ao = icu_lines (strcpy_P names) idx vals
        /\ match fst ao with
           | Some b =>
               (Z.of_nat (length vals) < 32 - idx -> last vals 1 = IRQ_NO_EVENT)
               /\ (vals = [] -> b = buf)
               /\ (vals <> [] -> strcpy_P names (last vals 0) = Some b)
           | None => vals <> [] /\ strcpy_P names (last vals 0) = None
           end
        /\ zv s' = zv s /\ bv s' = bv s).
Proof.
  induction fuel as [|fuel IH]; intros idx buf s Hi Hf.
  - assert (idx = 32) by lia. subst idx.
    exists []. cbn. repeat split; try lia; try constructor; try congruence.
  - cbn [icu_links]. destruct (Z.ltb_spec idx 32) as [Hlt|Hge].
    + pw_run.
      destruct (strcpy_P names v) as [t|] eqn:Ec.
      * pw_run.
        -- (* the slot shows no event: the loop is left *)
           apply Z.eqb_eq in E. subst v.
           exists [IRQ_NO_EVENT]. cbn [icu_trace icu_lines app snd fst length removelast last].
           unfold ICU_IELSR. rewrite Ec.
           split; [reflexivity |].
           split; [change (Z.of_nat 1) with 1; lia |].
           split; [congruence |]. split; [constructor |].
           split; [constructor; [exact Hv | constructor] |].
           split; [reflexivity |].
           split; [| split; reflexivity].
           split; [intros _; reflexivity |].
           split; [discriminate | intros _; reflexivity].
        -- apply Z.eqb_neq in E.
           rewrite (trunc_small 8 (idx + 1)) by (change (2 ^ 8) with 256; lia).
           eapply wp_mono; [apply IH; lia |]. cbv beta.
           intros ao s' evs (vals & He & Hl & Hne & Hnz & Hr & Ho & Hres & Hz & Hb).
           exists (v :: vals). cbn [icu_trace icu_lines app snd fst length].
           rewrite He, Ho, Ec. unfold ICU_IELSR.
           split; [reflexivity |].
           split; [rewrite Nat2Z.inj_succ; lia |].
           split; [congruence |].
           split.
           { destruct vals as [|w tl]; [constructor |].
             cbn [removelast] in *. constructor; [| assumption].
             split; [exact E | congruence]. }
           split; [constructor; [exact Hv | exact Hr] |].
           split; [cbn [icu_line_start app]; reflexivity |].
           split; [| split; [rewrite Hz | rewrite Hb]; reflexivity].
           destruct (fst ao) as [b|].
           ++ destruct Hres as (Hlast & Hnil & Hcopy).
              split; [| split].
              ** intros Hlen. destruct vals as [|w tl].
                 { exfalso. apply Hne; [| reflexivity].
                   rewrite Nat2Z.inj_succ in Hlen. cbn [length] in Hlen. lia. }
                 cbn [last] in *. apply Hlast. rewrite Nat2Z.inj_succ in Hlen. lia.
              ** discriminate.
              ** intros _. destruct vals as [|w tl].
                 { cbn [last]. rewrite (Hnil eq_refl). exact Ec. }
                 cbn [last] in *. apply Hcopy. discriminate.
           ++ destruct Hres as (Hne' & Hcopy).
              split; [discriminate |].
              destruct vals as [|w tl]; [congruence |]. cbn [last] in *. exact Hcopy.
      * pw_run.
        exists [v]. cbn [icu_trace icu_lines app snd fst length removelast last].
        unfold ICU_IELSR. rewrite Ec.
        split; [reflexivity |].
        split; [change (Z.of_nat 1) with 1; lia |].
        split; [congruence |]. split; [constructor |].
        split; [constructor; [exact Hv | constructor] |].
        split; [reflexivity |].
        split; [split; [discriminate | reflexivity] | split; reflexivity].
    + assert (idx = 32) by lia. subst idx. pw_run.
      exists []. cbn. repeat split; try lia; try constructor; try congruence.
Qed.





Lemma last_default {A} (l : list A) d d' : l <> [] -> last l d = last l d'.
Proof.
  induction l as [|a [|b tl] IH]; intros Hne; [congruence | reflexivity |].
  change (last (b :: tl) d = last (b :: tl) d'). apply IH. discriminate.
Qed.



(** One call of [print_icu_event_links]. *)
Lemma print_icu_event_links_wp hw names buf s :
  wp (print_icu_event_links hw names buf) s (fun ao s' evs =>
    exists vals,
      evs = icu_trace 0 vals
      /\ (1 <= length vals <= 32)%nat
      /\ Forall (fun v => v <> IRQ_NO_EVENT /\ strcpy_P names v <> None)
                (removelast vals)
      /\ Forall (fun v => 0 <= v < 2 ^ 32) vals
      /\ match fst ao with
         | Some b =>
             strcpy_P names (last vals 0) = Some b
             /\ ((length vals < 32)%nat -> last vals 0 = IRQ_NO_EVENT)
             /\ snd ao = icu_lines (strcpy_P names) 0 vals ++ [OStr " "; ONl]
         | None =>
             strcpy_P names (last vals 0) = None
             /\ snd ao = icu_lines (strcpy_P names) 0 vals
         end
      /\ zv s' = zv s /\ bv s' = bv s).
Proof.
  unfold print_icu_event_links. pw_step.
  eapply wp_mono; [apply icu_links_wp; [lia | cbn; lia] |]. cbv beta.
  intros ao s' evs (vals & He & Hl & Hne & Hnz & Hr & Ho & Hres & Hz & Hb).
  assert (Hvals : vals <> []) by (apply Hne; lia).
  assert (Hlen : (1 <= length vals <= 32)%nat).
  { destruct vals as [|v tl]; [congruence |]. cbn [length] in *. lia. }
  destruct (fst ao) as [b|].
  - destruct Hres as (Hlast & _ & Hcopy). pw_run.
    exists vals. rewrite He, Ho, !app_nil_r.
    split; [reflexivity |]. split; [exact Hlen |]. split; [exact Hnz |].
    split; [exact Hr |]. split; [| split; assumption].
    split; [exact (Hcopy Hvals) |]. split; [| reflexivity].
    intros H. rewrite (last_default vals 0 1 Hvals). apply Hlast. lia.
  - destruct Hres as (_ & Hcopy). pw_run.
    exists vals. rewrite He, Ho, !app_nil_r.
    split; [reflexivity |]. split; [exact Hlen |]. split; [exact Hnz |].
    split; [exact Hr |]. split; [| split; assumption].
    split; [exact Hcopy | reflexivity].
Qed.

(** X16: the diagnostic routines only look.  For any argument (of those
    that take one: any that keeps the address arithmetic defined), every
    event of get_system_info, get_all_timer_status, get_timer_reg_values,
    print_dac_registers, print_adc_registers, print_adc_sample_state_reg,
    print_iic_serial_reg, print_spi_serial_reg, print_sci_serial_reg and
    print_icu_event_links is a register read: they write no register and
    make no call into the core besides printing.  The first nine assign no
    variable of the sketch.  print_icu_event_links assigns message_buffer
    and no other variable: as far as its table lookup is defined it reads
    the event-link slots in order, and when it returns message_buffer
    holds the text copied for the last slot read. *)
Theorem diagnostics_only_read hw pgm_text message_buffer s n :
  Forall (fun m : P unit =>
            forallb is_read (events m s) = true
            /\ zv (exec m s) = zv s /\ bv (exec m s) = bv s)
    [get_system_info hw; get_all_timer_status hw; get_timer_reg_values hw n;
     print_dac_registers hw; print_adc_registers hw;
     print_adc_sample_state_reg hw n; print_iic_serial_reg hw n;
     print_spi_serial_reg hw n; print_sci_serial_reg hw n]
  /\ (let m := print_icu_event_links hw pgm_text message_buffer in
      forallb is_read (events m s) = true
      /\ zv (exec m s) = zv s /\ bv (exec m s) = bv s
      /\ exists vals,
           events m s = icu_trace 0 vals
           /\ match fst (result m s) with
              | Some b => strcpy_P pgm_text (last vals 0) = Some b
              | None => strcpy_P pgm_text (last vals 0) = None
              end).
Proof.
  assert (R : forall m : P unit,
            wp m s (fun _ s' evs =>
              forallb is_read evs = true /\ zv s' = zv s /\ bv s' = bv s) ->
            forallb is_read (events m s) = true
            /\ zv (exec m s) = zv s /\ bv (exec m s) = bv s)
    by (intros m H; exact H).
  split.
  - repeat (apply Forall_cons; [apply R |]); [.. | apply Forall_nil].
    + unfold get_system_info. pw_run. repeat split; reflexivity.
    + unfold get_all_timer_status. pw_run. repeat split; reflexivity.
    + unfold get_timer_reg_values. pw_run. repeat split; reflexivity.
    + unfold print_dac_registers. pw_run. repeat split; reflexivity.
    + unfold print_adc_registers. pw_run. repeat split; reflexivity.
    + unfold print_adc_sample_state_reg. pw_run. repeat split; reflexivity.
    + unfold print_iic_serial_reg. pw_run. repeat split; reflexivity.
    + unfold print_spi_serial_reg. pw_run. repeat split; reflexivity.
    + unfold print_sci_serial_reg. pw_run. repeat split; reflexivity.
  - cbv zeta.
    pose proof (print_icu_event_links_wp hw pgm_text message_buffer s) as H.
    unfold wp in H. destruct H as (vals & He & _ & _ & _ & Hres & Hz & Hb).
    split; [rewrite He; apply icu_trace_reads |].
    split; [exact Hz |]. split; [exact Hb |].
    exists vals. split; [exact He |].
    destruct (fst (result (print_icu_event_links hw pgm_text message_buffer) s));
      apply Hres.
Qed.

Lemma gpt_channel_of off n :
  0 <= off - GTWP < 0x100 ->
  gpt_channel (U32 (GPTBASE + off + n * 0x100))
  = if (0 <=? n) && (n <=? 7) then Some n else None.
Proof.
  intros Ho. unfold gpt_channel, U32. cbn [addr]. cbv zeta.
  replace (GPTBASE + off + n * 256 - GPTBASE - GTWP) with ((off - GTWP) + n * 256) by lia.
  set (o := off - GTWP) in *.
  destruct (Z.leb_spec 0 n) as [H0|H0]; destruct (Z.leb_spec n 7) as [H7|H7];
    cbn [andb].
  - replace ((0 <=? o + n * 256) && (o + n * 256 <? 8 * 256)) with true
      by (symmetry; apply andb_true_iff; split; [apply Z.leb_le | apply Z.ltb_lt]; lia).
    f_equal. rewrite Z.div_add by lia. rewrite Z.div_small by lia. reflexivity.
  - replace (o + n * 256 <? 8 * 256) with false
      by (symmetry; apply Z.ltb_ge; lia).
    rewrite andb_false_r. reflexivity.
  - replace (0 <=? o + n * 256) with false by (symmetry; apply Z.leb_gt; lia).
    reflexivity.
  - lia.
Qed.


Lemma gpt_channel_int off n :
  0 <= off - GTWP < 0x100 ->
  - 2 ^ 31 <= GPTBASE + off + n * 0x100 < 2 ^ 31 ->
  gpt_channel (U32 (trunc 32 (GPTBASE + off + n * 0x100)))
  = if (0 <=? n) && (n <=? 7) then Some n else None.
Proof.
  intros Ho Hr. change (2 ^ 31) with 2147483648 in Hr.
  destruct (Z.le_gt_cases 0 (GPTBASE + off + n * 0x100)) as [Hp|Hn].
  - rewrite trunc_small by (change (2 ^ 32) with 4294967296; lia).
    apply gpt_channel_of. exact Ho.
  - assert (Hneg : n < 0) by (unfold GPTBASE, GTWP in *; lia).
    replace ((0 <=? n) && (n <=? 7)) with false
      by (symmetry; apply andb_false_iff; left; apply Z.leb_gt; exact Hneg).
    unfold trunc.
    replace (GPTBASE + off + n * 256) with ((GPTBASE + off + n * 256 + 2 ^ 32) + (-1) * 2 ^ 32)
      by lia.
    rewrite Z.mod_add by (change (2 ^ 32) with 4294967296; lia).
    rewrite Z.mod_small by (change (2 ^ 32) with 4294967296; lia).
    unfold gpt_channel, U32. cbn [addr]. cbv zeta.
    replace (GPTBASE + off + n * 256 + 2 ^ 32 - GPTBASE - GTWP <? 8 * 256) with false
      by (symmetry; apply Z.ltb_ge; change (2 ^ 32) with 4294967296;
          unfold GPTBASE, GTWP in *; lia).
    rewrite andb_false_r. reflexivity.
Qed.

(** X17: the registers get_timer_reg_values reads.  The routine makes
    seventeen reads, of the 32-bit words at GPTBASE + (GTWP, GTSSR, GTPSR,
    GTCSR, GTIOR, GTBER, GTUPSR, GTDNSR, GTCR, GTUDDTYC, GTST, GTCCRA..D,
    GTPR, GTPBR) + timer_number * 0x100, the sum taken as a 32-bit address.
    For an argument that keeps this int arithmetic within int
    (timer_number * 0x100 not below -2^31, and the largest sum, that for
    GTPBR, below 2^31) they all lie in channel timer_number of the GPT block
    when 0 <= timer_number <= 7, and all outside the block of the eight
    channels otherwise; the routine does not reject such an argument. *)
Theorem get_timer_reg_values_channel hw s n :
  - 2 ^ 31 <= n * 0x100 ->
  GPTBASE + GTPBR + n * 0x100 < 2 ^ 31 ->
  let evs := events (get_timer_reg_values hw n) s in
  map (fun e => match e with EvRead r _ => addr r | _ => -1 end) evs
  = map (fun off => trunc 32 (GPTBASE + off + n * 0x100))
        [GTWP; GTSSR; GTPSR; GTCSR; GTIOR; GTBER; GTUPSR; GTDNSR; GTCR; GTUDDTYC;
         GTST; GTCCRA; GTCCRB; GTCCRC; GTCCRD; GTPR; GTPBR]
  /\ Forall (fun e => exists r v,
               e = EvRead r v /\ bits r = 32
               /\ gpt_channel r = if (0 <=? n) && (n <=? 7) then Some n else None)
            evs.
Proof.
  intros Hlo Hhi. cbv zeta.
  change (wp (get_timer_reg_values hw n) s (fun _ _ evs =>
    map (fun e => match e with EvRead r _ => addr r | _ => -1 end) evs
    = map (fun off => trunc 32 (GPTBASE + off + n * 0x100))
          [GTWP; GTSSR; GTPSR; GTCSR; GTIOR; GTBER; GTUPSR; GTDNSR; GTCR; GTUDDTYC;
           GTST; GTCCRA; GTCCRB; GTCCRC; GTCCRD; GTPR; GTPBR]
    /\ Forall (fun e => exists r v,
                 e = EvRead r v /\ bits r = 32
                 /\ gpt_channel r = if (0 <=? n) && (n <=? 7) then Some n else None)
              evs)).
  unfold get_timer_reg_values. pw_run. cbn [app map]. split.
  - reflexivity.
  - change (2 ^ 31) with 2147483648 in *.
    repeat (apply Forall_cons;
            [ do 2 eexists; split; [reflexivity |]; split; [reflexivity |];
              apply gpt_channel_int;
              [ vm_compute; split; [discriminate | reflexivity]
              | change (2 ^ 31) with 2147483648;
                unfold GPTBASE, GTWP, GTSSR, GTPSR, GTCSR, GTIOR, GTBER, GTUPSR,
                  GTDNSR, GTCR, GTUDDTYC, GTST, GTCCRA, GTCCRB, GTCCRC, GTCCRD,
                  GTPR, GTPBR in *; lia ] |]).
    apply Forall_nil.
Qed.



(** X19: the SCI dump shows what setup_serial_sci2 programmed.  When the
    eight SCI2 registers the set-up writes hold what is written to them,
    print_sci_serial_reg(2) run after setup_serial_sci2 reads, in this
    order, RDR, TDR, SMR = 0x00, SSR, SCMR = 0xF2, BRR = 0x16, MDDR = 0xE2,
    SEMR = 0xC4, SNFR = 0x00, SPTR = 0x06 and SCR = 0x30 of unit 2, and
    prints the eleven values read. *)
Theorem sci_dump_after_setup hw s :
  Forall (storage hw)
    [SCI2_SMR; SCI2_SCMR; SCI2_BRR; SCI2_MDDR; SCI2_SEMR; SCI2_SNFR; SCI2_SPTR;
     SCI2_SCR] ->
  let s1 := exec (setup_serial_sci2 hw) s in
  exists rdr tdr ssr,
    events (print_sci_serial_reg hw 2) s1
    = [EvRead SCI2_RDR rdr; EvRead SCI2_TDR tdr; EvRead SCI2_SMR 0x00;
       EvRead SCI2_SSR ssr; EvRead SCI2_SCMR 0xF2; EvRead SCI2_BRR 0x16;
       EvRead SCI2_MDDR 0xE2; EvRead SCI2_SEMR 0xC4; EvRead SCI2_SNFR 0x00;
       EvRead SCI2_SPTR 0x06; EvRead SCI2_SCR 0x30]
    /\ hex_values (output (print_sci_serial_reg hw 2) s1)
       = [rdr; tdr; 0x00; ssr; 0xF2; 0x16; 0xE2; 0xC4; 0x00; 0x06; 0x30].
Proof.
  intros St. pose proof St as St'. split_storage St'. cbv zeta.
  assert (H : wp (setup_serial_sci2 hw) s (fun _ s1 _ =>
    regs s1 SCI2_SMR = 0x00 /\ regs s1 SCI2_SCMR = 0xF2 /\ regs s1 SCI2_BRR = 0x16
    /\ regs s1 SCI2_MDDR = 0xE2 /\ regs s1 SCI2_SEMR = 0xC4
    /\ regs s1 SCI2_SNFR = 0x00 /\ regs s1 SCI2_SPTR = 0x06
    /\ regs s1 SCI2_SCR = 0x30)).
  { unfold setup_serial_sci2. wpx_run. regs_eval. repeat split; reflexivity. }
  unfold wp in H. set (s1 := exec (setup_serial_sci2 hw) s) in *. clearbody s1.
  destruct H as (R1 & R2 & R3 & R4 & R5 & R6 & R7 & R8).
  change (wp (print_sci_serial_reg hw 2) s1 (fun ao _ evs =>
    exists rdr tdr ssr,
      evs
      = [EvRead SCI2_RDR rdr; EvRead SCI2_TDR tdr; EvRead SCI2_SMR 0x00;
         EvRead SCI2_SSR ssr; EvRead SCI2_SCMR 0xF2; EvRead SCI2_BRR 0x16;
         EvRead SCI2_MDDR 0xE2; EvRead SCI2_SEMR 0xC4; EvRead SCI2_SNFR 0x00;
         EvRead SCI2_SPTR 0x06; EvRead SCI2_SCR 0x30]
      /\ hex_values (snd ao)
         = [rdr; tdr; 0x00; ssr; 0xF2; 0x16; 0xE2; 0xC4; 0x00; 0x06; 0x30])).
  unfold print_sci_serial_reg. pw_run.
  rewrite R1, R2, R3, R4, R5, R6, R7, R8.
  do 3 eexists. split; reflexivity.
Qed.

Lemma sci_dump_after_setup_witness :
  Forall (storage quiet_hw)
    [SCI2_SMR; SCI2_SCMR; SCI2_BRR; SCI2_MDDR; SCI2_SEMR; SCI2_SNFR; SCI2_SPTR;
     SCI2_SCR]
  /\ nth 5 (hex_values (output (print_sci_serial_reg quiet_hw 2)
                          (exec (setup_serial_sci2 quiet_hw) init_machine))) 0
     = 0x16.
Proof.
  assert (St : Forall (storage quiet_hw)
    [SCI2_SMR; SCI2_SCMR; SCI2_BRR; SCI2_MDDR; SCI2_SEMR; SCI2_SNFR; SCI2_SPTR;
     SCI2_SCR])
    by (repeat apply Forall_cons; try apply Forall_nil; intros n; reflexivity).
  split; [exact St |].
  destruct (sci_dump_after_setup quiet_hw init_machine St) as (rdr & tdr & ssr & _ & H).
  rewrite H. reflexivity.
Defined.

(** X20: the IIC dump shows what setup_serial_iic1 programmed.  When the
    ten IIC1 registers the set-up writes hold what is written to them,
    print_iic_serial_reg(1) run after setup_serial_iic1 reads the twenty
    byte registers at offsets 0x00..0x13 of unit 1 in order, finding
    ICCR1 = 0x9F, ICCR2 = 0x00, ICMR1 = 0x28, ICMR2 = 0x05, ICMR3 = 0x00,
    ICFER = 0x77, ICSER = 0x00, ICIER = 0x00 at offsets 0..7 and
    ICBRL = 0xFB, ICBRH = 0xFA at offsets 0x10 and 0x11, and prints each
    offset followed by the value read. *)
Theorem iic_dump_after_setup hw s :
  Forall (storage hw)
    [IIC1_ICCR1; IIC1_ICCR2; IIC1_ICMR1; IIC1_ICMR2; IIC1_ICMR3; IIC1_ICFER;
     IIC1_ICSER; IIC1_ICIER; IIC1_ICBRL; IIC1_ICBRH] ->
  let s1 := exec (setup_serial_iic1 hw) s in
  exists v8 v9 vA vB vC vD vE vF v12 v13,
    let vals := [0x9F; 0x00; 0x28; 0x05; 0x00; 0x77; 0x00; 0x00; v8; v9;
                 vA; vB; vC; vD; vE; vF; 0xFB; 0xFA; v12; v13] in
    events (print_iic_serial_reg hw 1) s1
    = map (fun iv => EvRead (U8 (IICBASE + 0x3100 + fst iv)) (snd iv))
          (combine (map Z.of_nat (seq 0 20)) vals)
    /\ hex_values (output (print_iic_serial_reg hw 1) s1)
       = flat_map (fun iv => [fst iv; snd iv]) (combine (map Z.of_nat (seq 0 20)) vals).
Proof.
  intros St. pose proof St as St'. split_storage St'. cbv zeta.
  assert (H : wp (setup_serial_iic1 hw) s (fun _ s1 _ =>
    regs s1 IIC1_ICCR1 = 0x9F /\ regs s1 IIC1_ICCR2 = 0x00 /\ regs s1 IIC1_ICMR1 = 0x28
    /\ regs s1 IIC1_ICMR2 = 0x05 /\ regs s1 IIC1_ICMR3 = 0x00
    /\ regs s1 IIC1_ICFER = 0x77 /\ regs s1 IIC1_ICSER = 0x00
    /\ regs s1 IIC1_ICIER = 0x00 /\ regs s1 IIC1_ICBRL = 0xFB
    /\ regs s1 IIC1_ICBRH = 0xFA)).
  { unfold setup_serial_iic1. wpx_run. regs_eval. repeat split; reflexivity. }
  unfold wp in H. set (s1 := exec (setup_serial_iic1 hw) s) in *. clearbody s1.
  destruct H as (R1 & R2 & R3 & R4 & R5 & R6 & R7 & R8 & R9 & R10).
  change (wp (print_iic_serial_reg hw 1) s1 (fun ao _ evs =>
    exists v8 v9 vA vB vC vD vE vF v12 v13,
      evs
      = map (fun iv => EvRead (U8 (IICBASE + 0x3100 + fst iv)) (snd iv))
            (combine (map Z.of_nat (seq 0 20))
               [0x9F; 0x00; 0x28; 0x05; 0x00; 0x77; 0x00; 0x00; v8; v9;
                vA; vB; vC; vD; vE; vF; 0xFB; 0xFA; v12; v13])
      /\ hex_values (snd ao)
         = flat_map (fun iv => [fst iv; snd iv])
             (combine (map Z.of_nat (seq 0 20))
               [0x9F; 0x00; 0x28; 0x05; 0x00; 0x77; 0x00; 0x00; v8; v9;
                vA; vB; vC; vD; vE; vF; 0xFB; 0xFA; v12; v13]))).
  unfold print_iic_serial_reg. pw_run.
  rewrite R1, R2, R3, R4, R5, R6, R7, R8, R9, R10.
  do 10 eexists. split; reflexivity.
Qed.

Lemma iic_dump_after_setup_witness :
  Forall (storage quiet_hw)
    [IIC1_ICCR1; IIC1_ICCR2; IIC1_ICMR1; IIC1_ICMR2; IIC1_ICMR3; IIC1_ICFER;
     IIC1_ICSER; IIC1_ICIER; IIC1_ICBRL; IIC1_ICBRH]
  /\ nth 1 (hex_values (output (print_iic_serial_reg quiet_hw 1)
                          (exec (setup_serial_iic1 quiet_hw) init_machine))) 0
     = 0x9F.
Proof.
  assert (St : Forall (storage quiet_hw)
    [IIC1_ICCR1; IIC1_ICCR2; IIC1_ICMR1; IIC1_ICMR2; IIC1_ICMR3; IIC1_ICFER;
     IIC1_ICSER; IIC1_ICIER; IIC1_ICBRL; IIC1_ICBRH])
    by (repeat apply Forall_cons; try apply Forall_nil; intros n; reflexivity).
  split; [exact St |].
  destruct (iic_dump_after_setup quiet_hw init_machine St)
    as (v8 & v9 & vA & vB & vC & vD & vE & vF & v12 & v13 & _ & H).
  cbv zeta in H. rewrite H. reflexivity.
Defined.


(** X22: the DAC dump shows what setup_dac programmed.  When the five DAC
    registers hold what is written to them, print_dac_registers run after
    setup_dac reads DADR0 = 0x800 (mid scale), DACR = 0x5F, DADPR = 0x00,
    DAADSCR = 0x80 and DAVREFCR = 0x01, in this order, and prints these
    five values. *)
Theorem dac_dump_after_setup hw s :
  Forall (storage hw)
    [DAC12_DADR0; DAC12_DACR; DAC12_DADPR; DAC12_DAADSCR; DAC12_DAVREFCR] ->
  let s1 := exec (setup_dac hw) s in
  events (print_dac_registers hw) s1
  = [EvRead DAC12_DADR0 0x800; EvRead DAC12_DACR 0x5F; EvRead DAC12_DADPR 0x00;
     EvRead DAC12_DAADSCR 0x80; EvRead DAC12_DAVREFCR 0x01]
  /\ hex_values (output (print_dac_registers hw) s1) = [0x800; 0x5F; 0x00; 0x80; 0x01].
Proof.
  intros St. pose proof St as St'. split_storage St'. cbv zeta.
  assert (H : wp (setup_dac hw) s (fun _ s1 _ =>
    regs s1 DAC12_DADR0 = 0x800 /\ regs s1 DAC12_DACR = 0x5F
    /\ regs s1 DAC12_DADPR = 0x00 /\ regs s1 DAC12_DAADSCR = 0x80
    /\ regs s1 DAC12_DAVREFCR = 0x01)).
  { unfold_setup. wpx_run. regs_eval. repeat split; reflexivity. }
  unfold wp in H. set (s1 := exec (setup_dac hw) s) in *. clearbody s1.
  destruct H as (R1 & R2 & R3 & R4 & R5).
  change (wp (print_dac_registers hw) s1 (fun ao _ evs =>
    evs
    = [EvRead DAC12_DADR0 0x800; EvRead DAC12_DACR 0x5F; EvRead DAC12_DADPR 0x00;
       EvRead DAC12_DAADSCR 0x80; EvRead DAC12_DAVREFCR 0x01]
    /\ hex_values (snd ao) = [0x800; 0x5F; 0x00; 0x80; 0x01])).
  unfold print_dac_registers. pw_run.
  rewrite R1, R2, R3, R4, R5. split; reflexivity.
Qed.

Lemma dac_dump_after_setup_witness :
  Forall (storage quiet_hw)
    [DAC12_DADR0; DAC12_DACR; DAC12_DADPR; DAC12_DAADSCR; DAC12_DAVREFCR]
  /\ hex_values (output (print_dac_registers quiet_hw)
                   (exec (setup_dac quiet_hw) init_machine))
     = [0x800; 0x5F; 0x00; 0x80; 0x01].
Proof.
  assert (St : Forall (storage quiet_hw)
    [DAC12_DADR0; DAC12_DACR; DAC12_DADPR; DAC12_DAADSCR; DAC12_DAVREFCR])
    by (repeat apply Forall_cons; try apply Forall_nil; intros n; reflexivity).
  split; [exact St |].
  exact (proj2 (dac_dump_after_setup quiet_hw init_machine St)).
Defined.

(** X23: setup_serial_iic1 takes the pins of SPI0.  When the pin function
    registers of P100 and P101 hold what is written to them,
    setup_serial_iic1 leaves both with PSEL = 7 (the IIC function) and PMR
    set and every other bit clear, also when setup_spi0 ran before it: the
    SPI function (PSEL = 6) that setup_spi0 gave the two pins, and the
    bit 4 it set on P100, are gone, while P102 and P103 keep it. *)
Theorem setup_serial_iic1_takes_spi0_pins hw MSmode bitRate numBits IRQmode s :
  Forall (storage hw) [PFS_P100PFS; PFS_P101PFS; PFS_P102PFS; PFS_P103PFS] ->
  let s0 := exec (setup_spi0 hw MSmode bitRate numBits IRQmode) s in
  let s1 := exec (setup_serial_iic1 hw) s0 in
  Z.shiftr (regs s0 PFS_P100PFS) 24 = 6 /\ Z.shiftr (regs s0 PFS_P101PFS) 24 = 6
  /\ regs s1 PFS_P100PFS = Z.lor (Z.shiftl 7 24) (Z.shiftl 1 16)
  /\ regs s1 PFS_P101PFS = Z.lor (Z.shiftl 7 24) (Z.shiftl 1 16)
  /\ regs s1 PFS_P102PFS = Z.lor (Z.shiftl 6 24) (Z.shiftl 1 16)
  /\ regs s1 PFS_P103PFS = Z.lor (Z.shiftl 6 24) (Z.shiftl 1 16).
Proof.
  intros St. split_storage St. cbv zeta.
  assert (H0 : wp (setup_spi0 hw MSmode bitRate numBits IRQmode) s (fun _ s0 _ =>
    regs s0 PFS_P100PFS = 0x06010010 /\ regs s0 PFS_P101PFS = 0x06010000
    /\ regs s0 PFS_P102PFS = 0x06010000 /\ regs s0 PFS_P103PFS = 0x06010000)).
  { unfold_setup. destruct MSmode, IRQmode; wpx_run; regs_eval; repeat split; reflexivity. }
  unfold wp in H0.
  set (s0 := exec (setup_spi0 hw MSmode bitRate numBits IRQmode) s) in *. clearbody s0.
  destruct H0 as (A0 & A1 & A2 & A3).
  split; [rewrite A0; reflexivity |]. split; [rewrite A1; reflexivity |].
  change (wp (setup_serial_iic1 hw) s0 (fun _ s1 _ =>
    regs s1 PFS_P100PFS = Z.lor (Z.shiftl 7 24) (Z.shiftl 1 16)
    /\ regs s1 PFS_P101PFS = Z.lor (Z.shiftl 7 24) (Z.shiftl 1 16)
    /\ regs s1 PFS_P102PFS = Z.lor (Z.shiftl 6 24) (Z.shiftl 1 16)
    /\ regs s1 PFS_P103PFS = Z.lor (Z.shiftl 6 24) (Z.shiftl 1 16))).
  unfold setup_serial_iic1. wpx_run. regs_eval. rewrite A2, A3.
  repeat split; reflexivity.
Qed.

Lemma setup_serial_iic1_takes_spi0_pins_witness :
  Forall (storage quiet_hw) [PFS_P100PFS; PFS_P101PFS; PFS_P102PFS; PFS_P103PFS]
  /\ regs (exec (setup_serial_iic1 quiet_hw)
             (exec (setup_spi0 quiet_hw SPI_SLAVE SPI_BR_8M0Hz SPI_BITS_32 SPI_POLL)
                init_machine)) PFS_P100PFS = 0x07010000.
Proof.
  assert (St : Forall (storage quiet_hw)
                 [PFS_P100PFS; PFS_P101PFS; PFS_P102PFS; PFS_P103PFS])
    by (repeat apply Forall_cons; try apply Forall_nil; intros n; reflexivity).
  split; [exact St |].
  destruct (setup_serial_iic1_takes_spi0_pins quiet_hw SPI_SLAVE SPI_BR_8M0Hz
              SPI_BITS_32 SPI_POLL init_machine St) as (_ & _ & H & _).
  rewrite H. reflexivity.
Defined.



Lemma range_forall n (f : Z -> bool) :
  forallb f (map Z.of_nat (seq 0 n)) = true ->
  forall i, 0 <= i < Z.of_nat n -> f i = true.
Proof.
  intros H i Hi. rewrite forallb_forall in H. apply H.
  apply in_map_iff. exists (Z.to_nat i). split; [lia | apply in_seq; lia].
Qed.

(** X25: the name table against the event numbers.  string_table has 184
    entries; for every [#define IRQ_x v] other than IRQ_NO_EVENT entry v of
    the table is the name x, entry 0 is written "No_Event", no number is
    defined twice, and the four entries without a define (0x0E, 0x16, 0x40
    and 0xB7) hold PORT_UNUSED or UNUSED.  The seven event numbers setup
    and the SPI set-up write to the ICU are in the list. *)
Theorem string_table_names_events :
  length string_table = 184%nat
  /\ (forall name v, In (name, v) irq_events -> v <> IRQ_NO_EVENT ->
        exists t, table_entry v = Some t /\ name = ("IRQ_" ++ t)%string)
  /\ In ("IRQ_NO_EVENT"%string, IRQ_NO_EVENT) irq_events
  /\ table_entry IRQ_NO_EVENT = Some "No_Event"%string
  /\ NoDup (map snd irq_events)
  /\ (forall v, 0 <= v < 184 ->
        In v (map snd irq_events) \/ In v [0x0E; 0x16; 0x40; 0xB7])
  /\ map table_entry [0x0E; 0x16; 0x40; 0xB7]
     = [Some "PORT_UNUSED"; Some "UNUSED"; Some "UNUSED"; Some "UNUSED"]%string
  /\ incl [("IRQ_GPT7_OVF", IRQ_GPT7_OVF); ("IRQ_SPI0_SPRI", IRQ_SPI0_SPRI);
           ("IRQ_SPI0_SPTI", IRQ_SPI0_SPTI); ("IRQ_SPI0_SPEI", IRQ_SPI0_SPEI);
           ("IRQ_SPI1_SPRI", IRQ_SPI1_SPRI); ("IRQ_SPI1_SPTI", IRQ_SPI1_SPTI);
           ("IRQ_SPI1_SPEI", IRQ_SPI1_SPEI)]%string irq_events.
Proof.
  split; [reflexivity |]. split.
  { assert (H : forallb (fun nv : string * Z =>
                  (snd nv =? IRQ_NO_EVENT)
                  || match table_entry (snd nv) with
                     | Some t => String.eqb (fst nv) ("IRQ_" ++ t)
                     | None => false
                     end) irq_events = true) by (vm_compute; reflexivity).
    intros name v Hin Hv. rewrite forallb_forall in H.
    specialize (H _ Hin). cbn [fst snd] in H.
    apply orb_true_iff in H. destruct H as [H|H]; [apply Z.eqb_eq in H; contradiction |].
    destruct (table_entry v) as [t|]; [| discriminate].
    exists t. split; [reflexivity |]. apply String.eqb_eq. exact H. }
  split; [vm_compute; tauto |]. split; [reflexivity |]. split.
  { assert (H : forallb (fun v => (length (filter (Z.eqb v) (map snd irq_events)) =? 1)%nat)
                        (map snd irq_events) = true) by (vm_compute; reflexivity).
    apply (NoDup_count_occ' Z.eq_dec). intros v Hv.
    rewrite forallb_forall in H. specialize (H v Hv). apply Nat.eqb_eq in H.
    rewrite <- H. clear. induction (map snd irq_events) as [|a l IH]; [reflexivity |].
    cbn [count_occ filter]. destruct (Z.eq_dec a v) as [->|Hne].
    - rewrite Z.eqb_refl. cbn [length]. rewrite IH. reflexivity.
    - destruct (Z.eqb_spec v a) as [->|_]; [contradiction | exact IH]. }
  split.
  { intros v Hv.
    pose proof (range_forall 184
      (fun v => existsb (Z.eqb v) (map snd irq_events)
                || existsb (Z.eqb v) [0x0E; 0x16; 0x40; 0xB7])
      ltac:(vm_compute; reflexivity) v Hv) as H.
    cbv beta in H. apply orb_true_iff in H.
    destruct H as [H|H]; [left | right]; apply existsb_exists in H;
      destruct H as (x & Hx & Hvx); apply Z.eqb_eq in Hvx; subst x; exact Hx. }
  split; [reflexivity |].
  intros p Hp. cbn [In] in Hp.
  repeat (destruct Hp as [<- | Hp]; [vm_compute; tauto |]). contradiction.
Qed.




(** X27: one pass of the main loop.  Whatever the floating-point
    operations yield, loop() touches no register.  With loopFlag clear it
    prints nothing and leaves dfreq0 and tword_m0 alone; with loopFlag set
    it assigns to dfreq0 the quotient computed from adc_val_A1, stores the
    tuning word computed from dfreq0 (as a 32-bit value) in tword_m0 and
    prints one line with adc_val_A1, spi1_received_val and
    spi0_received_val in hexadecimal.  In both cases loopFlag and
    actionFlag are clear afterwards, no variable or flag other than these
    four changes, and the state reached is one the interleaving model
    reaches from the start state by main-loop assignments alone. *)
Theorem loop_reports_and_clears_flags
    hw (double : Type) (dfreq_of : Z -> double) (tword_of : double -> Z)
    (dfreq0 : double) s :
  let m := loop double dfreq_of tword_of dfreq0 in
  let s' := exec m s in
  events m s = []
  /\ regs s' = regs s
  /\ runs hw 0 s s'
  /\ bv s' loopFlag = false /\ bv s' actionFlag = false
  /\ bv s' sineFlag = bv s sineFlag /\ bv s' directionFlag = bv s directionFlag
  /\ (forall y, y <> tword_m0 -> zv s' y = zv s y)
  /\ (if bv s loopFlag
      then fst (result m s) = dfreq_of (zv s adc_val_A1)
           /\ zv s' tword_m0 = trunc 32 (tword_of (dfreq_of (zv s adc_val_A1)))
           /\ output m s
              = [OHex (zv s adc_val_A1); OStr ", "; OHex (zv s spi1_received_val);
                 OStr ", "; OHex (zv s spi0_received_val); ONl]
      else fst (result m s) = dfreq0
           /\ zv s' tword_m0 = zv s tword_m0 /\ output m s = []).
Proof.
  cbv zeta.
  change (wp (loop double dfreq_of tword_of dfreq0) s (fun ao s' evs =>
    evs = []
    /\ regs s' = regs s
    /\ runs hw 0 s s'
    /\ bv s' loopFlag = false /\ bv s' actionFlag = false
    /\ bv s' sineFlag = bv s sineFlag /\ bv s' directionFlag = bv s directionFlag
    /\ (forall y, y <> tword_m0 -> zv s' y = zv s y)
    /\ (if bv s loopFlag
        then fst ao = dfreq_of (zv s adc_val_A1)
             /\ zv s' tword_m0 = trunc 32 (tword_of (dfreq_of (zv s adc_val_A1)))
             /\ snd ao
                = [OHex (zv s adc_val_A1); OStr ", "; OHex (zv s spi1_received_val);
                   OStr ", "; OHex (zv s spi0_received_val); ONl]
        else fst ao = dfreq0 /\ zv s' tword_m0 = zv s tword_m0 /\ snd ao = []))).
  unfold loop. pw_run; cbv zeta; pw_run;
    cbn [app zv bv regs upd_z upd_b zvar_eqb bvar_eqb fst snd];
    rewrite ?E, ?E0;
    (split; [reflexivity |]); (split; [reflexivity |]);
    (split; [| repeat split; try reflexivity;
               try (intros y Hy; destruct y; try reflexivity; congruence)]).
  - (* both flags set *)
    set (t1 := mkMachine (upd_z (zv s) tword_m0
                            (trunc 32 (tword_of (dfreq_of (zv s adc_val_A1)))))
                         (bv s) (regs s) (loads s)).
    set (t2 := mkMachine (zv t1) (upd_b (bv t1) loopFlag false) (regs t1) (loads t1)).
    apply (runs_main hw 0 s t2);
      [apply (runs_main hw 0 s t1); [apply (runs_main hw 0 s s); [apply runs_start |] |] |].
    + exact (main_tword s (tword_of (dfreq_of (zv s adc_val_A1))) E).
    + exact (main_loopFlag t1 E).
    + exact (main_actionFlag t2 E0).
  - set (t1 := mkMachine (upd_z (zv s) tword_m0
                            (trunc 32 (tword_of (dfreq_of (zv s adc_val_A1)))))
                         (bv s) (regs s) (loads s)).
    apply (runs_main hw 0 s t1); [apply (runs_main hw 0 s s); [apply runs_start |] |].
    + exact (main_tword s (tword_of (dfreq_of (zv s adc_val_A1))) E).
    + exact (main_loopFlag t1 E).
  - apply (runs_main hw 0 s s); [apply runs_start |]. exact (main_actionFlag s E0).
  - apply runs_start.
Qed.

(** ** Instances of the properties that carry a condition *)

Lemma timer7interrupt_read_modify_write_witness :
  exists z,
    writes_to ICU_IELSR07 (events (timer7interrupt (const_hw 0xFFFFFFFF)) init_machine)
    = [z]
    /\ Z.testbit z 16 = false /\ Z.testbit z 17 = true.
Proof.
  destruct (timer7interrupt_read_modify_write (const_hw 0xFFFFFFFF) init_machine)
    as (x & w & y & z & _ & _ & _ & Hy & Hz & Hc).
  assert (Hr : reads_of ICU_IELSR07
                 (events (timer7interrupt (const_hw 0xFFFFFFFF)) init_machine)
               = [0xFFFFFFFF]) by (vm_compute; reflexivity).
  rewrite Hr in Hy. injection Hy as Hy. subst y.
  exists z. split; [exact Hz |].
  rewrite !Hc by lia. split; reflexivity.
Defined.

Lemma timer7interrupt_leaves_main_loop_variables_witness :
  In tword_m0 [adc_val_A0; tword_m0; spi1_transmit_val; spi0_transmit_val]
  /\ zv (exec (timer7interrupt quiet_hw) init_machine) tword_m0 = 100.
Proof.
  assert (Hin : In tword_m0 [adc_val_A0; tword_m0; spi1_transmit_val; spi0_transmit_val])
    by (simpl; tauto).
  split; [exact Hin |].
  rewrite (proj1 (timer7interrupt_leaves_main_loop_variables quiet_hw init_machine)
             tword_m0 Hin).
  reflexivity.
Defined.

Lemma compare_values_within_period_witness :
  bv init_machine sineFlag = true
  /\ exists c,
       writes_to GPT321_GTCCRC (events (timer7interrupt quiet_hw) init_machine) = [c]
       /\ 0 <= c <= regs (exec (setup_timers quiet_hw) init_machine) GPT321_GTPR.
Proof.
  split; [reflexivity |].
  destruct (compare_values_within_period quiet_hw quiet_hw init_machine init_machine)
    as (_ & (c & Hc & Hr) & _).
  exists c. split; [exact Hc | apply Hr; reflexivity].
Defined.


Lemma string_table_names_events_witness :
  In ("IRQ_GPT7_OVF"%string, IRQ_GPT7_OVF) irq_events
  /\ IRQ_GPT7_OVF <> IRQ_NO_EVENT
  /\ exists t, table_entry IRQ_GPT7_OVF = Some t /\ "IRQ_GPT7_OVF"%string = ("IRQ_" ++ t)%string.
Proof.
  destruct string_table_names_events as (_ & Hname & _ & _ & _ & _ & _ & Hincl).
  assert (Hin : In ("IRQ_GPT7_OVF"%string, IRQ_GPT7_OVF) irq_events)
    by (apply Hincl; simpl; tauto).
  assert (Hne : IRQ_GPT7_OVF <> IRQ_NO_EVENT) by (vm_compute; discriminate).
  split; [exact Hin |]. split; [exact Hne |].
  exact (Hname _ _ Hin Hne).
Defined.

Lemma get_timer_reg_values_channel_witness :
  (- 2 ^ 31 <= 8 * 0x100 /\ GPTBASE + GTPBR + 8 * 0x100 < 2 ^ 31)
  /\ Forall (fun e => exists r v,
               e = EvRead r v /\ bits r = 32 /\ gpt_channel r = None)
            (events (get_timer_reg_values quiet_hw 8) init_machine)
  /\ (- 2 ^ 31 <= (-1) * 0x100 /\ GPTBASE + GTPBR + (-1) * 0x100 < 2 ^ 31)
  /\ Forall (fun e => exists r v,
               e = EvRead r v /\ bits r = 32 /\ gpt_channel r = None)
            (events (get_timer_reg_values quiet_hw (-1)) init_machine).
Proof.
  assert (H8 : - 2 ^ 31 <= 8 * 0x100 /\ GPTBASE + GTPBR + 8 * 0x100 < 2 ^ 31)
    by (vm_compute; split; [discriminate | reflexivity]).
  assert (Hm : - 2 ^ 31 <= (-1) * 0x100 /\ GPTBASE + GTPBR + (-1) * 0x100 < 2 ^ 31)
    by (vm_compute; split; [discriminate | reflexivity]).
  split; [exact H8 |]. split.
  - exact (proj2 (get_timer_reg_values_channel quiet_hw init_machine 8
                    (proj1 H8) (proj2 H8))).
  - split; [exact Hm |].
    exact (proj2 (get_timer_reg_values_channel quiet_hw init_machine (-1)
                    (proj1 Hm) (proj2 Hm))).
Defined.



Lemma loop_reports_and_clears_flags_witness :
  adc_val_A1 <> tword_m0
  /\ zv (exec (loop Z (fun a => a * 1000 / 16384) (fun d => d * 2 ^ 32 / 23460) 0)
           (mkMachine eve_zv (fun _ => true) (fun _ => 0) 0%nat)) adc_val_A1
     = 0.
Proof.
  assert (Hne : adc_val_A1 <> tword_m0) by discriminate.
  split; [exact Hne |].
  destruct (loop_reports_and_clears_flags quiet_hw Z
              (fun a => a * 1000 / 16384) (fun d => d * 2 ^ 32 / 23460) 0
              (mkMachine eve_zv (fun _ => true) (fun _ => 0) 0%nat))
    as (_ & _ & _ & _ & _ & _ & _ & Hfr & _).
  rewrite (Hfr adc_val_A1 Hne). reflexivity.
Defined.
